(* ===== verification/_CoqProject ===== *)
-Q . S2P
Prelude.v
Endian.v
Plist.v
Codec.v
Runtime.v
Usbmux.v
Channel.v
Handshake.v
Protocol.v
Session.v
Heap.v
