(* ===== verification/Prelude.v ===== *)
(** * A verification development of the MobileSync client (src/src/MobileSync.c)

    The program.  [MobileSync.c] is the client side of Apple's MobileSync
    "device link" channel, from libiphone (libimobiledevice) of 2009.  It
    has four public entry points and one private helper:
    - [mobilesync_recv] (lines 134-168): reads one frame, a 4-byte
      big-endian length [N] followed by [N] bytes of binary plist, from a
      usbmuxd socket, looping on short reads, and decodes it;
    - [mobilesync_send] (lines 180-208): encodes a plist to binary, prefixes
      the 4-byte big-endian length and writes the frame in one call;
    - [mobilesync_new_client] (lines 32-102): connects to the device, runs
      the version handshake ([DLMessageVersionExchange] with version
      (100, 100), answered by [DLVersionsOk], then [DLMessageDeviceReady])
      and hands back a client;
    - [mobilesync_free_client] (lines 118-125) with the private
      [mobilesync_disconnect] (lines 104-116): sends [DLMessageDisconnect]
      best-effort, then closes the socket.
    The components interact by calls only: the handshake drives the framed
    channel, the channel drives the usbmuxd transport and the plist codec.
    Everything is single-threaded and blocking.

    The library, one file per component, in dependency order:
    - [Prelude] (this file): the [outcome] type and the state-passing monad
      [st] in which the C functions are written (with the scope
      [msync_scope] and its notations [x <- c ;; k] and [c ;;; k]), the
      error codes of [iphone_error_t], byte/[Z] conversions, the labelled
      closure [lstar] of a step relation, the hint database [msync] and
      the shared lemmas on lists and the monad.
    - [Endian]: the wire form of the length prefix as big-endian
      encoding ([be_encode], [be_decode], [be32]) and the host layer the
      code really runs: [datalen] and [length] are [uint32_t] values in
      little-endian memory ([load_u32], [store_u32], coqutil's
      [le_combine]/[le_split]) and [htonl]/[ntohl] are glibc's byte swap
      [bswap32], shown to agree with the wire form.
    - [Plist]: the plist tree of libplist (a collaborator not in src/,
      modelled from its documented behaviour: spec_modelled) and the node
      navigation the handshake uses ([plist_find_node_by_string],
      [plist_get_next_sibling], [plist_get_node_type],
      [plist_get_uint_val], [plist_add_sub_string_el]).
    - [Codec]: the interface [PlistCodec] of the serialisation collaborator
      ([plist_to_bin], [plist_from_bin]) with its round-trip law as the
      class [PlistCodecLaws], and one implementation (a type-length-value
      binary form) that discharges the law, so that every theorem stated
      against the interface also has a concrete instance to run on.
    - [Runtime]: the interface [CRuntime] of the C runtime the file uses:
      [malloc] of a block tagged with its allocation site ([block]:
      client, receive buffer, XML text, content, frame, plist tree),
      [free] (undefined on a block that is not live), and the debug log
      [log_dbg_msg] with the text of its record ([dbg_format]);
      libplist's allocation and [plist_free] of a tree ([st_plist_new],
      [st_plist_free] on a handle [plist_t], an address
      with the tree it points to); the logging block [debug_plist] that
      [mobilesync_recv] and [mobilesync_send] share.
    - [Usbmux]: the interface [Usbmux] of the transport collaborator
      ([usbmuxd_connect], [usbmuxd_recv], [usbmuxd_send],
      [usbmuxd_disconnect]) with its law [UsbmuxLaws] (a read never returns
      more than requested, a failed read returns nothing), and a scripted
      implementation [ScriptMux] whose state holds the bytes the device
      sends, a schedule saying how each read is split or fails, the open
      sockets and the trace of every call, together with the runtime: the
      heap of live blocks, the next fresh address, the debug switch and
      the log.  [heap_delta] accounts for the blocks a run leaves.
    - [Channel]: [mobilesync_recv] (with its read loop [recv_loop], the
      header read [header_value], the end [recv_finish] and the decode
      into a new tree [plist_from_bin_alloc]) and
      [mobilesync_send] (with the frame [build_query] and the [uint32_t]
      size [send_alloc_size]), written against the interfaces; the
      theorems that hold for every lawful transport (section
      [FramingFacts]); then the same functions run on [ScriptMux]
      (section [Scripted]), where the read schedule decides how the frame
      arrives.
    - [Handshake]: [mobilesync_new_client], split along the code into
      [exchange_versions] (lines 50-96, with [read_version]) and
      [ack_and_wait_ready] (lines 76-93), [send_new_plist] (build a
      message in a new tree, send it, free it: lines 76-83 and 109-114),
      [mobilesync_disconnect] and [mobilesync_free_client]; then their runs on [ScriptMux]: one lemma
      per phase of the code, [new_client_shape] composing them along the
      control flow, the heap accounting of each phase, and the theorems
      about every run read off the transport's trace, open sockets and
      heap.
    - [Protocol]: the abstract contract of the handshake, a labelled step
      relation [step] on phases (connecting, awaiting the version, the
      ready message, closing, ready, abandoned, failed) whose labels are
      the transport calls and the returned result, with the safety
      monitor [closed_for_good]; [new_client_refines] proves that every
      run of [mobilesync_new_client] is a run of the machine (a trace
      refinement, by simulation of each phase).
    - [Session]: a program using the library, [session] = the handshake
      followed by a list of [mobilesync_send], [mobilesync_recv] and
      [mobilesync_free_client] calls; every session is a run of the
      machine, which tells when its socket is left open; its heap and its
      debug log are accounted.
    - [Heap]: memory safety: the
      absence of undefined behaviour ([never_undefined]) for whole
      sessions, by generic combinators over the monad (a Section over any
      property of the runtime) and the hint databases [msync_wf] and
      [msync_nu].
    Each file ends with a Module of witnesses that evaluate the theorems
    on concrete devices with the TLV codec.

    How the C code is modelled.  A C function is a value of [st M A] =
    [M -> outcome (A * M)], where [M] is the state of the transport and
    the runtime, reached through the classes [Usbmux] and [CRuntime]: the
    C sequence of calls is the monadic sequence, the C return code is an
    [iphone_error_t] = [Z] compared with [Z.eqb] as the code compares it
    with [==], out-parameters ([plist_t *plist], [mobilesync_client_t
    *client]) are passed in and returned as [option] values (the outer
    [option] of a slot pointer is the pointer's nullness, the inner one
    the pointed-to value), pointers to heap blocks are addresses [Z] (0 is
    NULL), and lengths are [nat] with [uint32_t] wrap-around written out
    where the code can overflow ([length + 4] in [mobilesync_send]).  The
    [outcome] of a run is [Done], [OutOfFuel] (the read loop ran out of
    its fuel, i.e. the C loop has not terminated yet) or [Undefined] (the
    C code has undefined behaviour: the [memcpy] past a wrapped
    allocation, a NULL string formatted by the debug log, a [free] of a
    block that is not live).

    Fuel.  [recv_loop] takes a fuel argument, one unit per iteration of the
    [while] loop of lines 148-151.  Fuel is an honest bound: the
    termination theorems show that with the scripted transport, fuel
    [length schedule + 1] is always enough when the device has sent the
    whole frame, and the divergence theorem shows that when the transport
    answers with zero-byte successes before the frame is complete no fuel
    is enough (the C loop spins).
    [malloc] is assumed to succeed (the code never checks it), and its
    addresses are the positive numbers in order, so that a block is
    fresh.

    What the theorems show (one group per file; PROJECT.json lists them):
    - framing (with the byte-order lemmas of [Endian]: the [memcpy] of
      [htonl(length)] puts the big-endian bytes on the wire and [ntohl]
      of the loaded header is their big-endian value): the header is 4 bytes, [mobilesync_send] hands the
      transport exactly [be32 N ++ payload] when [N + 4] fits in 32 bits
      and has undefined behaviour exactly when it does not;
    - receiving: the loop never asks for a byte beyond the frame, a frame
      split over any schedule of short reads is reassembled and decoded,
      and the bytes after the frame stay in the transport; what a receive
      hands back is the decoding of the bytes it took off the stream, and
      on an error the transport's code unchanged; send then
      receive is the identity on valid messages; errors propagate; the
      guards reject null and already-populated arguments;
    - termination and divergence: with the whole frame sent and the
      header read in one piece, the receive returns within
      [length schedule + 1] iterations whatever mix of short and failed
      reads; when the transport delivers part of a frame and then only
      zero-byte successes it returns for no fuel; a header read split in two is zero-padded and misread;
    - handshake: a client is handed out only on success, on the connected
      and still open socket, after exactly one [DLVersionsOk]; the success
      scenario, in which every tree received or built is freed; the
      handshake returns on every device that sends whole frames
      (termination, one unit of fuel per receive); every error after the
      connect sends one
      [DLMessageDisconnect] and closes the socket exactly once, as the
      last call; and the divergences from the spec, each proved: success
      without a client and with the socket left open on a wrong version
      or a missing [DLMessageDeviceReady], [IPHONE_E_UNKNOWN_ERROR] on a
      failed connect, the ignored ack send, and a
      [mobilesync_free_client] that sends and closes but frees nothing
      (see PROJECT.json "findings");
    - protocol and sessions: every run of [mobilesync_new_client] refines
      the protocol machine; the socket is open at the end of a session
      exactly when the program never freed the client;
    - logging: a record is the text of the format string of lines 164
      and 188, whose size field is the XML length as [%i] prints a
      [uint32_t] (negative from 2^31 bytes on); the successful handshake
      logs the version received, the ack sent and the ready message
      received, in that order, and a program's calls are logged one
      record each, in order, each receive's record being of the tree it
      decoded from the bytes it consumed;
    - memory and logging: a receive frees what it allocates but the tree
      it hands the caller, and logs one record when debug output is on; a
      send leaks the [content] buffer of [plist_to_bin]; a failed
      handshake leaks the client struct, which nothing ever frees; a
      version message whose siblings are not integers leaks its tree
      (line 62); over a session whose program frees what it receives the
      heap grows by exactly one client block, one content block per send
      and at most that one tree; with debug output on,
      an undecodable payload makes the receive undefined (NULL ["%s"]);
      with debug output off and frames that fit, a session has no
      undefined behaviour.

    Not modelled: libplist's exact XML text (the codec interface renders
    a tree to XML; the TLV implementation uses libplist's elements
    without its declaration, indentation or escaping), the inside of a
    libplist tree (a tree is one block: [plist_add_sub_string_el]
    changes the value, not the heap), failure of [malloc] (never checked by the code), device
    discovery (the caller's [iphone_device_t]), and concurrency (the
    library is single-threaded and blocking).  Every line of code of
    [MobileSync.c] is modelled.
*)

From Stdlib Require Import ZArith List Lia.
From Stdlib Require Strings.Byte Strings.String Numbers.DecimalString.
Import ListNotations.
Local Open Scope Z_scope.

(** Decimal text of an integer, with a leading minus sign when negative. *)
Definition string_of_Z (z : Z) : String.string := DecimalString.NilEmpty.string_of_int (Z.to_int z).

(** ** Outcomes of a run and the state-passing monad *)

Inductive outcome (A : Type) : Type :=
| Done (a : A)
| OutOfFuel
| Undefined.
Arguments Done {A} a.
Arguments OutOfFuel {A}.
Arguments Undefined {A}.

Definition st (M A : Type) : Type := M -> outcome (A * M).

Definition st_ret {M A} (a : A) : st M A := fun m => Done (a, m).

Definition st_bind {M A B} (c : st M A) (f : A -> st M B) : st M B :=
  fun m =>
    match c m with
    | Done (a, m') => f a m'
    | OutOfFuel => OutOfFuel
    | Undefined => Undefined
    end.

(** A total operation of a collaborator, lifted into the monad. *)
Definition st_lift {M A} (op : M -> A * M) : st M A := fun m => Done (op m).

Declare Scope msync_scope.
Delimit Scope msync_scope with msync.
Notation "x <- c ;; k" := (st_bind c (fun x => k))
  (at level 61, c at next level, right associativity) : msync_scope.
Notation "' p <- c ;; k" := (st_bind c (fun x => match x with p => k end))
  (at level 61, p pattern, c at next level, right associativity) : msync_scope.
Notation "c ;;; k" := (st_bind c (fun _ => k))
  (at level 61, right associativity) : msync_scope.

(** ** Error codes of [iphone_error_t] (libiphone.h) *)

Definition iphone_error_t := Z.
Definition IPHONE_E_SUCCESS : iphone_error_t := 0.
Definition IPHONE_E_INVALID_ARG : iphone_error_t := -1.
Definition IPHONE_E_UNKNOWN_ERROR : iphone_error_t := -2.

(** ** Bytes *)

Abbreviation byte := Byte.byte (only parsing).

Definition Z_of_byte (b : byte) : Z := Z.of_N (Byte.to_N b).

Definition byte_of_Z (z : Z) : byte :=
  match Byte.of_N (Z.to_N (z mod 256)) with
  | Some b => b
  | None => Byte.x00
  end.

(** ** Generic lemmas *)

Create HintDb msync discriminated.
Create Rewrite HintDb msync.

Lemma st_bind_Done {M A B} (c : st M A) (f : A -> st M B) m a m' :
  c m = Done (a, m') -> st_bind c f m = f a m'.
Proof. unfold st_bind. intros ->. reflexivity. Qed.

Lemma st_bind_ret {M A B} (a : A) (f : A -> st M B) m :
  st_bind (st_ret a) f m = f a m.
Proof. reflexivity. Qed.

Lemma st_bind_lift {M A B} (op : M -> A * M) (f : A -> st M B) m :
  st_bind (st_lift op) f m = f (fst (op m)) (snd (op m)).
Proof. unfold st_bind, st_lift. destruct (op m). reflexivity. Qed.

Lemma st_bind_assoc {M A B C} (c : st M A) (f : A -> st M B) (g : B -> st M C) m :
  st_bind (st_bind c f) g m = st_bind c (fun a => st_bind (f a) g) m.
Proof. unfold st_bind. destruct (c m) as [[a m']| |]; reflexivity. Qed.

(** A sequence that finishes ran both its parts to the end. *)
Lemma st_bind_inv {M A B} (c : st M A) (f : A -> st M B) m r :
  st_bind c f m = Done r -> exists a m1, c m = Done (a, m1) /\ f a m1 = Done r.
Proof. unfold st_bind. destruct (c m) as [[a m1]| |]; intros H; try discriminate. eauto. Qed.

#[export] Hint Rewrite @st_bind_ret @st_bind_lift @st_bind_assoc : msync.

Lemma Z_of_byte_range b : 0 <= Z_of_byte b < 256.
Proof.
  unfold Z_of_byte. pose proof (Byte.to_N_bounded b). lia.
Qed.

Lemma Z_of_byte_of_Z z : Z_of_byte (byte_of_Z z) = z mod 256.
Proof.
  unfold byte_of_Z, Z_of_byte.
  pose proof (Z.mod_pos_bound z 256 ltac:(lia)) as Hr.
  destruct (Byte.of_N (Z.to_N (z mod 256))) as [b|] eqn:E.
  - apply Byte.to_of_N in E. rewrite E. lia.
  - exfalso. apply Byte.of_N_None_iff in E. lia.
Qed.

Lemma byte_of_Z_of_byte b : byte_of_Z (Z_of_byte b) = b.
Proof.
  unfold byte_of_Z. rewrite Z.mod_small by apply Z_of_byte_range.
  unfold Z_of_byte. rewrite N2Z.id, Byte.of_to_N. reflexivity.
Qed.

Lemma byte_of_Z_mod z : byte_of_Z (z mod 256) = byte_of_Z z.
Proof. unfold byte_of_Z. rewrite Z.mod_mod by lia. reflexivity. Qed.

#[export] Hint Rewrite Z_of_byte_of_Z byte_of_Z_of_byte byte_of_Z_mod : msync.
#[export] Hint Resolve Z_of_byte_range : msync.

Local Close Scope Z_scope.

Lemma firstn_app_exact {A} (l r : list A) n :
  n = length l -> firstn n (l ++ r) = l.
Proof. intros ->. rewrite firstn_app, firstn_all, Nat.sub_diag. simpl. apply app_nil_r. Qed.

Lemma skipn_app_exact {A} (l r : list A) n :
  n = length l -> skipn n (l ++ r) = r.
Proof. intros ->. rewrite skipn_app, skipn_all, Nat.sub_diag. reflexivity. Qed.

Lemma firstn_app_le {A} (l r : list A) n :
  (n <= length l)%nat -> firstn n (l ++ r) = firstn n l.
Proof. intros Hn. rewrite firstn_app. replace (n - length l)%nat with 0%nat by lia. apply app_nil_r. Qed.

Lemma skipn_app_le {A} (l r : list A) n :
  (n <= length l)%nat -> skipn n (l ++ r) = skipn n l ++ r.
Proof. intros Hn. rewrite skipn_app. replace (n - length l)%nat with 0%nat by lia. reflexivity. Qed.

#[export] Hint Rewrite @length_app @length_firstn @length_skipn @app_nil_r : msync.

(** [msync_run] unfolds the monad's plumbing after a step of computation. *)
Ltac msync_run :=
  cbn [st_bind st_ret st_lift fst snd] in *.

(** ** Runs of a labelled transition system

    [lstar step s t s'] says that [step] leads from [s] to [s'] through
    the labels [t], in order (the labelled form of [star] in Leroy's
    Sequences library). *)
Section LStar.
Context {S L : Type} (step : S -> L -> S -> Prop).

Inductive lstar : S -> list L -> S -> Prop :=
| lstar_refl s : lstar s [] s
| lstar_step s l s1 t s2 : step s l s1 -> lstar s1 t s2 -> lstar s (l :: t) s2.

Lemma lstar_one s l s1 : step s l s1 -> lstar s [l] s1.
Proof. intros H. econstructor; [exact H | constructor]. Qed.

Lemma lstar_trans s1 t1 s2 t2 s3 : lstar s1 t1 s2 -> lstar s2 t2 s3 -> lstar s1 (t1 ++ t2) s3.
Proof. induction 1; simpl; [auto | intros; econstructor; eauto]. Qed.

End LStar.

#[export] Hint Constructors lstar : msync.
#[export] Hint Resolve lstar_one lstar_trans : msync.
