(* ===== verification/Endian.v ===== *)
(** * Byte order: [htonl] and [ntohl] as they are used on frame headers

    [mobilesync_send] stores [length = htonl(length)] and [memcpy]s its
    four bytes to the front of the frame (lines 201-202);
    [mobilesync_recv] reads the four header bytes into the [uint32_t]
    [datalen] and applies [ntohl] (lines 142-143).  Two layers model this:
    - the wire: [be_encode w z] is the big-endian encoding of [z] (modulo
      [2^(8w)]) on [w] bytes and [be_decode] reads it back; [be32] is the
      4-byte header of a frame;
    - the host: a [uint32_t] in memory is the little-endian encoding of
      coqutil's [le_combine]/[le_split] ([load_u32], [store_u32]; the
      hosts libimobiledevice runs on, x86 and ARM, are little-endian), and
      [htonl]/[ntohl] are there the byte swap [bswap32], written with the
      shifts and masks of glibc's [__bswap_constant_32].
    The lemmas [ntohl_load_u32] and [store_u32_htonl] show that the two
    layers agree: the bytes the code stores are [be32 length], and the
    value it reads back from any four header bytes is their big-endian
    value.  The components' theorems on frames rest on them. *)

From Stdlib Require Import ZArith List Lia.
From coqutil Require Import Word.LittleEndianList Z.prove_Zeq_bitwise.
From coqutil Require Byte.
From S2P Require Import Prelude.
Import ListNotations.
Local Open Scope Z_scope.

(** ** Definitions *)

Fixpoint be_encode (w : nat) (z : Z) : list byte :=
  match w with
  | O => []
  | S w' => be_encode w' (z / 256) ++ [byte_of_Z z]
  end.

Definition be_decode (l : list byte) : Z :=
  fold_left (fun acc b => acc * 256 + Z_of_byte b) l 0.

(** The 4-byte big-endian header of a frame: the wire form of [N]. *)
Definition be32 (n : Z) : list byte := be_encode 4 n.

(** [__bswap_32] as glibc writes it for constants, with shifts and masks. *)
Definition bswap32 (x : Z) : Z :=
  Z.lor (Z.lor (Z.shiftl (Z.land x 255) 24) (Z.shiftl (Z.land (Z.shiftr x 8) 255) 16))
        (Z.lor (Z.shiftl (Z.land (Z.shiftr x 16) 255) 8) (Z.land (Z.shiftr x 24) 255)).


(** A [uint32_t] read from, and written to, four bytes of memory. *)
Definition load_u32 (mem : list byte) : Z := le_combine mem.
Definition store_u32 (x : Z) : list byte := le_split 4 x.

(** [htonl] and [ntohl] on a little-endian host. *)
Definition htonl (x : Z) : Z := bswap32 x.
Definition ntohl (x : Z) : Z := bswap32 x.

Definition u32_max : Z := 2 ^ 32.

(** ** Lemmas *)

Lemma be_encode_length w z : length (be_encode w z) = w.
Proof.
  revert z. induction w as [|w IH]; intros z; simpl; [reflexivity|].
  rewrite length_app, IH. simpl. lia.
Qed.

Lemma be_decode_snoc l b : be_decode (l ++ [b]) = be_decode l * 256 + Z_of_byte b.
Proof. unfold be_decode. rewrite fold_left_app. reflexivity. Qed.

Lemma be_decode_app l r :
  be_decode (l ++ r) = be_decode l * 2 ^ (8 * Z.of_nat (length r)) + be_decode r.
Proof.
  induction r as [|b r IH] using rev_ind.
  - rewrite app_nil_r. simpl. unfold be_decode at 3. simpl. lia.
  - rewrite app_assoc, !be_decode_snoc, IH, length_app. simpl length.
    replace (8 * Z.of_nat (length r + 1)) with (8 * Z.of_nat (length r) + 8) by lia.
    rewrite Z.pow_add_r by lia. change (2 ^ 8) with 256. ring.
Qed.

#[export] Hint Rewrite be_encode_length be_decode_snoc : msync.

Lemma be_decode_range l : 0 <= be_decode l < 2 ^ (8 * Z.of_nat (length l)).
Proof.
  induction l as [|b l IH] using rev_ind.
  - cbn. lia.
  - rewrite be_decode_snoc, length_app. simpl length.
    replace (8 * Z.of_nat (length l + 1)) with (8 * Z.of_nat (length l) + 8) by lia.
    rewrite Z.pow_add_r by lia. change (2 ^ 8) with 256.
    pose proof (Z_of_byte_range b). nia.
Qed.

Lemma be_decode_encode w z : be_decode (be_encode w z) = z mod 2 ^ (8 * Z.of_nat w).
Proof.
  revert z. induction w as [|w IH]; intros z.
  - simpl. rewrite Z.mod_1_r. reflexivity.
  - simpl be_encode. rewrite be_decode_snoc, IH, Z_of_byte_of_Z.
    replace (8 * Z.of_nat (S w)) with (8 + 8 * Z.of_nat w) by lia.
    rewrite Z.pow_add_r by lia. change (2 ^ 8) with 256.
    rewrite Z.rem_mul_r by (try apply Z.pow_pos_nonneg; lia). ring.
Qed.

Lemma be_encode_decode l : be_encode (length l) (be_decode l) = l.
Proof.
  induction l as [|b l IH] using rev_ind; [reflexivity|].
  rewrite length_app, Nat.add_comm. simpl be_encode.
  rewrite be_decode_snoc.
  pose proof (Z_of_byte_range b).
  rewrite Z.div_add_l, Z.div_small, Z.add_0_r, IH by lia.
  f_equal. f_equal. rewrite <- byte_of_Z_mod, Z.add_comm, Z.mod_add, Z.mod_small by lia. apply byte_of_Z_of_byte.
Qed.

Lemma be_encode_mod w z : be_encode w (z mod 2 ^ (8 * Z.of_nat w)) = be_encode w z.
Proof.
  pose proof (be_encode_decode (be_encode w z)) as H.
  rewrite be_encode_length, be_decode_encode in H. exact H.
Qed.

(** A header read short by [k] bytes leaves the zero bytes [datalen] was
    initialised with in the low-order positions. *)
Lemma be_decode_zeros l k :
  be_decode (l ++ repeat Byte.x00 k) = be_decode l * 2 ^ (8 * Z.of_nat k).
Proof.
  rewrite be_decode_app, repeat_length.
  enough (be_decode (repeat Byte.x00 k) = 0) as -> by lia.
  induction k as [|k IH]; [reflexivity|].
  unfold be_decode in *. simpl. exact IH.
Qed.

Lemma be32_length n : length (be32 n) = 4%nat.
Proof. apply be_encode_length. Qed.

#[export] Hint Rewrite be32_length : msync.

Lemma be_encode_split a b z :
  be_encode (a + b) z = be_encode a (z / 2 ^ (8 * Z.of_nat b)) ++ be_encode b z.
Proof.
  revert z. induction b as [|b IH]; intros z.
  - rewrite Nat.add_0_r, Z.div_1_r, app_nil_r. reflexivity.
  - rewrite Nat.add_succ_r. cbn [be_encode]. rewrite IH, <- app_assoc.
    f_equal. f_equal. rewrite Z.div_div by lia. f_equal.
    rewrite Nat2Z.inj_succ, Z.mul_succ_r, Z.pow_add_r by lia. change (2 ^ 8) with 256. ring.
Qed.

Lemma be_encode_zero a : be_encode a 0 = repeat Byte.x00 a.
Proof.
  induction a as [|a IH]; [reflexivity|].
  simpl be_encode. rewrite Z.div_0_l, IH by lia.
  rewrite <- Nat.add_1_r, repeat_app. reflexivity.
Qed.

(** [be32] is injective on 32-bit values: the header decodes back. *)
Lemma be_decode_be32 (n : Z) : 0 <= n < u32_max -> be_decode (be32 n) = n.
Proof.
  intros Hn. unfold be32. rewrite be_decode_encode. apply Z.mod_small. exact Hn.
Qed.

(** Every 4-byte header decodes to a 32-bit value whose [be32] is the
    same four bytes. *)
Lemma be32_be_decode (hdr : list byte) :
  length hdr = 4%nat -> 0 <= be_decode hdr < u32_max /\ be32 (be_decode hdr) = hdr.
Proof.
  intros Hlen. unfold be32, u32_max. split.
  - pose proof (be_decode_range hdr) as H. rewrite Hlen in H. exact H.
  - rewrite <- Hlen. apply be_encode_decode.
Qed.

(** A value below [2^(8(4-k))] has [k] leading zero bytes. *)
Lemma be32_leading_zeros k n :
  (k <= 4)%nat -> 0 <= n < 2 ^ (8 * Z.of_nat (4 - k)) ->
  be32 n = repeat Byte.x00 k ++ be_encode (4 - k) n.
Proof.
  intros Hk Hn. unfold be32.
  replace 4%nat with (k + (4 - k))%nat at 1 by lia.
  rewrite be_encode_split, Z.div_small, be_encode_zero by lia. reflexivity.
Qed.

(** *** The host layer *)

(** Big-endian decoding is little-endian decoding of the reversed bytes. *)
Lemma be_decode_le_combine l : be_decode l = le_combine (rev l).
Proof.
  induction l as [|b l IH] using rev_ind; [reflexivity|].
  rewrite be_decode_snoc, rev_app_distr, IH. change (rev [b]) with [b].
  change (le_combine ([b] ++ rev l)) with (Z.lor (Z_of_byte b) (Z.shiftl (le_combine (rev l)) 8)).
  pose proof (Z_of_byte_range b). pose proof (le_combine_bound (rev l)).
  assert (Hd : Z.land (Z_of_byte b) (Z.shiftl (le_combine (rev l)) 8) = 0)
    by (change 256 with (2 ^ 8) in *; prove_Zeq_bitwise).
  rewrite <- Z.lxor_lor, <- Z.add_nocarry_lxor, Z.shiftl_mul_pow2 by (exact Hd || lia).
  lia.
Qed.

Lemma le_split_4 y : le_split 4 y =
  [Byte.byte.of_Z y; Byte.byte.of_Z (Z.shiftr y 8); Byte.byte.of_Z (Z.shiftr (Z.shiftr y 8) 8);
   Byte.byte.of_Z (Z.shiftr (Z.shiftr (Z.shiftr y 8) 8) 8)].
Proof. reflexivity. Qed.

(** The four bytes of [bswap32 x] are those of [x] in reverse order. *)
Lemma le_split_bswap32 x : le_split 4 (bswap32 x) = rev (le_split 4 x).
Proof.
  rewrite !le_split_4. unfold bswap32. simpl rev.
  apply (f_equal2 cons); [|apply (f_equal2 cons); [|apply (f_equal2 cons);
    [|apply (f_equal2 cons); [|reflexivity]]]];
    apply Byte.byte.unsigned_inj; rewrite !Byte.byte.unsigned_of_Z; unfold Byte.byte.wrap;
    rewrite <- !Z.land_ones by lia; change 255 with (Z.ones 8); prove_Zeq_bitwise.
Qed.

Lemma bswap32_range x : 0 <= bswap32 x < u32_max.
Proof.
  assert (E : bswap32 x = Z.land (bswap32 x) (Z.ones 32))
    by (unfold bswap32; change 255 with (Z.ones 8); prove_Zeq_bitwise).
  rewrite E, Z.land_ones by lia. apply Z.mod_pos_bound. reflexivity.
Qed.

Lemma le_combine_split_bswap32 y : le_combine (le_split 4 (bswap32 y)) = bswap32 y.
Proof.
  rewrite le_combine_split. apply Z.mod_small. exact (bswap32_range y).
Qed.

(** [ntohl] of the [uint32_t] loaded from four bytes of memory is their
    big-endian value. *)
Lemma ntohl_load_u32 mem : length mem = 4%nat -> ntohl (load_u32 mem) = be_decode mem.
Proof.
  intros Hlen. unfold ntohl, load_u32. rewrite be_decode_le_combine.
  rewrite <- (split_le_combine mem) at 2. rewrite Hlen, <- le_split_bswap32.
  symmetry. apply le_combine_split_bswap32.
Qed.

(** The four bytes of [htonl(n)] in memory are the big-endian [be32 n]. *)
Lemma store_u32_htonl n : store_u32 (htonl n) = be32 n.
Proof.
  unfold store_u32, htonl, be32. rewrite le_split_bswap32.
  rewrite <- (be_encode_decode (rev (le_split 4 n))), length_rev, length_le_split,
    be_decode_le_combine, rev_involutive, le_combine_split.
  apply be_encode_mod.
Qed.

(** [ntohl] undoes [htonl] on every [uint32_t] (line 203 reads the length
    back with [ntohl(length)]). *)
Lemma ntohl_htonl n : 0 <= n < u32_max -> ntohl (htonl n) = n.
Proof.
  intros Hn. unfold ntohl, htonl.
  rewrite <- le_combine_split_bswap32, !le_split_bswap32, rev_involutive, le_combine_split.
  apply Z.mod_small. exact Hn.
Qed.

#[export] Hint Rewrite le_split_bswap32 le_combine_split_bswap32 store_u32_htonl : msync.

