(* ===== verification/Plist.v ===== *)
(** * Plist trees and the node navigation of libplist

    libplist is a collaborator of [MobileSync.c], not part of src/: its
    functions are modelled from their documented behaviour.  A plist node
    is a tree value; a dictionary keeps its entries, as libplist's GNode
    representation does, as a flat child list of [PKey] nodes each followed
    by its value.  A node pointer handed out by a search ([plist_t] in C)
    is a [plist_node]: the node and the siblings that follow it in its
    parent, which is what [plist_get_next_sibling] walks; [None] is the
    NULL pointer.  The search [plist_find_node_by_string] walks the
    children of its argument in order, returning the first string node
    with the given value and descending into arrays and dictionaries
    before moving on (depth first). *)

From Stdlib Require Import ZArith String List Lia.
From S2P Require Import Prelude.
Import ListNotations.
Local Open Scope Z_scope.

(** ** Data *)

Inductive plist : Type :=
| PBoolean (b : bool)
| PUint (n : Z)
| PReal (bits : Z)
| PString (s : string)
| PArray (items : list plist)
| PDict (items : list plist)
| PDate (t : Z)
| PData (d : list byte)
| PKey (k : string).

Inductive plist_type : Type :=
| PLIST_BOOLEAN | PLIST_UINT | PLIST_REAL | PLIST_STRING | PLIST_ARRAY
| PLIST_DICT | PLIST_DATE | PLIST_DATA | PLIST_KEY | PLIST_NONE.

Definition plist_type_eqb (a b : plist_type) : bool :=
  match a, b with
  | PLIST_BOOLEAN, PLIST_BOOLEAN | PLIST_UINT, PLIST_UINT
  | PLIST_REAL, PLIST_REAL | PLIST_STRING, PLIST_STRING
  | PLIST_ARRAY, PLIST_ARRAY | PLIST_DICT, PLIST_DICT
  | PLIST_DATE, PLIST_DATE | PLIST_DATA, PLIST_DATA
  | PLIST_KEY, PLIST_KEY | PLIST_NONE, PLIST_NONE => true
  | _, _ => false
  end.

(** A node pointer: the node and the siblings after it. *)
Record plist_node : Type := mk_node { node_val : plist; node_next : list plist }.

(** ** Induction over the nested tree *)

Section plist_ind_nested.
Variable P : plist -> Prop.
Hypothesis HBoolean : forall b, P (PBoolean b).
Hypothesis HUint : forall n, P (PUint n).
Hypothesis HReal : forall r, P (PReal r).
Hypothesis HString : forall s, P (PString s).
Hypothesis HArray : forall l, Forall P l -> P (PArray l).
Hypothesis HDict : forall l, Forall P l -> P (PDict l).
Hypothesis HDate : forall t, P (PDate t).
Hypothesis HData : forall d, P (PData d).
Hypothesis HKey : forall k, P (PKey k).

Fixpoint plist_ind_nested (p : plist) : P p :=
  let fix items (l : list plist) : Forall P l :=
    match l with
    | [] => Forall_nil P
    | x :: r => Forall_cons x (plist_ind_nested x) (items r)
    end in
  match p with
  | PBoolean b => HBoolean b
  | PUint n => HUint n
  | PReal r => HReal r
  | PString s => HString s
  | PArray l => HArray l (items l)
  | PDict l => HDict l (items l)
  | PDate t => HDate t
  | PData d => HData d
  | PKey k => HKey k
  end.
End plist_ind_nested.

(** ** Operations *)

Definition plist_type_of (p : plist) : plist_type :=
  match p with
  | PBoolean _ => PLIST_BOOLEAN
  | PUint _ => PLIST_UINT
  | PReal _ => PLIST_REAL
  | PString _ => PLIST_STRING
  | PArray _ => PLIST_ARRAY
  | PDict _ => PLIST_DICT
  | PDate _ => PLIST_DATE
  | PData _ => PLIST_DATA
  | PKey _ => PLIST_KEY
  end.

(** [plist_get_node_type]: [PLIST_NONE] for a NULL node. *)
Definition plist_get_node_type (n : option plist_node) : plist_type :=
  match n with
  | Some nd => plist_type_of (node_val nd)
  | None => PLIST_NONE
  end.

(** [plist_get_next_sibling]: NULL for NULL and for a last child. *)
Definition plist_get_next_sibling (n : option plist_node) : option plist_node :=
  match n with
  | Some (mk_node _ (x :: r)) => Some (mk_node x r)
  | _ => None
  end.

(** [plist_get_uint_val(node, &val)]: stores the value only when the node
    is an unsigned integer; [old] is the value [val] held before. *)
Definition plist_get_uint_val (n : option plist_node) (old : Z) : Z :=
  match n with
  | Some (mk_node (PUint v) _) => v
  | _ => old
  end.

Definition plist_children (p : plist) : list plist :=
  match p with
  | PArray l | PDict l => l
  | _ => []
  end.

Definition string_node_eqb (s : string) (p : plist) : bool :=
  match p with
  | PString s' => String.eqb s' s
  | _ => false
  end.

(** [plist_find_node(p, PLIST_STRING, s)]: the loop over the children of
    [p] returns the first matching child, searching each array or
    dictionary child before moving on to its siblings. *)
Fixpoint plist_find_node (s : string) (p : plist) {struct p} : option plist_node :=
  let fix loop (l : list plist) : option plist_node :=
    match l with
    | [] => None
    | x :: rest =>
        if string_node_eqb s x then Some (mk_node x rest)
        else
          match plist_find_node s x with
          | Some n => Some n
          | None => loop rest
          end
    end in
  match p with
  | PArray l | PDict l => loop l
  | _ => None
  end.

(** The same loop, on a child list. *)
Definition find_in_children (s : string) (l : list plist) : option plist_node :=
  plist_find_node s (PArray l).

(** [plist_find_node_by_string(plist, s)]: NULL for a NULL plist. *)
Definition plist_find_node_by_string (root : option plist) (s : string) : option plist_node :=
  match root with
  | Some p => plist_find_node s p
  | None => None
  end.

Definition plist_new_array : plist := PArray [].

(** [plist_add_sub_string_el]: appends a string child to an array. *)
Definition plist_add_sub_string_el (p : plist) (s : string) : plist :=
  match p with
  | PArray l => PArray (l ++ [PString s])
  | _ => p
  end.
