(* ===== verification/Codec.v ===== *)
(** * The binary plist codec: interface and one implementation

    [mobilesync_send] calls [plist_to_bin] (line 194) and
    [mobilesync_recv] calls [plist_from_bin] (line 158); both belong to
    libplist, a collaborator outside src/.  The class [PlistCodec] is what
    the channel needs of it: an encoder, a decoder that may fail, the
    set of values the encoder handles ([plist_valid]), and the XML
    rendering [plist_to_xml] the debug log prints (lines 163 and 187).  [PlistCodecLaws]
    is the round-trip law the spec demands (section 4.3: decoding the
    binary form of a valid message gives the message back).  The channel's
    theorems are proved against these classes.

    [TLV] is an implementation (a tag-length-value binary form, not
    Apple's bplist00 layout) that discharges the law; it exists so that
    the theorems stated against the interface can be run on concrete
    frames.  Its decoder works with fuel, and [tlv_from_bin] gives it the
    length of the input, which the round-trip proof shows is enough. *)

From Stdlib Require Import ZArith String Ascii List Bool Lia.
From S2P Require Import Prelude Endian Plist.
Import ListNotations.
Local Open Scope Z_scope.

(** ** The interface *)

Class PlistCodec : Type := {
  plist_to_bin : plist -> list byte;
  plist_from_bin : list byte -> option plist;
  plist_valid : plist -> bool;
  plist_to_xml : plist -> string
}.

Class PlistCodecLaws `{PlistCodec} : Prop := {
  plist_from_to_bin : forall p, plist_valid p = true -> plist_from_bin (plist_to_bin p) = Some p
}.

(** ** A tag-length-value implementation *)

Module TLV.

Fixpoint plist_size (p : plist) : nat :=
  match p with
  | PArray l | PDict l => S (list_sum (map plist_size l))
  | _ => 1%nat
  end.

Definition in_u64 (z : Z) : bool := (0 <=? z) && (z <? 2 ^ 64).
Definition in_u32 (n : nat) : bool := Z.of_nat n <? 2 ^ 32.

Fixpoint tlv_valid (p : plist) : bool :=
  match p with
  | PUint n | PReal n | PDate n => in_u64 n
  | PString s | PKey s => in_u32 (length (list_byte_of_string s))
  | PData d => in_u32 (length d)
  | PArray l | PDict l => in_u32 (length l) && forallb tlv_valid l
  | PBoolean _ => true
  end.

Definition enc_len (n : nat) : list byte := be_encode 4 (Z.of_nat n).

Fixpoint tlv_enc (p : plist) : list byte :=
  match p with
  | PBoolean false => [Byte.x08]
  | PBoolean true => [Byte.x09]
  | PUint n => Byte.x10 :: be_encode 8 n
  | PReal n => Byte.x20 :: be_encode 8 n
  | PDate n => Byte.x30 :: be_encode 8 n
  | PData d => Byte.x40 :: enc_len (length d) ++ d
  | PString s => Byte.x50 :: enc_len (length (list_byte_of_string s)) ++ list_byte_of_string s
  | PKey s => Byte.x60 :: enc_len (length (list_byte_of_string s)) ++ list_byte_of_string s
  | PArray l => Byte.xa0 :: enc_len (length l) ++ concat (map tlv_enc l)
  | PDict l => Byte.xd0 :: enc_len (length l) ++ concat (map tlv_enc l)
  end.

Definition take_be (w : nat) (b : list byte) : option (Z * list byte) :=
  if (w <=? length b)%nat then Some (be_decode (firstn w b), skipn w b) else None.

Definition take_bytes (n : nat) (b : list byte) : option (list byte * list byte) :=
  if (n <=? length b)%nat then Some (firstn n b, skipn n b) else None.

Definition take_blob (b : list byte) : option (list byte * list byte) :=
  match take_be 4 b with
  | Some (n, r) => take_bytes (Z.to_nat n) r
  | None => None
  end.

Fixpoint dec_items (dec : list byte -> option (plist * list byte)) (k : nat) (b : list byte)
  : option (list plist * list byte) :=
  match k with
  | O => Some ([], b)
  | S k' =>
      match dec b with
      | Some (x, b1) =>
          match dec_items dec k' b1 with
          | Some (xs, b2) => Some (x :: xs, b2)
          | None => None
          end
      | None => None
      end
  end.

Definition dec_u64 (mk : Z -> plist) (b : list byte) : option (plist * list byte) :=
  match take_be 8 b with
  | Some (n, r) => Some (mk n, r)
  | None => None
  end.

Definition dec_container (mk : list plist -> plist) (dec : list byte -> option (plist * list byte))
  (b : list byte) : option (plist * list byte) :=
  match take_be 4 b with
  | Some (n, r) =>
      match dec_items dec (Z.to_nat n) r with
      | Some (xs, r') => Some (mk xs, r')
      | None => None
      end
  | None => None
  end.

Definition dec_text (mk : string -> plist) (b : list byte) : option (plist * list byte) :=
  match take_blob b with
  | Some (d, r) => Some (mk (string_of_list_byte d), r)
  | None => None
  end.

Fixpoint tlv_dec (fuel : nat) (b : list byte) {struct fuel} : option (plist * list byte) :=
  match fuel with
  | O => None
  | S f =>
      match b with
      | [] => None
      | Byte.x08 :: r => Some (PBoolean false, r)
      | Byte.x09 :: r => Some (PBoolean true, r)
      | Byte.x10 :: r => dec_u64 PUint r
      | Byte.x20 :: r => dec_u64 PReal r
      | Byte.x30 :: r => dec_u64 PDate r
      | Byte.x40 :: r =>
          match take_blob r with
          | Some (d, r') => Some (PData d, r')
          | None => None
          end
      | Byte.x50 :: r => dec_text PString r
      | Byte.x60 :: r => dec_text PKey r
      | Byte.xa0 :: r => dec_container PArray (tlv_dec f) r
      | Byte.xd0 :: r => dec_container PDict (tlv_dec f) r
      | _ :: _ => None
      end
  end.

Definition tlv_from_bin (b : list byte) : option plist :=
  match tlv_dec (length b) b with
  | Some (p, []) => Some p
  | _ => None
  end.

(** An XML rendering in the element layout of libplist's
    [plist_to_xml] (one element per node, a dictionary as its flat list
    of keys and values), without the XML declaration, the DOCTYPE line,
    indentation and escaping, and with a [data] node shown by its
    length. *)
Definition dquote : string := String (Ascii.ascii_of_nat 34) EmptyString.

Definition xml_elem (t body : string) : string :=
  ("<" ++ t ++ ">" ++ body ++ "</" ++ t ++ ">")%string.

Fixpoint xml_node (p : plist) : string :=
  match p with
  | PBoolean b => if b then "<true/>"%string else "<false/>"%string
  | PUint n => xml_elem "integer" (string_of_Z n)
  | PReal r => xml_elem "real" (string_of_Z r)
  | PString s => xml_elem "string" s
  | PArray l => xml_elem "array" (String.concat EmptyString (map xml_node l))
  | PDict l => xml_elem "dict" (String.concat EmptyString (map xml_node l))
  | PDate t => xml_elem "date" (string_of_Z t)
  | PData d => xml_elem "data" (string_of_Z (Z.of_nat (length d)))
  | PKey k => xml_elem "key" k
  end.

Definition tlv_to_xml (p : plist) : string :=
  ("<plist version=" ++ dquote ++ "1.0" ++ dquote ++ ">" ++ xml_node p ++ "</plist>")%string.

#[export] Instance tlv_codec : PlistCodec := {
  plist_to_bin := tlv_enc;
  plist_from_bin := tlv_from_bin;
  plist_valid := tlv_valid;
  plist_to_xml := tlv_to_xml
}.

(** *** The round trip *)

Lemma in_u64_spec z : in_u64 z = true <-> 0 <= z < 2 ^ 64.
Proof. unfold in_u64. rewrite andb_true_iff, Z.leb_le, Z.ltb_lt. reflexivity. Qed.

Lemma in_u32_spec n : in_u32 n = true <-> Z.of_nat n < 2 ^ 32.
Proof. unfold in_u32. apply Z.ltb_lt. Qed.

Lemma take_be_enc w z r : take_be w (be_encode w z ++ r) = Some (z mod 2 ^ (8 * Z.of_nat w), r).
Proof.
  unfold take_be. rewrite length_app, be_encode_length.
  replace (w <=? w + length r)%nat with true by (symmetry; apply Nat.leb_le; lia).
  rewrite firstn_app_exact, skipn_app_exact, be_decode_encode by (symmetry; apply be_encode_length).
  reflexivity.
Qed.

Lemma take_blob_enc d r :
  Z.of_nat (length d) < 2 ^ 32 -> take_blob (enc_len (length d) ++ d ++ r) = Some (d, r).
Proof.
  intros Hd. unfold take_blob, enc_len. rewrite take_be_enc.
  change (8 * Z.of_nat 4) with 32. rewrite Z.mod_small, Nat2Z.id by lia.
  unfold take_bytes. rewrite length_app.
  replace (length d <=? length d + length r)%nat with true by (symmetry; apply Nat.leb_le; lia).
  rewrite firstn_app_exact, skipn_app_exact by reflexivity. reflexivity.
Qed.

Lemma dec_items_enc dec l r :
  Forall (fun x => forall r, dec (tlv_enc x ++ r) = Some (x, r)) l ->
  dec_items dec (length l) (concat (map tlv_enc l) ++ r) = Some (l, r).
Proof.
  intros Hl. revert r. induction Hl as [|x l Hx Hl IH]; intros r; [reflexivity|].
  simpl. rewrite <- app_assoc, Hx, IH. reflexivity.
Qed.

Lemma size_in_sum x l : In x l -> (plist_size x <= list_sum (map plist_size l))%nat.
Proof.
  induction l as [|y l IH]; simpl; [tauto|].
  intros [<-|H]; [lia|]. specialize (IH H). lia.
Qed.

Lemma container_enc mk l r f :
  (mk = PArray \/ mk = PDict) ->
  Z.of_nat (length l) < 2 ^ 32 ->
  Forall (fun x => forall r, tlv_dec f (tlv_enc x ++ r) = Some (x, r)) l ->
  dec_container mk (tlv_dec f) ((enc_len (length l) ++ concat (map tlv_enc l)) ++ r) = Some (mk l, r).
Proof.
  intros _ Hlen Hall. unfold dec_container, enc_len.
  rewrite <- app_assoc, take_be_enc. change (8 * Z.of_nat 4) with 32.
  rewrite Z.mod_small, Nat2Z.id, dec_items_enc by (assumption || lia). reflexivity.
Qed.

Lemma tlv_dec_enc fuel p r :
  tlv_valid p = true -> (plist_size p <= fuel)%nat -> tlv_dec fuel (tlv_enc p ++ r) = Some (p, r).
Proof.
  revert p r. induction fuel as [|f IH]; intros p r Hv Hs.
  - destruct p; simpl in Hs; lia.
  - assert (Hitems : forall l, (plist_size (PArray l) <= S f)%nat -> forallb tlv_valid l = true ->
              Forall (fun x => forall r, tlv_dec f (tlv_enc x ++ r) = Some (x, r)) l).
    { intros l Hsl Hvl. apply Forall_forall. intros x Hx r'. apply IH.
      - rewrite forallb_forall in Hvl. auto.
      - simpl in Hsl. pose proof (size_in_sum x l Hx). lia. }
    destruct p as [[]|n|n|s|l|l|n|d|s]; cbn -[be_encode enc_len] in Hv |- *; try reflexivity.
    + unfold dec_u64. rewrite take_be_enc. apply in_u64_spec in Hv. rewrite Z.mod_small by lia. reflexivity.
    + unfold dec_u64. rewrite take_be_enc. apply in_u64_spec in Hv. rewrite Z.mod_small by lia. reflexivity.
    + unfold dec_text. rewrite <- app_assoc, take_blob_enc by (apply in_u32_spec; exact Hv).
      rewrite string_of_list_byte_of_string. reflexivity.
    + apply andb_true_iff in Hv as [Hl Hvl]. apply in_u32_spec in Hl.
      apply container_enc; auto.
    + apply andb_true_iff in Hv as [Hl Hvl]. apply in_u32_spec in Hl.
      apply container_enc; auto.
    + unfold dec_u64. rewrite take_be_enc. apply in_u64_spec in Hv. rewrite Z.mod_small by lia. reflexivity.
    + rewrite <- app_assoc, take_blob_enc by (apply in_u32_spec; exact Hv). reflexivity.
    + unfold dec_text. rewrite <- app_assoc, take_blob_enc by (apply in_u32_spec; exact Hv).
      rewrite string_of_list_byte_of_string. reflexivity.
Qed.

Lemma list_sum_le l :
  Forall (fun x => plist_size x <= length (tlv_enc x))%nat l ->
  (list_sum (map plist_size l) <= length (concat (map tlv_enc l)))%nat.
Proof.
  induction 1 as [|x l Hx Hl IH]; simpl; [lia|]. rewrite length_app. lia.
Qed.

Lemma size_le_enc p : (plist_size p <= length (tlv_enc p))%nat.
Proof.
  induction p as [[]| | | |l Hl|l Hl| | |] using plist_ind_nested;
    cbn [plist_size tlv_enc length]; try lia;
    rewrite length_app; pose proof (list_sum_le l Hl); lia.
Qed.

#[export] Instance tlv_codec_laws : PlistCodecLaws.
Proof.
  constructor. intros p Hv. simpl. unfold tlv_from_bin.
  rewrite <- (app_nil_r (tlv_enc p)) at 2.
  rewrite tlv_dec_enc by (auto using size_le_enc). reflexivity.
Qed.

End TLV.
