(* ===== verification/Runtime.v ===== *)
(** * The C runtime: the heap and the debug log

    Besides the transport, [MobileSync.c] uses two services of the C
    runtime.  The heap: [malloc] of the client structure (line 46), of the
    receive buffer (line 145) and of the outgoing frame (line 200), the
    buffers [plist_to_xml] and [plist_to_bin] allocate for their results
    (lines 163, 187 and 194), the trees of libplist ([plist_from_bin] at
    line 158, [plist_new_array] at lines 76 and 109), and [free] or
    [plist_free] of some of them (lines 70, 82, 92, 114, 154, 159, 165,
    189 and 206).  A tree is reached through a handle [plist_t]: the
    address of its block and the tree it holds.  The debug log:
    [log_dbg_msg] (lines 164 and 188), which formats its record only
    when the debug mask includes [DBGMASK_MOBILESYNC] (off unless the
    program turns it on).  A record is the text the format string
    ["%s: plist size: %i\nbuffer :\n%s\n"] makes of [__func__], the
    [uint32_t] length [plist_to_xml] reported ([%i] prints it as a
    signed [int]: [printf_i]) and the XML text ([dbg_format],
    [log_text]); [log_text_size] states what the size field shows.

    [CRuntime] is the interface of these services over the state [M]:
    [c_malloc] returns the address of a fresh block, tagged with its
    allocation site; [c_free] releases a live block and fails ([None])
    on anything else, which is undefined behaviour in C; [c_debug] says
    whether debug output is on and [c_log] appends a record.  [malloc] is
    assumed to succeed: the code never checks its result.

    [debug_plist] is the logging block that both [mobilesync_recv]
    (lines 161-165) and [mobilesync_send] (lines 185-189) contain:
    [plist_to_xml] leaves [XMLContent] NULL for a NULL plist, and passing
    that NULL to the ["%s"] of [log_dbg_msg] is undefined behaviour when
    the record is formatted. *)

From Stdlib Require Import ZArith String Ascii List Bool Lia.
From S2P Require Import Prelude Plist Codec.
Import ListNotations.
Local Open Scope Z_scope.
Local Open Scope msync_scope.

(** The heap blocks of the file, by allocation site. *)
Inductive block : Type :=
| BlkClient
| BlkReceive
| BlkXml
| BlkContent
| BlkQuery
| BlkPlist.

Definition block_eq_dec (a b : block) : {a = b} + {a <> b}.
Proof. decide equality. Defined.

(** The live blocks of a heap allocated at site [b]. *)
Definition count_blk (b : block) (h : list (Z * block)) : nat :=
  length (filter (fun e => if block_eq_dec (snd e) b then true else false) h).

(** [printf]'s [%i] of a [uint32_t]: the value read as a signed [int]
    (two's complement, as glibc prints it), in decimal. *)
Definition printf_i (x : Z) : string :=
  string_of_Z (if x <? 2 ^ 31 then x else x - 2 ^ 32).

Definition newline : string := String (Ascii.ascii_of_nat 10) EmptyString.

(** The text of a [log_dbg_msg] record at lines 164 and 188: the format
    ["%s: plist size: %i\nbuffer :\n%s\n"] applied to [__func__], the
    [uint32_t] [length] and [XMLContent]. *)
Definition dbg_format (func : string) (length : Z) (xml : string) : string :=
  (func ++ ": plist size: " ++ printf_i length ++ newline ++ "buffer :" ++ newline ++
   xml ++ newline)%string.

(** A record of the log: its text (the category is always
    [DBGMASK_MOBILESYNC]). *)
Definition dbg_entry : Type := string.

(** Lines 163-164 for a plist that is not NULL: [plist_to_xml] renders
    it and stores the text's length in the [uint32_t] [length]; the
    record is the formatted text. *)
Definition log_text `{PlistCodec} (func : string) (p : plist) : dbg_entry :=
  let xml := plist_to_xml p in
  dbg_format func (Z.of_nat (String.length xml) mod 2 ^ 32) xml.

(** A [plist_t] of libplist: the address of the tree's root node and the
    tree it points to.  libplist allocates the whole tree ([plist_new_array],
    [plist_from_bin]) and [plist_free] releases it; the model keeps one
    [BlkPlist] block per tree.  Adding a child ([plist_add_sub_string_el])
    changes the tree, not the pointer. *)
Record plist_t : Type := mk_plist_t { plist_addr : Z; plist_tree : plist }.

Class CRuntime (M : Type) : Type := {
  c_malloc : block -> M -> Z * M;
  c_free : Z -> M -> option M;
  c_debug : M -> bool;
  c_log : dbg_entry -> M -> M
}.

Section Ops.
Context {M : Type} `{CRuntime M} `{PlistCodec}.

Definition st_malloc (b : block) : st M Z :=
  fun m => let '(p, m') := c_malloc b m in Done (p, m').

(** [free(p)]: nothing for NULL, undefined for what is not a live block. *)
Definition st_free (p : Z) : st M unit :=
  fun m => if p =? 0 then Done (tt, m)
           else match c_free p m with
                | Some m' => Done (tt, m')
                | None => Undefined
                end.

(** A tree built by libplist (lines 76-78 and 109-111: [plist_new_array]
    then [plist_add_sub_string_el]): one new block holding [p]. *)
Definition st_plist_new (p : plist) : st M plist_t :=
  a <- st_malloc BlkPlist ;;
  st_ret (mk_plist_t a p).

(** [plist_free(p)]: nothing for NULL, the tree's block otherwise. *)
Definition st_plist_free (p : option plist_t) : st M unit :=
  match p with
  | Some h => st_free (plist_addr h)
  | None => st_ret tt
  end.

(** The block a handle owns: none for NULL. *)
Definition owned (p : option plist_t) : list (Z * block) :=
  match p with
  | Some h => [(plist_addr h, BlkPlist)]
  | None => []
  end.

(** A handle that is not NULL points to an allocated address. *)
Definition handle_pos (p : option plist_t) : Prop :=
  match p with
  | Some h => 0 < plist_addr h
  | None => True
  end.

(** [log_dbg_msg] with the rendering [xml] of [p] for its ["%s"]. *)
Definition st_log_plist (func : string) (xml : Z) (p : option plist) : st M unit :=
  fun m => if c_debug m then
             match p with
             | Some q => if xml =? 0 then Undefined else Done (tt, c_log (log_text func q) m)
             | None => Undefined
             end
           else Done (tt, m).

(** Lines 161-165 and 185-189: render [p] to XML, log it, free the text. *)
Definition debug_plist (func : string) (p : option plist) : st M unit :=
  xml <- match p with
         | Some _ => st_malloc BlkXml
         | None => st_ret 0
         end ;;
  st_log_plist func xml p ;;;
  st_free xml.

End Ops.

Lemma count_blk_cons b a b' h :
  count_blk b ((a, b') :: h) = ((if block_eq_dec b' b then 1 else 0) + count_blk b h)%nat.
Proof. unfold count_blk. cbn. destruct (block_eq_dec b' b); reflexivity. Qed.

(** C34: the size a debug record reports is the length of the XML text
    as [printf]'s [%i] prints a [uint32_t]: a signed 32-bit value equal
    to the length modulo 2^32, and equal to the length itself below
    2^31; from 2^31 bytes on it is negative.  The record is the function
    name, that size and the XML text in the layout of the format string
    of lines 164 and 188. *)
Theorem log_text_size `{PlistCodec} f p :
  let len := Z.of_nat (String.length (plist_to_xml p)) in
  exists n, log_text f p =
              (f ++ ": plist size: " ++ string_of_Z n ++ newline ++ "buffer :" ++ newline ++
               plist_to_xml p ++ newline)%string /\
            - 2 ^ 31 <= n < 2 ^ 31 /\ (len - n) mod 2 ^ 32 = 0 /\ (len < 2 ^ 31 -> n = len).
Proof.
  intros len. set (x := len mod 2 ^ 32).
  exists (if x <? 2 ^ 31 then x else x - 2 ^ 32). split; [reflexivity|].
  assert (Hx : 0 <= x < 2 ^ 32) by (apply Z.mod_pos_bound; lia).
  pose proof (Z.div_mod len (2 ^ 32) ltac:(lia)) as Hd. fold x in Hd.
  destruct (Z.ltb_spec x (2 ^ 31)) as [Hs|Hs]; (split; [lia|]); split.
  - replace (len - x) with (len / 2 ^ 32 * 2 ^ 32) by lia. apply Z.mod_mul. lia.
  - intros Hl. unfold x. apply Z.mod_small. lia.
  - replace (len - (x - 2 ^ 32)) with ((len / 2 ^ 32 + 1) * 2 ^ 32) by lia. apply Z.mod_mul. lia.
  - intros Hl. exfalso. assert (x = len) by (unfold x; apply Z.mod_small; lia). lia.
Qed.
