(* ===== verification/Usbmux.v ===== *)
(** * The usbmuxd transport: interface and a scripted implementation

    [MobileSync.c] reaches the device through four calls of libusbmuxd, a
    collaborator outside src/: [usbmuxd_connect] (line 41),
    [usbmuxd_recv] (lines 142 and 149), [usbmuxd_send] (line 205) and
    [usbmuxd_disconnect] (line 124).  The class [Usbmux] gives their
    types over an abstract transport state [M]: each call returns the C
    return value (a socket descriptor for [connect], [0] or a negative
    errno otherwise), the bytes received for [recv] (whose length is the
    [*recv_bytes] out-parameter) and the count sent for [send].
    [UsbmuxLaws] is what the channel relies on: a read returns at most
    the number of bytes asked for, and a failed read returns none (the
    library sets [*recv_bytes = 0] on error).

    [ScriptMux] implements the interface with a script of the device's
    side: the bytes it has sent, a schedule saying how each successive
    [usbmuxd_recv] is split ([RxChunk k]: at most [k] bytes) or fails
    ([RxFail e]), a schedule of send failures, the set of open sockets,
    and a trace of every call in order.  When the read schedule is used
    up, a read returns what is available up to the request; with nothing
    available that is a successful read of zero bytes, which is what the
    library returns when the device has closed the connection (end of
    stream).  Calls on a socket that is not open fail with [-EBADF].

    The same state carries the C runtime ([CRuntime], file [Runtime]):
    the live heap blocks with their addresses, the next address [malloc]
    returns, whether debug output is on, and the records logged so far.
    [free] removes a live block and fails on anything else.  [heap_delta]
    says which blocks a run has left on the heap. *)

From Stdlib Require Import ZArith List Bool Lia.
From S2P Require Import Prelude Plist Codec Runtime.
Import ListNotations.
Local Open Scope Z_scope.

(** ** The interface *)

Class Usbmux (M : Type) : Type := {
  usbmuxd_connect : Z -> Z -> M -> Z * M;
  usbmuxd_recv : Z -> nat -> M -> (Z * list byte) * M;
  usbmuxd_send : Z -> list byte -> M -> (Z * nat) * M;
  usbmuxd_disconnect : Z -> M -> Z * M
}.

Class UsbmuxLaws (M : Type) `{Usbmux M} : Prop := {
  usbmuxd_recv_bound : forall sfd len m,
    (length (snd (fst (usbmuxd_recv sfd len m))) <= len)%nat;
  usbmuxd_recv_fail_empty : forall sfd len m,
    fst (fst (usbmuxd_recv sfd len m)) <> 0 -> snd (fst (usbmuxd_recv sfd len m)) = []
}.

(** ** A scripted transport *)

Module ScriptMux.

Definition EBADF : Z := 9.

Inductive rx_event : Type :=
| RxChunk (k : nat)
| RxFail (err : Z).

Inductive tx_event : Type :=
| TxOk
| TxFail (err : Z).

Inductive mux_call : Type :=
| CallConnect (handle port ret : Z)
| CallRecv (sfd : Z) (len : nat) (ret : Z) (data : list byte)
| CallSend (sfd : Z) (data : list byte) (ret : Z)
| CallDisconnect (sfd ret : Z).

Record mux : Type := mk_mux {
  mx_connect : Z;
  mx_rx : list byte;
  mx_rx_sched : list rx_event;
  mx_tx_sched : list tx_event;
  mx_open : list Z;
  mx_trace : list mux_call;
  mx_heap : list (Z * block);
  mx_next : positive;
  mx_debug : bool;
  mx_log : list dbg_entry
}.

(** A device script: the connect result, the bytes the device sends, the
    schedules and the open sockets; nothing allocated or logged yet. *)
Definition script (cn : Z) (rx : list byte) (rs : list rx_event) (ts : list tx_event)
    (opn : list Z) (debug : bool) : mux :=
  mk_mux cn rx rs ts opn [] [] 1%positive debug [].

(** The transport part of [m] replaced, the runtime part kept. *)
Definition set_transport (m : mux) (cn : Z) (rx : list byte) (rs : list rx_event)
    (ts : list tx_event) (opn : list Z) (tr : list mux_call) : mux :=
  mk_mux cn rx rs ts opn tr (mx_heap m) (mx_next m) (mx_debug m) (mx_log m).

Definition is_open (sfd : Z) (m : mux) : bool := existsb (Z.eqb sfd) (mx_open m).

Definition log (c : mux_call) (m : mux) : mux :=
  set_transport m (mx_connect m) (mx_rx m) (mx_rx_sched m) (mx_tx_sched m) (mx_open m)
    (mx_trace m ++ [c]).

Definition connect (handle port : Z) (m : mux) : Z * mux :=
  let r := mx_connect m in
  (r, log (CallConnect handle port r)
        (set_transport m r (mx_rx m) (mx_rx_sched m) (mx_tx_sched m)
           (if 0 <=? r then r :: mx_open m else mx_open m) (mx_trace m))).

(** Deliver [d], a prefix of the pending bytes, with the schedule [s] left. *)
Definition deliver (sfd : Z) (len : nat) (d : list byte) (s : list rx_event) (m : mux)
  : (Z * list byte) * mux :=
  ((0, d), log (CallRecv sfd len 0 d)
             (set_transport m (mx_connect m) (skipn (length d) (mx_rx m)) s (mx_tx_sched m)
                (mx_open m) (mx_trace m))).

Definition recv (sfd : Z) (len : nat) (m : mux) : (Z * list byte) * mux :=
  if negb (is_open sfd m) then ((- EBADF, []), log (CallRecv sfd len (- EBADF) []) m)
  else
    match mx_rx_sched m with
    | RxFail e :: s =>
        ((e, []), log (CallRecv sfd len e [])
                    (set_transport m (mx_connect m) (mx_rx m) s (mx_tx_sched m) (mx_open m)
                       (mx_trace m)))
    | RxChunk k :: s => deliver sfd len (firstn (Nat.min k len) (mx_rx m)) s m
    | [] => deliver sfd len (firstn len (mx_rx m)) [] m
    end.

Definition send (sfd : Z) (data : list byte) (m : mux) : (Z * nat) * mux :=
  if negb (is_open sfd m) then ((- EBADF, 0%nat), log (CallSend sfd data (- EBADF)) m)
  else
    match mx_tx_sched m with
    | TxFail e :: s =>
        ((e, 0%nat), log (CallSend sfd data e)
                       (set_transport m (mx_connect m) (mx_rx m) (mx_rx_sched m) s (mx_open m)
                          (mx_trace m)))
    | TxOk :: s =>
        ((0, length data), log (CallSend sfd data 0)
                             (set_transport m (mx_connect m) (mx_rx m) (mx_rx_sched m) s
                                (mx_open m) (mx_trace m)))
    | [] => ((0, length data), log (CallSend sfd data 0) m)
    end.

Definition disconnect (sfd : Z) (m : mux) : Z * mux :=
  if negb (is_open sfd m) then (- EBADF, log (CallDisconnect sfd (- EBADF)) m)
  else
    (0, log (CallDisconnect sfd 0)
          (set_transport m (mx_connect m) (mx_rx m) (mx_rx_sched m) (mx_tx_sched m)
             (filter (fun x => negb (Z.eqb sfd x)) (mx_open m)) (mx_trace m))).

(** The heap of the script: the live blocks, newest first, with their
    addresses; [malloc] hands out [mx_next], which is never NULL. *)
Definition set_runtime (m : mux) (heap : list (Z * block)) (next : positive)
    (lg : list dbg_entry) : mux :=
  mk_mux (mx_connect m) (mx_rx m) (mx_rx_sched m) (mx_tx_sched m) (mx_open m) (mx_trace m)
    heap next (mx_debug m) lg.

Definition malloc (b : block) (m : mux) : Z * mux :=
  (Z.pos (mx_next m),
   set_runtime m ((Z.pos (mx_next m), b) :: mx_heap m) (Pos.succ (mx_next m)) (mx_log m)).

(** The heap without the block at [p], if there is one. *)
Fixpoint heap_remove (p : Z) (h : list (Z * block)) : option (list (Z * block)) :=
  match h with
  | [] => None
  | e :: h' => if fst e =? p then Some h' else option_map (cons e) (heap_remove p h')
  end.

Definition free (p : Z) (m : mux) : option mux :=
  match heap_remove p (mx_heap m) with
  | Some h => Some (set_runtime m h (mx_next m) (mx_log m))
  | None => None
  end.

Definition dbg_log (e : dbg_entry) (m : mux) : mux :=
  set_runtime m (mx_heap m) (mx_next m) (mx_log m ++ [e]).

#[export] Instance script_usbmux : Usbmux mux := {
  usbmuxd_connect := connect;
  usbmuxd_recv := recv;
  usbmuxd_send := send;
  usbmuxd_disconnect := disconnect
}.

#[export] Instance script_runtime : CRuntime mux := {
  c_malloc := malloc;
  c_free := free;
  c_debug := mx_debug;
  c_log := dbg_log
}.

#[export] Instance script_usbmux_laws : UsbmuxLaws mux.
Proof.
  constructor; intros sfd len m; simpl; unfold recv, deliver;
    destruct (negb (is_open sfd m)); simpl; try lia; try congruence;
    destruct (mx_rx_sched m) as [|[k|e] s]; simpl; rewrite ?length_firstn; try lia;
    congruence.
Qed.

(** *** Equations of the scripted calls *)

Lemma is_open_log sfd c m : is_open sfd (log c m) = is_open sfd m.
Proof. reflexivity. Qed.

Lemma recv_closed sfd len m :
  is_open sfd m = false -> recv sfd len m = ((- EBADF, []), log (CallRecv sfd len (- EBADF) []) m).
Proof. unfold recv. intros ->. reflexivity. Qed.

Lemma recv_chunk sfd len m k s :
  is_open sfd m = true -> mx_rx_sched m = RxChunk k :: s ->
  recv sfd len m = deliver sfd len (firstn (Nat.min k len) (mx_rx m)) s m.
Proof. unfold recv. intros -> ->. reflexivity. Qed.

Lemma recv_fail sfd len m e s :
  is_open sfd m = true -> mx_rx_sched m = RxFail e :: s ->
  recv sfd len m = ((e, []), log (CallRecv sfd len e [])
                      (set_transport m (mx_connect m) (mx_rx m) s (mx_tx_sched m) (mx_open m)
                         (mx_trace m))).
Proof. unfold recv. intros -> ->. reflexivity. Qed.

Lemma recv_eof sfd len m :
  is_open sfd m = true -> mx_rx_sched m = [] ->
  recv sfd len m = deliver sfd len (firstn len (mx_rx m)) [] m.
Proof. unfold recv. intros -> ->. reflexivity. Qed.

Lemma deliver_state sfd len d s m :
  let m' := snd (deliver sfd len d s m) in
  mx_rx m' = skipn (length d) (mx_rx m) /\ mx_rx_sched m' = s /\
  is_open sfd m' = is_open sfd m /\ fst (deliver sfd len d s m) = (0, d).
Proof. repeat split. Qed.

Lemma firstn_skipn_length (l : list byte) k : l = firstn k l ++ skipn (length (firstn k l)) l.
Proof.
  rewrite length_firstn. destruct (Nat.le_ge_cases k (length l)) as [Hk|Hk].
  - rewrite Nat.min_l by exact Hk. symmetry. apply firstn_skipn.
  - rewrite Nat.min_r, firstn_all2, skipn_all by lia. rewrite app_nil_r. reflexivity.
Qed.

(** A read takes the bytes it returns, at most [len] of them, off the
    front of what the device sent, and is recorded with its result. *)
Lemma recv_consumes fd len m :
  let '((r, d), m') := recv fd len m in
  mx_rx m = d ++ mx_rx m' /\ mx_trace m' = mx_trace m ++ [CallRecv fd len r d] /\
  (length d <= len)%nat.
Proof.
  unfold recv, deliver, log. destruct (negb (is_open fd m)); [cbn; auto with arith|].
  destruct (mx_rx_sched m) as [|[k|e] s]; cbn [mx_rx mx_trace set_transport];
    (split; [first [reflexivity | apply firstn_skipn_length]|]);
    (split; [reflexivity|]); rewrite ?length_firstn; cbn [length]; lia.
Qed.

(** *** Calls that only read *)

Definition is_recv_call (fd : Z) (c : mux_call) : bool :=
  match c with
  | CallRecv fd' _ _ _ => fd' =? fd
  | _ => false
  end.

(** [m'] is [m] after some reads on [fd]: only the pending bytes, the
    read schedule and the trace (by read calls on [fd]) have changed. *)
Definition reads_only (fd : Z) (m m' : mux) : Prop :=
  mx_connect m' = mx_connect m /\ mx_tx_sched m' = mx_tx_sched m /\ mx_open m' = mx_open m /\
  exists l, mx_trace m' = mx_trace m ++ l /\ forallb (is_recv_call fd) l = true.

Lemma reads_only_refl fd m : reads_only fd m m.
Proof. repeat split. exists []. rewrite app_nil_r. auto. Qed.

Lemma reads_only_trans fd m1 m2 m3 :
  reads_only fd m1 m2 -> reads_only fd m2 m3 -> reads_only fd m1 m3.
Proof.
  intros (H1 & H2 & H3 & l1 & Ht1 & Hl1) (G1 & G2 & G3 & l2 & Gt2 & Gl2).
  repeat split; try congruence. exists (l1 ++ l2).
  rewrite Gt2, Ht1, app_assoc, forallb_app, Hl1, Gl2. auto.
Qed.

Lemma recv_reads_only fd len m : reads_only fd m (snd (recv fd len m)).
Proof.
  unfold recv, deliver, log. destruct (negb (is_open fd m));
    [|destruct (mx_rx_sched m) as [|[k|e] s]];
    (repeat split; eexists; split; [reflexivity | simpl; rewrite Z.eqb_refl; reflexivity]).
Qed.

#[export] Hint Resolve reads_only_refl recv_reads_only : msync.

Lemma is_open_reads_only fd fd' m m' : reads_only fd' m m' -> is_open fd m' = is_open fd m.
Proof. intros (_ & _ & Ho & _). unfold is_open. rewrite Ho. reflexivity. Qed.

(** *** The runtime part of the script *)

Definition transport_of (m : mux) :=
  (mx_connect m, mx_rx m, mx_rx_sched m, mx_tx_sched m, mx_open m, mx_trace m).
Definition runtime_of (m : mux) := (mx_heap m, mx_next m, mx_debug m, mx_log m).

Lemma is_open_transport fd m m' :
  transport_of m' = transport_of m -> is_open fd m' = is_open fd m.
Proof. unfold transport_of, is_open. intros E. injection E as _ _ _ _ -> _. reflexivity. Qed.

(** The transport calls leave the runtime as it is. *)
Lemma recv_runtime fd len m : runtime_of (snd (recv fd len m)) = runtime_of m.
Proof.
  unfold recv, deliver. destruct (negb _); [reflexivity|].
  destruct (mx_rx_sched m) as [|[]]; reflexivity.
Qed.

Lemma send_runtime fd d m : runtime_of (snd (send fd d m)) = runtime_of m.
Proof.
  unfold send. destruct (negb _); [reflexivity|]. destruct (mx_tx_sched m) as [|[]]; reflexivity.
Qed.

Lemma connect_runtime h p m : runtime_of (snd (connect h p m)) = runtime_of m.
Proof. reflexivity. Qed.

Lemma disconnect_runtime fd m : runtime_of (snd (disconnect fd m)) = runtime_of m.
Proof. unfold disconnect. destruct (negb _); reflexivity. Qed.

(** [free] of the block [malloc] handed out last, once the transport
    (and the log) have been used in between: the heap is as before. *)
Lemma free_last m1 a b h :
  mx_heap m1 = (a, b) :: h -> free a m1 = Some (set_runtime m1 h (mx_next m1) (mx_log m1)).
Proof. intros Hh. unfold free. rewrite Hh. simpl. rewrite Z.eqb_refl. reflexivity. Qed.

(** [free(p)] of the block under the last one allocated. *)
Lemma free_second m1 e a b h :
  mx_heap m1 = e :: (a, b) :: h -> fst e <> a ->
  free a m1 = Some (set_runtime m1 (e :: h) (mx_next m1) (mx_log m1)).
Proof.
  intros Hh He. unfold free. rewrite Hh. cbn [heap_remove].
  rewrite (proj2 (Z.eqb_neq _ _) He), Z.eqb_refl. reflexivity.
Qed.

Lemma script_free_last m a b h :
  mx_heap m = (a, b) :: h -> a <> 0 -> st_free a m = Done (tt, set_runtime m h (mx_next m) (mx_log m)).
Proof.
  intros Hh Ha. unfold st_free. rewrite (proj2 (Z.eqb_neq _ _) Ha).
  cbn [c_free script_runtime]. rewrite (free_last m a b h Hh). reflexivity.
Qed.

Lemma script_free_second m e a b h :
  mx_heap m = e :: (a, b) :: h -> a <> 0 -> fst e <> a ->
  st_free a m = Done (tt, set_runtime m (e :: h) (mx_next m) (mx_log m)).
Proof.
  intros Hh Ha He. unfold st_free. rewrite (proj2 (Z.eqb_neq _ _) Ha).
  cbn [c_free script_runtime]. rewrite (free_second m e a b h Hh He). reflexivity.
Qed.

(** [plist_free] of the tree a handle owns, on top of the heap. *)
Lemma script_plist_free p h m :
  handle_pos p -> mx_heap m = owned p ++ h ->
  exists m', st_plist_free p m = Done (tt, m') /\ transport_of m' = transport_of m /\
    mx_heap m' = h /\ mx_debug m' = mx_debug m /\ mx_log m' = mx_log m.
Proof.
  destruct p as [[a t]|]; cbn [owned app st_plist_free plist_addr handle_pos]; intros Hp Hh.
  - rewrite (script_free_last m a BlkPlist h Hh ltac:(lia)). eexists. split; [reflexivity|]. auto.
  - eexists. split; [reflexivity|]. auto.
Qed.

(** The logging block of [mobilesync_recv] and [mobilesync_send]: it
    finishes unless debug output is on and the plist is NULL, leaves
    the transport and the heap as they were and logs one record when
    debug output is on. *)
Lemma script_debug_plist `{PlistCodec} f q m :
  (mx_debug m = false \/ q <> None) ->
  exists m', debug_plist f q m = Done (tt, m') /\ transport_of m' = transport_of m /\
    mx_heap m' = mx_heap m /\ mx_debug m' = mx_debug m /\
    mx_log m' = mx_log m ++ (match q with
                             | Some p => if mx_debug m then [log_text f p] else []
                             | None => []
                             end) /\
    mx_next m' = (match q with Some _ => Pos.succ (mx_next m) | None => mx_next m end).
Proof.
  intros Hq. unfold debug_plist, st_bind, st_log_plist, st_free, st_ret, st_malloc.
  destruct q as [p|].
  - cbn [c_malloc c_debug c_log c_free script_runtime]. unfold malloc.
    cbn [fst snd mx_debug mx_heap mx_next mx_log set_runtime Z.eqb].
    destruct (mx_debug m) eqn:Hd; unfold dbg_log;
      rewrite free_last with (h := mx_heap m) (b := BlkXml) by reflexivity;
      eexists; (split; [reflexivity|]); cbn; rewrite ?Hd, ?app_nil_r; repeat split.
  - destruct Hq as [Hd|Hq]; [|congruence]. cbn [c_debug script_runtime]. rewrite Hd. simpl.
    eexists. split; [reflexivity|]. rewrite Hd, app_nil_r. auto.
Qed.

(** With debug output on, a NULL plist reaches the ["%s"]: undefined. *)
Lemma debug_plist_null `{PlistCodec} f m : mx_debug m = true -> debug_plist f None m = Undefined.
Proof. intros Hd. unfold debug_plist, st_bind, st_ret, st_log_plist. cbn. rewrite Hd. reflexivity. Qed.

(** Whenever the logging block finishes, it has done what
    [script_debug_plist] says. *)
Lemma debug_plist_done `{PlistCodec} f q m u m' :
  debug_plist f q m = Done (u, m') ->
  transport_of m' = transport_of m /\ mx_heap m' = mx_heap m /\ mx_debug m' = mx_debug m /\
  mx_log m' = mx_log m ++ (match q with
                           | Some p => if mx_debug m then [log_text f p] else []
                           | None => []
                           end).
Proof.
  intros Hrun.
  assert (Hok : mx_debug m = false \/ q <> None).
  { destruct (mx_debug m) eqn:Hd; [|left; reflexivity]. destruct q as [p|]; [right; discriminate|].
    rewrite debug_plist_null in Hrun by exact Hd. discriminate. }
  destruct (script_debug_plist f q m Hok) as (m2 & Hq & Ht & Hh & Hd & Hl & _).
  rewrite Hq in Hrun. injection Hrun as _ <-. auto.
Qed.

Lemma send_transport fd d m m' :
  transport_of m' = transport_of m ->
  fst (send fd d m') = fst (send fd d m) /\
  transport_of (snd (send fd d m')) = transport_of (snd (send fd d m)).
Proof.
  unfold transport_of. intros E. injection E as Hc Hrx Hrs Hts Ho Ht.
  unfold send, is_open, log, set_transport. rewrite Ho, Hts.
  destruct (negb (existsb (Z.eqb fd) (mx_open m))); [|destruct (mx_tx_sched m) as [|[|e] s]];
    cbn; rewrite ?Hc, ?Hrx, ?Hrs, ?Ho, ?Ht, ?Hts; split; reflexivity.
Qed.

Lemma script_malloc b m : st_malloc b m = Done (Z.pos (mx_next m), snd (malloc b m)).
Proof. reflexivity. Qed.

Lemma script_plist_new t m :
  st_plist_new t m = Done (mk_plist_t (Z.pos (mx_next m)) t, snd (malloc BlkPlist m)).
Proof. reflexivity. Qed.

Lemma reads_only_transport fd m1 m2 m3 :
  reads_only fd m1 m2 -> transport_of m3 = transport_of m2 -> reads_only fd m1 m3.
Proof.
  unfold transport_of. intros (H1 & H2 & H3 & l & Ht & Hl) E.
  injection E as E1 _ _ E4 E5 E6. repeat split; try congruence. exists l. rewrite E6. auto.
Qed.

(** The runtime operations leave the transport as it is. *)
Definition keeps_transport {A} (c : st mux A) : Prop :=
  forall m x m', c m = Done (x, m') -> transport_of m' = transport_of m.

Lemma keeps_ret {A} (a : A) : keeps_transport (st_ret a).
Proof. intros m x m' E. injection E as _ <-. reflexivity. Qed.

Lemma keeps_bind {A B} (c : st mux A) (k : A -> st mux B) :
  keeps_transport c -> (forall a, keeps_transport (k a)) -> keeps_transport (st_bind c k).
Proof.
  intros Hc Hk m x m' E. apply st_bind_inv in E as (a & m1 & E1 & E2).
  rewrite (Hk a _ _ _ E2). exact (Hc _ _ _ E1).
Qed.

Lemma keeps_malloc b : keeps_transport (st_malloc b).
Proof. intros m x m' E. injection E as _ <-. reflexivity. Qed.

Lemma keeps_free p : keeps_transport (st_free p).
Proof.
  intros m x m' E. unfold st_free in E. destruct (p =? 0); [injection E as _ <-; reflexivity|].
  cbn [c_free script_runtime] in E. unfold free in E.
  destruct (heap_remove p (mx_heap m)); [injection E as _ <-; reflexivity | discriminate].
Qed.

Lemma keeps_log `{PlistCodec} f xml q : keeps_transport (st_log_plist f xml q).
Proof.
  intros m x m' E. unfold st_log_plist in E. cbn [c_debug c_log script_runtime] in E.
  destruct (mx_debug m); [destruct q; [destruct (xml =? 0)|]|]; try discriminate;
    injection E as _ <-; reflexivity.
Qed.

Lemma keeps_debug `{PlistCodec} f q : keeps_transport (debug_plist f q).
Proof.
  unfold debug_plist. apply keeps_bind; [destruct q; [apply keeps_malloc | apply keeps_ret]|].
  intros a. apply keeps_bind; [apply keeps_log | intros; apply keeps_free].
Qed.

Lemma keeps_plist_new t : keeps_transport (st_plist_new t).
Proof. intros m x m' E. injection E as _ <-. reflexivity. Qed.

Lemma keeps_plist_free p : keeps_transport (st_plist_free p).
Proof. destruct p; [apply keeps_free | apply keeps_ret]. Qed.

#[export] Hint Resolve keeps_ret keeps_bind keeps_malloc keeps_free keeps_log keeps_debug
  keeps_plist_new keeps_plist_free : msync.

Lemma transport_fields m m' :
  transport_of m' = transport_of m ->
  mx_trace m' = mx_trace m /\ mx_open m' = mx_open m /\ mx_connect m' = mx_connect m /\
  mx_rx m' = mx_rx m /\ mx_rx_sched m' = mx_rx_sched m.
Proof. unfold transport_of. intros E. injection E as E1 E2 E3 _ E5 E6. auto. Qed.

Lemma send_fields fd d m :
  mx_trace (snd (send fd d m)) = mx_trace m ++ [CallSend fd d (fst (fst (send fd d m)))] /\
  mx_open (snd (send fd d m)) = mx_open m /\ mx_connect (snd (send fd d m)) = mx_connect m /\
  mx_rx (snd (send fd d m)) = mx_rx m /\ mx_rx_sched (snd (send fd d m)) = mx_rx_sched m.
Proof.
  unfold send, log. destruct (negb (is_open fd m)); [|destruct (mx_tx_sched m) as [|[|e] t]];
    repeat split.
Qed.

(** ** Heap accounting

    [heap_delta kc kp m m']: from [m] to [m'] the trace grew by [l], each
    [usbmuxd_send] of [l] left one more [BlkContent] block, [kc] more
    client blocks and [kp] more plist trees are live, and nothing else
    changed on the heap. *)
Definition is_send_call (c : mux_call) : bool :=
  match c with
  | CallSend _ _ _ => true
  | _ => false
  end.

Definition count_sends (l : list mux_call) : nat := length (filter is_send_call l).

(** How many blocks of kind [b] a run with calls [l] leaves. *)
Definition delta_of (l : list mux_call) (kc kp : nat) (b : block) : nat :=
  ((if block_eq_dec b BlkContent then count_sends l else 0) +
   (if block_eq_dec b BlkClient then kc else 0) +
   (if block_eq_dec b BlkPlist then kp else 0))%nat.

Definition heap_delta (kc kp : nat) (m m' : mux) : Prop :=
  exists l, mx_trace m' = mx_trace m ++ l /\
    forall b, count_blk b (mx_heap m') = (count_blk b (mx_heap m) + delta_of l kc kp b)%nat.

Lemma count_sends_app l1 l2 : count_sends (l1 ++ l2) = (count_sends l1 + count_sends l2)%nat.
Proof. unfold count_sends. rewrite filter_app, length_app. reflexivity. Qed.

Lemma count_blk_app b h1 h2 : count_blk b (h1 ++ h2) = (count_blk b h1 + count_blk b h2)%nat.
Proof. unfold count_blk. rewrite filter_app, length_app. reflexivity. Qed.

Lemma heap_delta_refl m : heap_delta 0 0 m m.
Proof.
  exists []. rewrite app_nil_r. split; [reflexivity|]. intros b. unfold delta_of.
  change (count_sends []) with 0%nat. repeat destruct (block_eq_dec _ _); lia.
Qed.

Lemma heap_delta_trans kc1 kp1 kc2 kp2 m1 m2 m3 :
  heap_delta kc1 kp1 m1 m2 -> heap_delta kc2 kp2 m2 m3 -> heap_delta (kc1 + kc2) (kp1 + kp2) m1 m3.
Proof.
  intros (l1 & Ht1 & Hc1) (l2 & Ht2 & Hc2). exists (l1 ++ l2).
  rewrite Ht2, Ht1, app_assoc. split; [reflexivity|]. intros b.
  rewrite Hc2, Hc1. unfold delta_of. rewrite count_sends_app. repeat destruct (block_eq_dec _ _); lia.
Qed.

Lemma heap_delta_then_quiet kc kp m1 m2 m3 :
  heap_delta kc kp m1 m2 -> heap_delta 0 0 m2 m3 -> heap_delta kc kp m1 m3.
Proof.
  intros H1 H2. pose proof (heap_delta_trans _ _ _ _ _ _ _ H1 H2) as H.
  rewrite !Nat.add_0_r in H. exact H.
Qed.

Lemma heap_delta_quiet_then kc kp m1 m2 m3 :
  heap_delta 0 0 m1 m2 -> heap_delta kc kp m2 m3 -> heap_delta kc kp m1 m3.
Proof. intros H1 H2. exact (heap_delta_trans _ _ _ _ _ _ _ H1 H2). Qed.

(** A run that left the blocks [added] on top of the heap. *)
Lemma heap_delta_added kc kp m m' l added :
  mx_trace m' = mx_trace m ++ l -> mx_heap m' = added ++ mx_heap m ->
  (forall b, count_blk b added = delta_of l kc kp b) -> heap_delta kc kp m m'.
Proof.
  intros Ht Hh Ha. exists l. split; [exact Ht|]. intros b. rewrite Hh, count_blk_app, Ha. lia.
Qed.

(** Calls that send nothing and a heap as it was. *)
Lemma heap_delta_quiet m m' l :
  mx_trace m' = mx_trace m ++ l -> count_sends l = 0%nat -> mx_heap m' = mx_heap m ->
  heap_delta 0 0 m m'.
Proof.
  intros Ht Hs Hh. apply (heap_delta_added _ _ _ _ l [] Ht); [exact Hh|].
  intros b. unfold delta_of. rewrite Hs. repeat destruct (block_eq_dec _ _); reflexivity.
Qed.

Lemma recv_calls_no_send fd l : forallb (is_recv_call fd) l = true -> count_sends l = 0%nat.
Proof.
  induction l as [|[] l IH]; simpl; try discriminate; auto.
  intros Hl. apply andb_prop in Hl as [_ Hl]. auto.
Qed.

Lemma connect_heap_delta h p m : heap_delta 0 0 m (snd (connect h p m)).
Proof. apply (heap_delta_quiet _ _ [CallConnect h p (mx_connect m)]); reflexivity. Qed.

Lemma disconnect_heap_delta fd m : heap_delta 0 0 m (snd (disconnect fd m)).
Proof.
  apply (heap_delta_quiet _ _ [CallDisconnect fd (fst (disconnect fd m))]);
    unfold disconnect; destruct (negb _); reflexivity.
Qed.

(** Line 46: the client structure. *)
Lemma malloc_client_delta m : heap_delta 1 0 m (snd (malloc BlkClient m)).
Proof.
  apply (heap_delta_added _ _ _ _ [] [(Z.pos (mx_next m), BlkClient)]);
    [symmetry; apply app_nil_r | reflexivity |].
  intros b. unfold delta_of. rewrite count_blk_cons. change (count_sends []) with 0%nat.
  destruct b; reflexivity.
Qed.

End ScriptMux.
