(* ===== verification/Channel.v ===== *)
(** * The framed channel: [mobilesync_recv] and [mobilesync_send]

    A frame is a 4-byte big-endian length [N] followed by [N] bytes of
    binary plist.  [mobilesync_recv] (lines 134-168) reads the header with
    one [usbmuxd_recv] of 4 bytes into a zero-initialised [uint32_t],
    applies [ntohl], then loops (lines 148-151) asking for the bytes still
    missing until it has [N] of them or a read fails, and decodes them.
    [mobilesync_send] (lines 180-208) encodes the plist, builds
    [htonl(length) ++ content] in a buffer of [length + 4] bytes (computed
    in [uint32_t]) and hands it to [usbmuxd_send] in one call.

    Both also use the heap and the debug log: the receive buffer is
    allocated after the header read (line 145) and freed on both exits
    (lines 154 and 159), a payload that decodes becomes a new tree
    ([plist_from_bin_alloc], line 158) that the slot points to and the
    caller owns, each function logs its plist through
    [debug_plist] (lines 161-165 and 185-189), and the send allocates the
    [content] of [plist_to_bin] (line 194, never freed) and the frame
    (line 200, freed at line 206).

    Both are written against the interfaces [Usbmux], [CRuntime] and
    [PlistCodec] (section [Framing]); the theorems of section
    [FramingFacts] hold for every transport and codec satisfying the laws.
    The theorems of section [Scripted] run the channel on the scripted
    transport [ScriptMux]: reassembly over any split of the frame, the
    bytes after the frame left in place, divergence when the device
    closes early, the misread of a header that arrives split, what each
    call leaves on the heap and in the log, and the undefined behaviour of
    the debug log on a payload that does not decode. *)

From Stdlib Require Import ZArith String List Bool Lia.
From S2P Require Import Prelude Endian Plist Codec Runtime Usbmux.
Import ListNotations.
Local Open Scope Z_scope.
Local Open Scope msync_scope.

(** [struct mobilesync_client_int]: the socket descriptor. *)
Record mobilesync_client : Type := mk_client { sfd : Z }.

Section Framing.
Context {M : Type} `{Usbmux M} `{CRuntime M} `{PlistCodec}.

(** The [while] loop of lines 148-151: [received] holds the bytes read
    so far ([received_bytes] is its length), [ret] the last return
    value.  One unit of fuel per iteration. *)
Fixpoint recv_loop (fuel : nat) (fd : Z) (datalen : nat) (received : list byte)
    (ret : iphone_error_t) : st M (iphone_error_t * list byte) :=
  if (length received <? datalen)%nat && (ret =? IPHONE_E_SUCCESS) then
    match fuel with
    | O => fun _ => OutOfFuel
    | S f =>
        '(ret', bytes) <- st_lift (usbmuxd_recv fd (datalen - length received)) ;;
        recv_loop f fd datalen (received ++ bytes) ret'
    end
  else st_ret (ret, received).

(** Lines 140-143: [datalen] is initialised to 0, the read stores the
    bytes [hdr] it returned at the front of its four bytes, and [ntohl]
    is applied to the [uint32_t] they form. *)
Definition header_value (hdr : list byte) : nat :=
  Z.to_nat (ntohl (load_u32 (hdr ++ repeat Byte.x00 (4 - length hdr)))).

(** Line 158: [plist_from_bin] builds the tree in a new allocation when
    the bytes decode, and leaves [*plist] NULL otherwise. *)
Definition plist_from_bin_alloc (bytes : list byte) : st M (option plist_t) :=
  match plist_from_bin bytes with
  | Some q => h <- st_plist_new q ;; st_ret (Some h)
  | None => st_ret None
  end.

(** Lines 153-167, after the loop: [free(receive)] on both paths; on
    success the buffer's [received_bytes] bytes are decoded into the
    slot (NULL when they do not decode), the buffer is freed and the
    result is logged. *)
Definition recv_finish (slot : option (option plist_t)) (receive : Z) (ret : iphone_error_t)
    (received : list byte) : st M (iphone_error_t * option (option plist_t)) :=
  if negb (ret =? IPHONE_E_SUCCESS) then
    st_free receive ;;;
    st_ret (ret, slot)
  else
    p <- plist_from_bin_alloc received ;;
    st_free receive ;;;
    debug_plist "mobilesync_recv" (option_map plist_tree p) ;;;
    st_ret (ret, Some p).

(** [mobilesync_recv(client, plist)]: the slot [plist] is [None] for a
    NULL pointer and [Some v] when it points to [v]; the result is the
    return code and the slot afterwards. *)
Definition mobilesync_recv (fuel : nat) (client : option mobilesync_client)
    (plist : option (option plist_t)) : st M (iphone_error_t * option (option plist_t)) :=
  match client, plist with
  | Some c, Some None =>
      '(ret, hdr) <- st_lift (usbmuxd_recv (sfd c) 4) ;;
      let datalen := header_value hdr in
      receive <- st_malloc BlkReceive ;;
      '(ret, received) <- recv_loop fuel (sfd c) datalen [] ret ;;
      recv_finish plist receive ret received
  | _, _ => st_ret (IPHONE_E_INVALID_ARG, plist)
  end.

(** The [uint32_t] [length] reported by [plist_to_bin], and the
    allocation size [length + 4] computed in [uint32_t] (line 200). *)
Definition u32_of_nat (n : nat) : Z := Z.of_nat n mod u32_max.
Definition send_alloc_size (length : Z) : Z := (length + 4) mod u32_max.

(** The frame built at lines 200-203: [length] becomes [htonl(length)],
    its four bytes are copied to the front, then [ntohl(length)] bytes of
    the content. *)
Definition build_query (content : list byte) : list byte :=
  let length := htonl (u32_of_nat (List.length content)) in
  store_u32 length ++ firstn (Z.to_nat (ntohl length)) content.

(** [mobilesync_send(client, plist)]: the plist is logged (lines
    185-189), [plist_to_bin] allocates [content] (line 194), which is
    never freed, the frame is allocated with [length + 4] bytes (line
    200) and freed after the send (line 206).  When [length + 4] wraps,
    the [memcpy] of line 203 writes past the allocation: [Undefined]. *)
Definition mobilesync_send (client : option mobilesync_client) (plist : option plist)
    : st M iphone_error_t :=
  match client, plist with
  | Some c, Some p =>
      debug_plist "mobilesync_send" (Some p) ;;;
      _ <- st_malloc BlkContent ;;
      let content := plist_to_bin p in
      let length := u32_of_nat (List.length content) in
      real_query <- st_malloc BlkQuery ;;
      if send_alloc_size length <? length + 4 then fun _ => Undefined
      else
        '(ret, _) <- st_lift (usbmuxd_send (sfd c) (build_query content)) ;;
        st_free real_query ;;;
        st_ret ret
  | _, _ => st_ret IPHONE_E_INVALID_ARG
  end.

End Framing.

(** ** Properties for every transport and codec *)

Section FramingFacts.
Context {M : Type} `{Usbmux M} `{CRuntime M} `{PlistCodec}.

Definition loop_continues (datalen : nat) (received : list byte) (ret : iphone_error_t) : bool :=
  (length received <? datalen)%nat && (ret =? IPHONE_E_SUCCESS).

Lemma recv_loop_exit f fd n buf r m :
  loop_continues n buf r = false -> recv_loop f fd n buf r m = Done ((r, buf), m).
Proof. unfold loop_continues. intros Hc. destruct f; simpl; rewrite Hc; reflexivity. Qed.

Lemma recv_loop_step f fd n buf r m :
  loop_continues n buf r = true ->
  recv_loop (S f) fd n buf r m =
    let '((r', b), m') := usbmuxd_recv fd (n - length buf) m in
    recv_loop f fd n (buf ++ b) r' m'.
Proof.
  unfold loop_continues. intros Hc. simpl. rewrite Hc. unfold st_bind, st_lift.
  destruct (usbmuxd_recv fd (n - length buf) m) as [[r' b] m']. reflexivity.
Qed.

Lemma recv_loop_no_fuel fd n buf r m :
  loop_continues n buf r = true -> recv_loop 0 fd n buf r m = OutOfFuel.
Proof. unfold loop_continues. intros Hc. simpl. rewrite Hc. reflexivity. Qed.

(** The loop only calls [usbmuxd_recv]: it is never undefined. *)
Lemma recv_loop_defined f fd n buf r m : recv_loop f fd n buf r m <> Undefined.
Proof.
  revert buf r m. induction f as [|f IH]; intros buf r m;
    destruct (loop_continues n buf r) eqn:Hc;
    [rewrite recv_loop_no_fuel by exact Hc | rewrite recv_loop_exit by exact Hc
    | rewrite recv_loop_step by exact Hc | rewrite recv_loop_exit by exact Hc];
    try discriminate.
  destruct (usbmuxd_recv fd (n - length buf) m) as [[r' b] m']. apply IH.
Qed.

Lemma loop_continues_true n buf r :
  loop_continues n buf r = true <-> (length buf < n)%nat /\ r = IPHONE_E_SUCCESS.
Proof. unfold loop_continues. rewrite andb_true_iff, Nat.ltb_lt, Z.eqb_eq. reflexivity. Qed.

Lemma loop_continues_false n buf r :
  loop_continues n buf r = false <-> ~ ((length buf < n)%nat /\ r = IPHONE_E_SUCCESS).
Proof. rewrite <- loop_continues_true. destruct (loop_continues n buf r); intuition congruence. Qed.

(** More fuel never changes a finished run. *)
Lemma recv_loop_more_fuel f k fd n buf r m res :
  recv_loop f fd n buf r m = Done res -> recv_loop (f + k) fd n buf r m = Done res.
Proof.
  revert buf r m. induction f as [|f IH]; intros buf r m Hrun;
    destruct (loop_continues n buf r) eqn:Hc.
  - rewrite recv_loop_no_fuel in Hrun by exact Hc. discriminate.
  - rewrite recv_loop_exit in * by exact Hc. exact Hrun.
  - change (S f + k)%nat with (S (f + k)). rewrite recv_loop_step in * by exact Hc.
    destruct (usbmuxd_recv fd (n - length buf) m) as [[r' b] m']. auto.
  - rewrite recv_loop_exit in * by exact Hc. exact Hrun.
Qed.

Lemma mobilesync_recv_unfold fuel c m :
  mobilesync_recv fuel (Some c) (Some None) m =
    let '((ret, hdr), m1) := usbmuxd_recv (sfd c) 4 m in
    let '(receive, m2) := c_malloc BlkReceive m1 in
    match recv_loop fuel (sfd c) (header_value hdr) [] ret m2 with
    | Done ((ret', received), m3) => recv_finish (Some None) receive ret' received m3
    | OutOfFuel => OutOfFuel
    | Undefined => Undefined
    end.
Proof.
  unfold mobilesync_recv, st_bind, st_lift, st_malloc.
  destruct (usbmuxd_recv (sfd c) 4 m) as [[ret hdr] m1].
  destruct (c_malloc BlkReceive m1) as [p m2].
  destruct (recv_loop fuel (sfd c) (header_value hdr) [] ret m2) as [[[r b] m3]| |]; reflexivity.
Qed.

(** The handle [plist_from_bin] leaves points to the decoding. *)
Lemma plist_from_bin_alloc_tree b m h m' :
  plist_from_bin_alloc b m = Done (h, m') -> option_map plist_tree h = plist_from_bin b.
Proof.
  unfold plist_from_bin_alloc, st_plist_new. destruct (plist_from_bin b) as [q|]; intros E.
  - apply st_bind_inv in E as (h1 & m1 & E1 & E2). apply st_bind_inv in E1 as (a & m2 & _ & E1).
    injection E1 as <- _. injection E2 as <- _. reflexivity.
  - injection E as <- _. reflexivity.
Qed.

(** What [recv_finish] returns when it finishes. *)
Lemma recv_finish_result slot p r b m x m' :
  recv_finish slot p r b m = Done (x, m') ->
  (r <> IPHONE_E_SUCCESS /\ x = (r, slot)) \/
  (r = IPHONE_E_SUCCESS /\ exists h, x = (r, Some h) /\ option_map plist_tree h = plist_from_bin b).
Proof.
  unfold recv_finish. destruct (Z.eqb_spec r IPHONE_E_SUCCESS) as [Hr|Hr]; cbn [negb]; intros Hrun.
  - right. split; [exact Hr|].
    apply st_bind_inv in Hrun as (h & m1 & Hd & Hrun). exists h.
    repeat (apply st_bind_inv in Hrun as (? & ? & _ & Hrun)).
    split; [unfold st_ret in Hrun; congruence | exact (plist_from_bin_alloc_tree _ _ _ _ Hd)].
  - left. split; [exact Hr|].
    apply st_bind_inv in Hrun as (? & ? & _ & Hrun). unfold st_ret in Hrun; congruence.
Qed.

Lemma u32_of_nat_small n : Z.of_nat n < u32_max -> u32_of_nat n = Z.of_nat n.
Proof. intros Hn. unfold u32_of_nat. apply Z.mod_small. lia. Qed.

Lemma u32_of_nat_range n : 0 <= u32_of_nat n < u32_max.
Proof. unfold u32_of_nat, u32_max. apply Z.mod_pos_bound. lia. Qed.

Lemma send_alloc_size_wraps len :
  0 <= len < u32_max -> (send_alloc_size len <? len + 4) = (u32_max - 4 <=? len).
Proof.
  intros Hl. unfold send_alloc_size. unfold u32_max in *.
  destruct (Z.ltb_spec (len + 4) (2 ^ 32)).
  - rewrite Z.mod_small by lia. rewrite (proj2 (Z.ltb_ge _ _)), (proj2 (Z.leb_gt _ _)); lia.
  - rewrite Z.mod_eq by lia. replace ((len + 4) / 2 ^ 32) with 1.
    + rewrite (proj2 (Z.ltb_lt _ _)), (proj2 (Z.leb_le _ _)); lia.
    + apply Z.div_unique with (r := len + 4 - 2 ^ 32); lia.
Qed.

Lemma build_query_small content :
  Z.of_nat (length content) < u32_max ->
  build_query content = be32 (Z.of_nat (length content)) ++ content.
Proof.
  intros Hc. unfold build_query. rewrite u32_of_nat_small by exact Hc.
  rewrite ntohl_htonl by lia. rewrite Nat2Z.id, firstn_all, store_u32_htonl. reflexivity.
Qed.

(** C13: the length prefix of every frame [mobilesync_send] builds is the
    exact byte length of the payload that follows it: the first four
    bytes decode to [N] and the rest is the [N]-byte payload, with no
    padding and no trailing data. *)
Theorem build_query_header content :
  Z.of_nat (length content) < u32_max ->
  length (build_query content) = (4 + length content)%nat /\
  ntohl (load_u32 (firstn 4 (build_query content))) = Z.of_nat (length content) /\
  skipn 4 (build_query content) = content.
Proof.
  intros Hc. rewrite build_query_small by exact Hc.
  rewrite length_app, be32_length, firstn_app_exact, skipn_app_exact
    by (symmetry; apply be32_length).
  split; [reflexivity|]. split; [|reflexivity].
  rewrite ntohl_load_u32 by apply be32_length. apply be_decode_be32. lia.
Qed.

(** C19: the guards of [mobilesync_recv] (line 136): a NULL client, a
    NULL slot pointer or a slot that already holds a plist is rejected
    with [IPHONE_E_INVALID_ARG], the slot untouched and no transport
    call made. *)
Theorem mobilesync_recv_invalid_arg fuel client (slot : option (option plist_t)) m :
  (client = None \/ slot = None \/ exists p, slot = Some (Some p)) ->
  mobilesync_recv fuel client slot m = Done ((IPHONE_E_INVALID_ARG, slot), m).
Proof.
  intros [-> | [-> | [p ->]]]; [reflexivity | destruct client; reflexivity |].
  destruct client; reflexivity.
Qed.

(** C20: the guards of [mobilesync_send] (line 182): a NULL client or a
    NULL plist is rejected with [IPHONE_E_INVALID_ARG] and no transport
    call. *)
Theorem mobilesync_send_invalid_arg client (p : option plist) m :
  (client = None \/ p = None) ->
  mobilesync_send client p m = Done (IPHONE_E_INVALID_ARG, m).
Proof. intros [-> | ->]; [reflexivity | destruct client; reflexivity]. Qed.

Context `{!UsbmuxLaws M}.

(** C8: the read loop never reads past the frame: from a prefix of at
    most [datalen] bytes it only appends, never holds more than
    [datalen] bytes, and when it stops with success it holds exactly
    [datalen] bytes. *)
Theorem recv_loop_exact f fd n buf r m r' buf' m' :
  recv_loop f fd n buf r m = Done ((r', buf'), m') -> (length buf <= n)%nat ->
  (exists ext, buf' = buf ++ ext) /\ (length buf' <= n)%nat /\
  (r' = IPHONE_E_SUCCESS -> length buf' = n).
Proof.
  revert buf r m. induction f as [|f IH]; intros buf r m Hrun Hle;
    destruct (loop_continues n buf r) eqn:Hc.
  - rewrite recv_loop_no_fuel in Hrun by exact Hc. discriminate.
  - rewrite recv_loop_exit in Hrun by exact Hc. injection Hrun as <- <- <-.
    apply loop_continues_false in Hc.
    split; [exists []; symmetry; apply app_nil_r|]. split; [exact Hle|]. intros ->. lia.
  - rewrite recv_loop_step in Hrun by exact Hc.
    pose proof (usbmuxd_recv_bound fd (n - length buf) m) as Hb.
    destruct (usbmuxd_recv fd (n - length buf) m) as [[r1 b] m1]. simpl in Hb.
    apply IH in Hrun as [[ext ->] Hrest]; [|rewrite length_app; lia].
    split; [exists (b ++ ext); symmetry; apply app_assoc | exact Hrest].
  - rewrite recv_loop_exit in Hrun by exact Hc. injection Hrun as <- <- <-.
    apply loop_continues_false in Hc.
    split; [exists []; symmetry; apply app_nil_r|]. split; [exact Hle|]. intros ->. lia.
Qed.

End FramingFacts.

(** ** Witnesses on the scripted transport and the TLV codec *)

Module ChannelWitnesses.
Import ScriptMux TLV.

Definition sock : mobilesync_client := mk_client 3.
Definition dev_bytes : list byte := [Byte.x01; Byte.x02; Byte.x03; Byte.x04; Byte.x05; Byte.x06; Byte.x07].
Definition mux0 : mux := script 3 dev_bytes [RxChunk 2; RxChunk 2] [] [3] false.

Lemma recv_loop_exact_witness :
  exists r' buf' m', recv_loop 3 3 5 [] IPHONE_E_SUCCESS mux0 = Done ((r', buf'), m') /\
    ((exists ext, buf' = [] ++ ext) /\ (length buf' <= 5)%nat /\
     (r' = IPHONE_E_SUCCESS -> length buf' = 5%nat)).
Proof.
  do 3 eexists. split; [reflexivity|].
  eapply (recv_loop_exact 3 3 5 [] IPHONE_E_SUCCESS mux0); [reflexivity | simpl; lia].
Defined.

Lemma build_query_header_witness :
  length (build_query [Byte.x0a; Byte.x0b]) = (4 + length [Byte.x0a; Byte.x0b])%nat /\
  ntohl (load_u32 (firstn 4 (build_query [Byte.x0a; Byte.x0b]))) = Z.of_nat (length [Byte.x0a; Byte.x0b]) /\
  skipn 4 (build_query [Byte.x0a; Byte.x0b]) = [Byte.x0a; Byte.x0b].
Proof. apply build_query_header. vm_compute. reflexivity. Defined.

Lemma mobilesync_recv_invalid_arg_witness :
  mobilesync_recv 1 (Some sock) (Some (Some (mk_plist_t 5 (PBoolean true)))) mux0 =
    Done ((IPHONE_E_INVALID_ARG, Some (Some (mk_plist_t 5 (PBoolean true)))), mux0).
Proof. apply mobilesync_recv_invalid_arg. right. right. eexists. reflexivity. Defined.

Lemma mobilesync_send_invalid_arg_witness :
  mobilesync_send (M := mux) None (Some (PBoolean true)) mux0 = Done (IPHONE_E_INVALID_ARG, mux0).
Proof. apply mobilesync_send_invalid_arg. left. reflexivity. Defined.


End ChannelWitnesses.

(** ** The framed channel on the scripted transport

    The theorems of this file run [mobilesync_recv] and [mobilesync_send]
    (above) on [ScriptMux], the scripted device of file [Usbmux],
    for any codec: how a frame split over any schedule of short reads is
    put back together, that the reads stop at the end of the frame, that
    the receive terminates when the device has sent the whole frame and
    spins for ever when the device closes the connection early, and what
    happens when the 4-byte header itself arrives split. *)

Import ScriptMux.

(** A read schedule with no failure, and one whose first read is not
    split inside the 4-byte header. *)
Definition chunks_only (s : list rx_event) : bool :=
  forallb (fun e => match e with RxChunk _ => true | RxFail _ => false end) s.

Definition header_unsplit (s : list rx_event) : bool :=
  match s with
  | RxChunk k :: _ => (4 <=? k)%nat
  | _ => true
  end.

Section Scripted.
Context `{PlistCodec}.

(** One iteration of the loop on the scripted transport. *)
Lemma script_loop_step f fd n buf m :
  (length buf < n)%nat ->
  recv_loop (S f) fd n buf IPHONE_E_SUCCESS m =
    let '((r', b), m') := recv fd (n - length buf) m in
    recv_loop f fd n (buf ++ b) r' m'.
Proof.
  intros Hlt. rewrite recv_loop_step; [reflexivity|]. apply loop_continues_true. auto.
Qed.

Lemma script_loop_done f fd n buf r m :
  length buf = n -> recv_loop f fd n buf r m = Done ((r, buf), m).
Proof. intros Hn. apply recv_loop_exit, loop_continues_false. lia. Qed.

(** The loop reassembles the [need] bytes still missing over any
    schedule of chunks, and leaves what follows them. *)
Lemma script_loop_reassembles fuel fd n buf need rest m :
  is_open fd m = true -> mx_rx m = need ++ rest -> (length buf + length need)%nat = n ->
  chunks_only (mx_rx_sched m) = true -> (length (mx_rx_sched m) < fuel)%nat ->
  exists m', recv_loop fuel fd n buf IPHONE_E_SUCCESS m = Done ((IPHONE_E_SUCCESS, buf ++ need), m') /\
             mx_rx m' = rest /\ is_open fd m' = true /\
             (mx_rx_sched m = [] -> mx_rx_sched m' = []).
Proof.
  revert buf need m. induction fuel as [|f IH]; intros buf need m Ho Hrx Hn Hch Hf;
    [simpl in Hf; lia|].
  destruct (Nat.eq_dec (length need) 0) as [Hz|Hz].
  { apply length_zero_iff_nil in Hz as ->. simpl in Hn. exists m. rewrite app_nil_r.
    rewrite script_loop_done by lia. auto. }
  rewrite script_loop_step by lia. replace (n - length buf)%nat with (length need) by lia.
  destruct (mx_rx_sched m) as [|[k|e] s] eqn:Es; simpl in Hch; try discriminate.
  - rewrite recv_eof by assumption. rewrite Hrx, firstn_app_exact by reflexivity.
    unfold deliver. rewrite script_loop_done by (rewrite length_app; lia).
    eexists; split; [reflexivity|]. simpl. rewrite Hrx, skipn_app_exact by reflexivity. auto.
  - rewrite recv_chunk with (k := k) (s := s) by assumption.
    rewrite Hrx, firstn_app_le by lia. unfold deliver.
    set (d := firstn (Nat.min k (length need)) need).
    destruct (IH (buf ++ d) (skipn (length d) need) (log (CallRecv fd (length need) 0 d)
        (set_transport m (mx_connect m) (skipn (length d) (need ++ rest)) s (mx_tx_sched m) (mx_open m)
           (mx_trace m))))
      as [m' [Hrun [Hrx' [Ho' _]]]].
    + exact Ho.
    + simpl. apply skipn_app_le. unfold d. rewrite length_firstn. lia.
    + rewrite length_app, length_skipn. unfold d. rewrite length_firstn. lia.
    + exact Hch.
    + simpl in Hf. simpl. lia.
    + assert (Hd : d ++ skipn (length d) need = need).
      { unfold d. rewrite length_firstn.
        replace (Nat.min (Nat.min k (length need)) (length need)) with (Nat.min k (length need)) by lia.
        apply firstn_skipn. }
      rewrite <- app_assoc, Hd in Hrun. rewrite Hrx. exists m'. repeat split; auto. discriminate.
Qed.

(** The loop stops within [length schedule + 1] iterations when the
    device has sent every byte still asked for, whatever the schedule
    (failures included). *)
Lemma script_loop_terminates fuel fd n buf r m :
  is_open fd m = true -> (n - length buf <= length (mx_rx m))%nat ->
  (length (mx_rx_sched m) < fuel)%nat ->
  exists res, recv_loop fuel fd n buf r m = Done res.
Proof.
  revert buf r m. induction fuel as [|f IH]; intros buf r m Ho Hn Hf; [simpl in Hf; lia|].
  destruct (loop_continues n buf r) eqn:Hc.
  2: { rewrite recv_loop_exit by exact Hc. eauto. }
  apply loop_continues_true in Hc as [Hlt ->].
  rewrite script_loop_step by exact Hlt.
  destruct (mx_rx_sched m) as [|[k|e] s] eqn:Es.
  - rewrite recv_eof by assumption. unfold deliver.
    rewrite script_loop_done by (rewrite length_app, length_firstn; lia). eauto.
  - rewrite recv_chunk with (k := k) (s := s) by assumption. unfold deliver.
    apply IH; [exact Ho | simpl; rewrite length_app, !length_firstn, length_skipn; lia |].
    simpl in Hf |- *. lia.
  - rewrite recv_fail with (e := e) (s := s) by assumption.
    apply IH; [exact Ho | simpl; rewrite app_nil_r; exact Hn | simpl in Hf |- *; lia].
Qed.

(** After the device has closed the connection, every read returns zero
    bytes with success, so a loop still missing bytes never stops. *)
Lemma script_loop_eof fuel fd n buf m :
  is_open fd m = true -> mx_rx_sched m = [] -> (length buf + length (mx_rx m) < n)%nat ->
  recv_loop fuel fd n buf IPHONE_E_SUCCESS m = OutOfFuel.
Proof.
  revert buf m. induction fuel as [|f IH]; intros buf m Ho Hs Hn.
  - apply recv_loop_no_fuel, loop_continues_true. split; [lia | reflexivity].
  - rewrite script_loop_step by lia. rewrite recv_eof by assumption. unfold deliver.
    rewrite firstn_all2 by lia. apply IH; [exact Ho | reflexivity |].
    simpl. rewrite length_app, length_skipn. lia.
Qed.

(** The header read when it is not split: the four bytes [be32 N]. *)
Lemma script_header_read fd m N tail :
  is_open fd m = true -> header_unsplit (mx_rx_sched m) = true ->
  mx_rx m = be32 N ++ tail ->
  (forall e s, mx_rx_sched m <> RxFail e :: s) ->
  exists m1, recv fd 4 m = ((IPHONE_E_SUCCESS, be32 N), m1) /\ mx_rx m1 = tail /\
             is_open fd m1 = true /\ mx_rx_sched m1 = tl (mx_rx_sched m).
Proof.
  intros Ho Hh Hrx Hnf.
  destruct (mx_rx_sched m) as [|[k|e] s] eqn:Es.
  - rewrite recv_eof by assumption. unfold deliver.
    rewrite Hrx, firstn_app_exact by (symmetry; apply be32_length).
    eexists. split; [reflexivity|]. cbn [mx_rx log mx_rx_sched].
    rewrite skipn_app_exact by (symmetry; apply be32_length). auto.
  - cbn [header_unsplit] in Hh. apply Nat.leb_le in Hh.
    rewrite recv_chunk with (k := k) (s := s) by assumption. rewrite Nat.min_r by exact Hh.
    unfold deliver. rewrite Hrx, firstn_app_exact by (symmetry; apply be32_length).
    eexists. split; [reflexivity|]. cbn [mx_rx log mx_rx_sched].
    rewrite skipn_app_exact by (symmetry; apply be32_length). auto.
  - exfalso. eapply Hnf. reflexivity.
Qed.

Lemma header_value_be32 N : 0 <= N < u32_max -> header_value (be32 N) = Z.to_nat N.
Proof.
  intros HN. unfold header_value. rewrite be32_length. simpl repeat.
  rewrite app_nil_r, ntohl_load_u32 by apply be32_length.
  rewrite be_decode_be32 by exact HN. reflexivity.
Qed.

Lemma header_value_zeros k : (k <= 4)%nat -> header_value (repeat Byte.x00 k) = 0%nat.
Proof.
  intros Hk. unfold header_value.
  rewrite ntohl_load_u32 by (rewrite length_app, !repeat_length; lia). rewrite be_decode_zeros.
  change (repeat Byte.x00 k) with ([] ++ repeat Byte.x00 k). rewrite be_decode_zeros. reflexivity.
Qed.

(** The receive only reads: it neither sends nor closes. *)
Lemma recv_loop_reads_only f fd n buf r m x m' :
  recv_loop f fd n buf r m = Done (x, m') -> reads_only fd m m' /\ runtime_of m' = runtime_of m.
Proof.
  revert buf r m. induction f as [|f IH]; intros buf r m Hrun;
    destruct (loop_continues n buf r) eqn:Hc.
  - rewrite recv_loop_no_fuel in Hrun by exact Hc. discriminate.
  - rewrite recv_loop_exit in Hrun by exact Hc. injection Hrun as _ <-. split; [apply reads_only_refl | reflexivity].
  - rewrite recv_loop_step in Hrun by exact Hc. simpl usbmuxd_recv in Hrun.
    pose proof (recv_reads_only fd (n - length buf) m) as Hr.
    pose proof (recv_runtime fd (n - length buf) m) as Hrt.
    destruct (recv fd (n - length buf) m) as [[r1 b] m1]. simpl in Hrt.
    apply IH in Hrun as [Hro Hrt']. split; [eapply reads_only_trans; eassumption | congruence].
  - rewrite recv_loop_exit in Hrun by exact Hc. injection Hrun as _ <-. split; [apply reads_only_refl | reflexivity].
Qed.

(** [mobilesync_recv] on the scripted transport: the header read, the
    loop on the state after [malloc(datalen)], then lines 153-167 with
    the buffer's address. *)
Lemma script_recv_unfold fuel c m :
  mobilesync_recv fuel (Some c) (Some None) m =
    let '((ret, hdr), m1) := recv (sfd c) 4 m in
    match recv_loop fuel (sfd c) (header_value hdr) [] ret (snd (malloc BlkReceive m1)) with
    | Done ((ret', received), m3) => recv_finish (Some None) (Z.pos (mx_next m1)) ret' received m3
    | OutOfFuel => OutOfFuel
    | Undefined => Undefined
    end.
Proof.
  rewrite mobilesync_recv_unfold. simpl usbmuxd_recv.
  destruct (recv (sfd c) 4 m) as [[r h] m1]. reflexivity.
Qed.

(** The handle a slot holds. *)
Definition slot_handle (slot : option (option plist_t)) : option plist_t :=
  match slot with
  | Some p => p
  | None => None
  end.

(** Lines 163-164 for the tree [p] the receive decoded: the record
    [log_dbg_msg] appends when the debug mask is on (a NULL [p] logs
    nothing here: with debug output on it is the undefined case of
    [recv_finish_debug_null]). *)
Definition recv_log (debug : bool) (p : option plist_t) : list dbg_entry :=
  match p with
  | Some h => if debug then [log_text "mobilesync_recv" (plist_tree h)] else []
  | None => []
  end.

(** [plist_from_bin] on the scripted runtime: a tree at the next fresh
    address when the bytes decode. *)
Lemma script_plist_from_bin_alloc bytes m :
  plist_from_bin_alloc bytes m =
    Done (option_map (mk_plist_t (Z.pos (mx_next m))) (plist_from_bin bytes),
          match plist_from_bin bytes with Some _ => snd (malloc BlkPlist m) | None => m end).
Proof. unfold plist_from_bin_alloc, st_plist_new. destruct (plist_from_bin bytes); reflexivity. Qed.

(** Lines 153-167 on the scripted runtime, after the [malloc] of the
    receive buffer (line 145) and a loop that only read: the buffer is
    freed; on success the decoded tree is a new block, the one the slot
    points to, and is logged when debug output is on, which requires it
    not to be NULL. *)
Lemma script_recv_finish m1 m3 r bytes :
  runtime_of m3 = runtime_of (snd (malloc BlkReceive m1)) ->
  (r <> IPHONE_E_SUCCESS \/ mx_debug m1 = false \/ plist_from_bin bytes <> None) ->
  exists m' p, recv_finish (Some None) (Z.pos (mx_next m1)) r bytes m3 = Done ((r, Some p), m') /\
    (r <> IPHONE_E_SUCCESS -> p = None) /\
    (r = IPHONE_E_SUCCESS -> option_map plist_tree p = plist_from_bin bytes) /\
    transport_of m' = transport_of m3 /\ mx_heap m' = owned p ++ mx_heap m1 /\
    mx_debug m' = mx_debug m1 /\ mx_log m' = mx_log m1 ++ recv_log (mx_debug m1) p /\
    handle_pos p.
Proof.
  unfold runtime_of. intros H3 Hok. cbn in H3. injection H3 as Hh Hn Hd Hl.
  unfold recv_finish. destruct (Z.eqb_spec r IPHONE_E_SUCCESS) as [Hr|Hr]; cbn [negb].
  2: { rewrite (st_bind_Done _ _ _ _ _ (script_free_last m3 _ BlkReceive _ Hh ltac:(discriminate))).
       do 2 eexists. split; [reflexivity|]. split; [auto|]. split; [intros; contradiction|].
       cbn. rewrite Hd, Hl, app_nil_r. repeat split; auto. }
  rewrite (st_bind_Done _ _ _ _ _ (script_plist_from_bin_alloc bytes m3)). cbv beta.
  destruct (plist_from_bin bytes) as [q|] eqn:Eb; cbn [option_map].
  - set (m4 := snd (malloc BlkPlist m3)).
    rewrite (st_bind_Done _ _ _ _ _ (script_free_second m4 (Z.pos (mx_next m3), BlkPlist) _ BlkReceive
               (mx_heap m1) ltac:(cbn; rewrite Hh; reflexivity) ltac:(discriminate)
               ltac:(cbn; rewrite Hn, Pos2Z.inj_succ; lia))).
    cbv beta. cbn [option_map].
    destruct (script_debug_plist "mobilesync_recv" (Some q)
                (set_runtime m4 ((Z.pos (mx_next m3), BlkPlist) :: mx_heap m1) (mx_next m4) (mx_log m4)))
      as (m5 & Hdbg & Ht5 & Hh5 & Hd5 & Hl5 & _); [right; discriminate|].
    rewrite (st_bind_Done _ _ _ _ _ Hdbg).
    do 2 eexists. split; [reflexivity|]. split; [intros; contradiction|]. split; [reflexivity|].
    rewrite Ht5, Hh5, Hd5, Hl5. cbn. rewrite Hd, Hl. repeat split; auto; lia.
  - rewrite (st_bind_Done _ _ _ _ _ (script_free_last m3 _ BlkReceive _ Hh ltac:(discriminate))).
    cbv beta. cbn [option_map].
    destruct (script_debug_plist "mobilesync_recv" None
                (set_runtime m3 (mx_heap m1) (mx_next m3) (mx_log m3)))
      as (m5 & Hdbg & Ht5 & Hh5 & Hd5 & Hl5 & _).
    { left. cbn. rewrite Hd. destruct Hok as [Hok|[Hok|Hok]]; [contradiction | exact Hok | congruence]. }
    rewrite (st_bind_Done _ _ _ _ _ Hdbg).
    do 2 eexists. split; [reflexivity|]. split; [intros; contradiction|]. split; [reflexivity|].
    rewrite Ht5, Hh5, Hd5, Hl5. cbn. rewrite Hd, Hl, app_nil_r. destruct (mx_debug m1); repeat split; auto.
Qed.

Lemma keeps_plist_from_bin_alloc bytes : keeps_transport (plist_from_bin_alloc bytes).
Proof. unfold plist_from_bin_alloc, st_plist_new. destruct (plist_from_bin bytes); auto with msync. Qed.
#[local] Hint Resolve keeps_plist_from_bin_alloc : msync.

Lemma recv_finish_keeps slot a r bytes : keeps_transport (recv_finish slot a r bytes).
Proof. unfold recv_finish. destruct (negb _); auto with msync. Qed.

Lemma mobilesync_recv_reads_only fuel c m x m' :
  mobilesync_recv fuel (Some c) (Some None) m = Done (x, m') -> reads_only (sfd c) m m'.
Proof.
  rewrite script_recv_unfold.
  pose proof (recv_reads_only (sfd c) 4 m) as Hr.
  destruct (recv (sfd c) 4 m) as [[r0 hdr] m1].
  destruct (recv_loop fuel (sfd c) (header_value hdr) [] r0 (snd (malloc BlkReceive m1)))
    as [[[r b] m2]| |] eqn:Hl; try discriminate.
  apply recv_loop_reads_only in Hl as [Hl _]. intros Hrun.
  apply (recv_finish_keeps _ _ _ _) in Hrun.
  eapply reads_only_transport; [|exact Hrun].
  eapply reads_only_trans; [exact Hr|]. eapply reads_only_trans; [|exact Hl].
  apply (reads_only_transport _ _ m1); [apply reads_only_refl | reflexivity].
Qed.

(** A send that completes is, on the transport, one [usbmuxd_send] of
    the frame on the state it started from, whose result it returns. *)
Lemma script_send_done c p m r m' :
  mobilesync_send (Some c) (Some p) m = Done (r, m') ->
  r = fst (fst (send (sfd c) (build_query (plist_to_bin p)) m)) /\
  transport_of m' = transport_of (snd (send (sfd c) (build_query (plist_to_bin p)) m)).
Proof.
  unfold mobilesync_send. intros Hrun.
  apply st_bind_inv in Hrun as ([] & m1 & Hd & Hrun). pose proof (keeps_debug _ _ _ _ _ Hd) as T1.
  apply st_bind_inv in Hrun as (a1 & m2 & Hm2 & Hrun). pose proof (keeps_malloc _ _ _ _ Hm2) as T2.
  apply st_bind_inv in Hrun as (a2 & m3 & Hm3 & Hrun). pose proof (keeps_malloc _ _ _ _ Hm3) as T3.
  destruct (_ <? _); [discriminate|].
  apply st_bind_inv in Hrun as ([r1 n] & m4 & Hs & Hrun). unfold st_lift in Hs. simpl usbmuxd_send in Hs.
  injection Hs as Hs.
  apply st_bind_inv in Hrun as ([] & m5 & Hf & Hrun). pose proof (keeps_free _ _ _ _ Hf) as T5.
  injection Hrun as <- <-.
  destruct (send_transport (sfd c) (build_query (plist_to_bin p)) m m3) as [Hr Ht];
    [congruence|].
  rewrite Hs in Hr, Ht. simpl in Hr, Ht. split; [rewrite <- Hr; reflexivity | congruence].
Qed.

(** A send that completes makes one transport call, recorded with the
    frame it carried, and changes nothing but the trace and the send
    schedule. *)
Lemma mobilesync_send_effect c p m r m' :
  mobilesync_send (Some c) (Some p) m = Done (r, m') ->
  mx_trace m' = mx_trace m ++ [CallSend (sfd c) (build_query (plist_to_bin p)) r] /\
  mx_open m' = mx_open m /\ mx_connect m' = mx_connect m /\
  mx_rx m' = mx_rx m /\ mx_rx_sched m' = mx_rx_sched m.
Proof.
  intros Hrun. apply script_send_done in Hrun as [-> Ht].
  pose proof (send_fields (sfd c) (build_query (plist_to_bin p)) m) as (F1 & F2 & F3 & F4 & F5).
  unfold transport_of in Ht. injection Ht as E1 E2 E3 _ E5 E6.
  rewrite E1, E2, E3, E5, E6. auto.
Qed.

(** A send whose frame fits in 32 bits completes on the scripted
    transport, with the result of its [usbmuxd_send]; of the blocks it
    allocates only [content] is left. *)
Lemma script_send c p m :
  u32_of_nat (length (plist_to_bin p)) < u32_max - 4 ->
  exists m', mobilesync_send (Some c) (Some p) m =
               Done (fst (fst (send (sfd c) (build_query (plist_to_bin p)) m)), m') /\
             (exists a, Z.pos (mx_next m) < a /\ mx_heap m' = (a, BlkContent) :: mx_heap m) /\
             mx_log m' = mx_log m ++ (if mx_debug m then [log_text "mobilesync_send" p] else []) /\
             mx_debug m' = mx_debug m.
Proof.
  intros Hlen. unfold mobilesync_send.
  rewrite send_alloc_size_wraps by apply u32_of_nat_range.
  rewrite (proj2 (Z.leb_gt _ _)) by exact Hlen.
  destruct (script_debug_plist "mobilesync_send" (Some p) m) as (m1 & Hd & Ht1 & Hh1 & Hdb1 & Hl1 & Hn1);
    [right; discriminate|].
  assert (Hnext : Z.pos (mx_next m) < Z.pos (mx_next m1)) by (rewrite Hn1, Pos2Z.inj_succ; lia).
  rewrite (st_bind_Done _ _ _ _ _ Hd). cbv beta.
  rewrite (st_bind_Done _ _ _ _ _ (script_malloc BlkContent m1)). cbv beta.
  rewrite (st_bind_Done _ _ _ _ _ (script_malloc BlkQuery _)).
  set (m2 := snd (malloc BlkContent m1)). set (m3 := snd (malloc BlkQuery m2)).
  cbv beta iota. rewrite st_bind_lift. cbn [usbmuxd_send script_usbmux].
  destruct (send_transport (sfd c) (build_query (plist_to_bin p)) m m3) as [Hr _];
    [exact Ht1|].
  pose proof (send_runtime (sfd c) (build_query (plist_to_bin p)) m3) as Hrt.
  destruct (send (sfd c) (build_query (plist_to_bin p)) m3) as [[r n] m4].
  cbn [fst snd] in Hr, Hrt |- *.
  unfold runtime_of in Hrt. injection Hrt as Hh4 _ Hd4 Hl4.
  unfold st_bind, st_free, st_ret. cbn [Z.eqb c_free script_runtime].
  rewrite (free_last m4 (Z.pos (mx_next m2)) BlkQuery (mx_heap m2)) by exact Hh4.
  rewrite <- Hr. eexists. split; [reflexivity|]. split.
  - exists (Z.pos (mx_next m1)). split; [exact Hnext|].
    cbn [mx_heap set_runtime]. unfold m2, malloc. cbn [snd mx_heap set_runtime]. rewrite Hh1. reflexivity.
  - split; [cbn [mx_log set_runtime]; rewrite Hl4; exact Hl1|].
    cbn [mx_debug set_runtime]. rewrite Hd4. exact Hdb1.
Qed.

(** The state after the header read: the runtime as before. *)
Lemma header_read_runtime fd m r h m1 :
  recv fd 4 m = ((r, h), m1) -> runtime_of m1 = runtime_of m.
Proof. intros E. pose proof (recv_runtime fd 4 m) as Hr. rewrite E in Hr. exact Hr. Qed.

(** The end of a receive whose loop finished: lines 153-167 free the
    buffer [malloc] handed out after the header read. *)
Lemma script_recv_after_loop m m1 m3 r bytes :
  runtime_of m1 = runtime_of m -> runtime_of m3 = runtime_of (snd (malloc BlkReceive m1)) ->
  (r <> IPHONE_E_SUCCESS \/ mx_debug m = false \/ plist_from_bin bytes <> None) ->
  exists m' p, recv_finish (Some None) (Z.pos (mx_next m1)) r bytes m3 = Done ((r, Some p), m') /\
    (r <> IPHONE_E_SUCCESS -> p = None) /\
    (r = IPHONE_E_SUCCESS -> option_map plist_tree p = plist_from_bin bytes) /\
    transport_of m' = transport_of m3 /\ mx_heap m' = owned p ++ mx_heap m.
Proof.
  intros H1 H3 Hok. pose proof H1 as H1'. unfold runtime_of in H1'. injection H1' as Hh1 _ Hd1 _.
  destruct (script_recv_finish m1 m3 r bytes H3) as (m' & p & Hf & Hp1 & Hp2 & Ht & Hh & _);
    [rewrite Hd1; exact Hok|].
  exists m', p. rewrite Hh, Hh1. auto.
Qed.

(** A whole frame, read over a schedule of chunks, up to lines 153-167:
    the loop has read the payload and left the bytes after the frame;
    the receive buffer is the last block allocated. *)
Lemma script_recv_frame_loop fuel c payload rest m :
  is_open (sfd c) m = true ->
  mx_rx m = be32 (Z.of_nat (length payload)) ++ payload ++ rest ->
  Z.of_nat (length payload) < u32_max ->
  header_unsplit (mx_rx_sched m) = true -> chunks_only (mx_rx_sched m) = true ->
  (length (mx_rx_sched m) < fuel)%nat ->
  exists m1 m3, mobilesync_recv fuel (Some c) (Some None) m =
                  recv_finish (Some None) (Z.pos (mx_next m1)) IPHONE_E_SUCCESS payload m3 /\
    runtime_of m1 = runtime_of m /\ runtime_of m3 = runtime_of (snd (malloc BlkReceive m1)) /\
    mx_rx m3 = rest /\ (mx_rx_sched m = [] -> mx_rx_sched m3 = []) /\ reads_only (sfd c) m m3.
Proof.
  intros Ho Hrx Hlen Hh Hch Hf.
  destruct (script_header_read (sfd c) m _ _ Ho Hh Hrx) as [m1 [Hr [Hrx1 [Ho1 Hs1]]]].
  { intros e s Es. rewrite Es in Hch. discriminate. }
  rewrite script_recv_unfold, Hr, header_value_be32, Nat2Z.id by lia.
  destruct (script_loop_reassembles fuel (sfd c) (length payload) [] payload rest
              (snd (malloc BlkReceive m1))) as [m3 [Hrun [Hrx3 [_ Hs3]]]];
    try assumption; try reflexivity.
  - change (mx_rx_sched (snd (malloc BlkReceive m1))) with (mx_rx_sched m1). rewrite Hs1.
    destruct (mx_rx_sched m); simpl in *; [reflexivity | apply andb_true_iff in Hch; tauto].
  - change (mx_rx_sched (snd (malloc BlkReceive m1))) with (mx_rx_sched m1). rewrite Hs1.
    destruct (mx_rx_sched m); simpl in *; lia.
  - rewrite Hrun. change ([] ++ payload) with payload.
    pose proof (recv_loop_reads_only _ _ _ _ _ _ _ _ Hrun) as [Hro Hrt].
    exists m1, m3. split; [reflexivity|].
    split; [exact (header_read_runtime _ _ _ _ _ Hr)|]. split; [exact Hrt|].
    split; [exact Hrx3|]. split.
    + intros E. apply Hs3.
      change (mx_rx_sched (snd (malloc BlkReceive m1))) with (mx_rx_sched m1). rewrite Hs1, E. reflexivity.
    + eapply reads_only_trans; [|exact Hro].
      eapply reads_only_transport; [|reflexivity].
      pose proof (recv_reads_only (sfd c) 4 m) as Hro0. rewrite Hr in Hro0. exact Hro0.
Qed.

(** A whole frame, read over a schedule of chunks: the decoded payload,
    the bytes after the frame left, reads only, and the heap as before. *)
Lemma script_recv_frame fuel c payload rest m :
  is_open (sfd c) m = true ->
  mx_rx m = be32 (Z.of_nat (length payload)) ++ payload ++ rest ->
  Z.of_nat (length payload) < u32_max ->
  header_unsplit (mx_rx_sched m) = true -> chunks_only (mx_rx_sched m) = true ->
  (length (mx_rx_sched m) < fuel)%nat ->
  (mx_debug m = false \/ plist_from_bin payload <> None) ->
  exists m' p, mobilesync_recv fuel (Some c) (Some None) m =
                 Done ((IPHONE_E_SUCCESS, Some p), m') /\
             option_map plist_tree p = plist_from_bin payload /\
             mx_rx m' = rest /\ (mx_rx_sched m = [] -> mx_rx_sched m' = []) /\
             reads_only (sfd c) m m' /\ mx_heap m' = owned p ++ mx_heap m.
Proof.
  intros Ho Hrx Hlen Hh Hch Hf Hdb.
  destruct (script_recv_frame_loop fuel c payload rest m) as (m1 & m3 & Hrun & H1 & H3 & Hrx3 & Hs3 & Hro);
    try assumption.
  destruct (script_recv_after_loop m m1 m3 IPHONE_E_SUCCESS payload H1 H3)
    as (m' & p & Hfin & _ & Hp & Ht & Hheap); [right; exact Hdb|].
  rewrite Hrun, Hfin. exists m', p. split; [reflexivity|]. split; [exact (Hp eq_refl)|].
  pose proof (f_equal (fun t => snd (fst (fst (fst (fst t))))) Ht) as Erx. cbn in Erx.
  pose proof (f_equal (fun t => snd (fst (fst (fst t)))) Ht) as Es. cbn in Es.
  split; [congruence|]. split; [intros E; rewrite Es; exact (Hs3 E)|].
  split; [eapply reads_only_transport; [exact Hro | exact Ht] | exact Hheap].
Qed.

(** With debug output on, a received payload that does not decode
    leaves [*plist] NULL, and line 164 formats it with ["%s"]. *)
Lemma recv_finish_debug_null m1 m3 bytes :
  runtime_of m3 = runtime_of (snd (malloc BlkReceive m1)) ->
  mx_debug m1 = true -> plist_from_bin bytes = None ->
  recv_finish (Some None) (Z.pos (mx_next m1)) IPHONE_E_SUCCESS bytes m3 = Undefined.
Proof.
  unfold runtime_of. intros H3 Hd Hb. cbn in H3. injection H3 as Hh _ Hd3 _.
  unfold recv_finish. cbn [negb Z.eqb IPHONE_E_SUCCESS].
  rewrite (st_bind_Done _ _ _ _ _ (script_plist_from_bin_alloc bytes m3)), Hb. cbv beta iota.
  rewrite (st_bind_Done _ _ _ _ _ (script_free_last m3 _ BlkReceive _ Hh ltac:(discriminate))).
  unfold st_bind. rewrite debug_plist_null by (cbn; congruence). reflexivity.
Qed.

(** The end of every receive that finishes: the buffer is freed, so the
    heap is as before the [malloc] of line 145 but for the decoded tree
    the slot points to, and one record is logged when debug output is on
    and the receive succeeded. *)
Lemma recv_finish_done m1 m3 r bytes x m' :
  runtime_of m3 = runtime_of (snd (malloc BlkReceive m1)) ->
  recv_finish (Some None) (Z.pos (mx_next m1)) r bytes m3 = Done (x, m') ->
  transport_of m' = transport_of m3 /\ mx_heap m' = owned (slot_handle (snd x)) ++ mx_heap m1 /\
  mx_debug m' = mx_debug m1 /\ mx_log m' = mx_log m1 ++ recv_log (mx_debug m1) (slot_handle (snd x)) /\
  handle_pos (slot_handle (snd x)).
Proof.
  intros H3 Hrun.
  assert (Hok : r <> IPHONE_E_SUCCESS \/ mx_debug m1 = false \/ plist_from_bin bytes <> None).
  { destruct (Z.eqb_spec r IPHONE_E_SUCCESS) as [->|]; [|left; assumption]. right.
    destruct (mx_debug m1) eqn:Hd; [right|left; reflexivity]. intros Hb.
    rewrite (recv_finish_debug_null m1 m3 bytes H3 Hd Hb) in Hrun. discriminate. }
  destruct (script_recv_finish m1 m3 r bytes H3 Hok) as (m2 & p & Hf & _ & _ & Ht & Hh & Hd & Hl & Hp).
  rewrite Hf in Hrun. injection Hrun as <- <-. auto.
Qed.

(** A send whose frame fits in 32 bits completes. *)
Lemma mobilesync_send_completes c p m :
  Z.of_nat (length (plist_to_bin p)) + 4 < u32_max ->
  exists r m', mobilesync_send (Some c) (Some p) m = Done (r, m').
Proof.
  intros Hlen. destruct (script_send c p m) as (m' & Hs & _); [rewrite u32_of_nat_small; lia|].
  eauto.
Qed.

(** C6: a frame is reassembled whatever the schedule of short reads it
    arrives in (once its 4-byte header has been read in one piece): the
    receive returns success with the decoding of exactly the [N]
    payload bytes, in a tree the slot points to, the bytes the device
    sent after the frame are still unread, and the receive buffer has
    been freed: the heap holds only the new tree more.  (With debug
    output on, the payload must decode: see
    [mobilesync_recv_debug_null].) *)
Theorem mobilesync_recv_reassembles fuel c payload rest m :
  is_open (sfd c) m = true ->
  mx_rx m = be32 (Z.of_nat (length payload)) ++ payload ++ rest ->
  Z.of_nat (length payload) < u32_max ->
  header_unsplit (mx_rx_sched m) = true -> chunks_only (mx_rx_sched m) = true ->
  (length (mx_rx_sched m) < fuel)%nat ->
  (mx_debug m = false \/ plist_from_bin payload <> None) ->
  exists m' p, mobilesync_recv fuel (Some c) (Some None) m =
                 Done ((IPHONE_E_SUCCESS, Some p), m') /\
               option_map plist_tree p = plist_from_bin payload /\
               mx_rx m' = rest /\ mx_heap m' = owned p ++ mx_heap m.
Proof.
  intros Ho Hrx Hlen Hh Hch Hf Hdb.
  destruct (script_recv_frame fuel c payload rest m) as (m' & p & Hrun & Hp & Hrx' & _ & _ & Hheap);
    [assumption..|].
  exists m', p. auto.
Qed.

(** C10: the receive terminates, whatever the schedule of short and
    failed reads, when the device has sent a whole frame (and its
    header is not split): [length schedule + 1] units of fuel are
    enough.  Debug output is off, as it is unless the program turns it
    on. *)
Theorem mobilesync_recv_terminates fuel c payload rest m :
  is_open (sfd c) m = true ->
  mx_rx m = be32 (Z.of_nat (length payload)) ++ payload ++ rest ->
  Z.of_nat (length payload) < u32_max ->
  header_unsplit (mx_rx_sched m) = true ->
  (length (mx_rx_sched m) < fuel)%nat ->
  mx_debug m = false ->
  exists res, mobilesync_recv fuel (Some c) (Some None) m = Done res.
Proof.
  intros Ho Hrx Hlen Hh Hf Hdb. rewrite script_recv_unfold.
  assert (Hend : forall m1 m3 r b, runtime_of m1 = runtime_of m ->
            runtime_of m3 = runtime_of (snd (malloc BlkReceive m1)) ->
            exists res, recv_finish (Some None) (Z.pos (mx_next m1)) r b m3 = Done res).
  { intros m1 m3 r b H1 H3.
    destruct (script_recv_after_loop m m1 m3 r b H1 H3) as (m' & p & Hfin & _);
      [right; left; exact Hdb | eauto]. }
  destruct (mx_rx_sched m) as [|[k|e] s] eqn:Es.
  1,2: destruct (script_header_read (sfd c) m _ _ Ho ltac:(rewrite Es; exact Hh) Hrx)
      as [m1 [Hr [Hrx1 [Ho1 Hs1]]]]; [intros e s' E; congruence|];
    rewrite Hr, header_value_be32, Nat2Z.id by lia;
    destruct (script_loop_terminates fuel (sfd c) (length payload) [] IPHONE_E_SUCCESS
                (snd (malloc BlkReceive m1))) as [[[r b] m3] Hrun];
    [exact Ho1 | change (mx_rx (snd (malloc BlkReceive m1))) with (mx_rx m1);
                 rewrite Hrx1, length_app; cbn [length]; lia
     | change (mx_rx_sched (snd (malloc BlkReceive m1))) with (mx_rx_sched m1);
       rewrite Hs1, Es; simpl in *; lia |];
    rewrite Hrun; exact (Hend m1 m3 r b (header_read_runtime _ _ _ _ _ Hr)
                           (proj2 (recv_loop_reads_only _ _ _ _ _ _ _ _ Hrun))).
  - rewrite recv_fail with (e := e) (s := s) by assumption.
    replace (header_value []) with 0%nat by reflexivity.
    rewrite recv_loop_exit by (apply loop_continues_false; cbn [length]; lia).
    apply Hend; reflexivity.
Qed.

(** C9: when the transport has delivered only part of a frame and from
    then on reports success with zero bytes (in the scripted transport,
    the state of a device that sent nothing more: an exhausted schedule),
    the receive never returns: the loop of lines 148-151 spins, whatever
    the fuel. *)
Theorem mobilesync_recv_diverges_on_eof fuel c N partial m :
  is_open (sfd c) m = true -> mx_rx_sched m = [] ->
  mx_rx m = be32 N ++ partial -> 0 <= N < u32_max -> (length partial < Z.to_nat N)%nat ->
  mobilesync_recv fuel (Some c) (Some None) m = OutOfFuel.
Proof.
  intros Ho Hs Hrx HN Hp. rewrite script_recv_unfold.
  destruct (script_header_read (sfd c) m _ _ Ho ltac:(rewrite Hs; reflexivity) Hrx)
    as [m1 [Hr [Hrx1 [Ho1 Hs1]]]]; [intros e s' E; congruence|].
  rewrite Hr, header_value_be32 by exact HN.
  rewrite script_loop_eof; [reflexivity | exact Ho1 | | ].
  - change (mx_rx_sched (snd (malloc BlkReceive m1))) with (mx_rx_sched m1).
    rewrite Hs1, Hs. reflexivity.
  - change (mx_rx (snd (malloc BlkReceive m1))) with (mx_rx m1). rewrite Hrx1. simpl. lia.
Qed.

(** C11: the header is read with a single [usbmuxd_recv] (line 142),
    not in a loop: when that read returns only [k < 4] bytes, the
    missing bytes stay zero in [datalen].  For every frame shorter than
    [2^(8(4-k))] bytes this makes [datalen = 0]: the receive returns
    success with the decoding of an empty buffer, having consumed only
    [k] header bytes, so the rest of the header and the payload are left
    to be misread as the next frame. *)
Theorem mobilesync_recv_split_header fuel c k s N rest m :
  is_open (sfd c) m = true -> mx_rx_sched m = RxChunk k :: s -> (k < 4)%nat ->
  0 <= N < 2 ^ (8 * Z.of_nat (4 - k)) -> mx_rx m = be32 N ++ rest ->
  (mx_debug m = false \/ plist_from_bin [] <> None) ->
  exists m' p, mobilesync_recv fuel (Some c) (Some None) m =
                 Done ((IPHONE_E_SUCCESS, Some p), m') /\
               option_map plist_tree p = plist_from_bin [] /\
               mx_rx m' = skipn k (be32 N) ++ rest.
Proof.
  intros Ho Hs Hk HN Hrx Hdb. rewrite script_recv_unfold.
  pose proof (recv_runtime (sfd c) 4 m) as Hrt.
  rewrite recv_chunk with (k := k) (s := s) in * by assumption.
  rewrite Nat.min_l in * by lia. unfold deliver in *.
  assert (Hz : firstn k (mx_rx m) = repeat Byte.x00 k).
  { rewrite Hrx, (be32_leading_zeros k N), <- app_assoc by lia.
    rewrite firstn_app_exact by (symmetry; apply repeat_length). reflexivity. }
  rewrite Hz in *. rewrite header_value_zeros, recv_loop_exit by (try apply loop_continues_false; simpl; lia).
  cbn [snd] in Hrt.
  destruct (script_recv_after_loop m _ _ IPHONE_E_SUCCESS [] Hrt eq_refl)
    as (m' & p & Hfin & _ & Hp & Ht & _); [right; exact Hdb|].
  exists m', p. split; [exact Hfin|]. split; [exact (Hp eq_refl)|].
  pose proof (f_equal (fun t => snd (fst (fst (fst (fst t))))) Ht) as Erx. cbn in Erx. rewrite Erx.
  rewrite repeat_length, Hrx, skipn_app_le by (rewrite be32_length; lia). reflexivity.
Qed.

(** C12: when the payload and its header fit in 32 bits, [mobilesync_send]
    completes with exactly one transport call, carrying the frame
    [be32 N ++ payload], and returns that call's result. *)
Theorem mobilesync_send_frame c p m :
  Z.of_nat (length (plist_to_bin p)) + 4 < u32_max ->
  let frame := be32 (Z.of_nat (length (plist_to_bin p))) ++ plist_to_bin p in
  exists m', mobilesync_send (Some c) (Some p) m = Done (fst (fst (send (sfd c) frame m)), m') /\
    mx_trace m' = mx_trace m ++ [CallSend (sfd c) frame (fst (fst (send (sfd c) frame m)))].
Proof.
  intros Hlen frame. destruct (script_send c p m) as (m' & Hs & _); [rewrite u32_of_nat_small; lia|].
  rewrite build_query_small in Hs by lia. exists m'. split; [exact Hs|].
  apply mobilesync_send_effect in Hs as [Ht _]. rewrite build_query_small in Ht by lia. exact Ht.
Qed.

(** The 32-bit [length + 4] wraps: the [memcpy] overflows. *)
Lemma script_send_wraps c p m :
  u32_max - 4 <= u32_of_nat (length (plist_to_bin p)) ->
  mobilesync_send (Some c) (Some p) m = Undefined.
Proof.
  intros Hw. unfold mobilesync_send.
  destruct (script_debug_plist "mobilesync_send" (Some p) m) as (m1 & Hd & _);
    [right; discriminate|].
  rewrite (st_bind_Done _ _ _ _ _ Hd). cbv beta.
  rewrite (st_bind_Done _ _ _ _ _ (script_malloc BlkContent m1)). cbv beta.
  rewrite (st_bind_Done _ _ _ _ _ (script_malloc BlkQuery _)). cbv beta.
  rewrite send_alloc_size_wraps by apply u32_of_nat_range.
  rewrite (proj2 (Z.leb_le _ _) Hw). reflexivity.
Qed.

(** C14: [length + 4] is computed in [uint32_t] (line 200): the send has
    undefined behaviour (the [memcpy] of line 203 overflows the wrapped
    allocation) exactly when the 32-bit payload length is at least
    [2^32 - 4]; otherwise it completes. *)
Theorem mobilesync_send_undefined c p m :
  mobilesync_send (Some c) (Some p) m = Undefined <->
  u32_max - 4 <= u32_of_nat (length (plist_to_bin p)).
Proof.
  destruct (Z.leb_spec (u32_max - 4) (u32_of_nat (length (plist_to_bin p)))) as [Hw|Hw].
  - split; [intros _; exact Hw | intros _; apply script_send_wraps; exact Hw].
  - destruct (script_send c p m) as (m' & Hs & _); [exact Hw|]. rewrite Hs.
    split; [discriminate | lia].
Qed.

(** On a closed socket the send fails with [-EBADF]. *)
Lemma mobilesync_send_closed c p m r m' :
  is_open (sfd c) m = false -> mobilesync_send (Some c) (Some p) m = Done (r, m') -> r = - EBADF.
Proof.
  intros Hc Hrun.
  destruct (Z.ltb_spec (u32_of_nat (length (plist_to_bin p))) (u32_max - 4)) as [Hl|Hl].
  - destruct (script_send c p m) as (m2 & Hs & _); [exact Hl|]. rewrite Hs in Hrun.
    injection Hrun as <- _. unfold send. rewrite Hc. reflexivity.
  - rewrite script_send_wraps in Hrun by exact Hl. discriminate.
Qed.

(** On a closed socket the receive makes one failed header read and
    returns its error, the slot untouched and the socket still closed. *)
Lemma mobilesync_recv_closed fuel c m x m' :
  is_open (sfd c) m = false -> mobilesync_recv fuel (Some c) (Some None) m = Done (x, m') ->
  x = (- EBADF, Some None) /\ mx_trace m' = mx_trace m ++ [CallRecv (sfd c) 4 (- EBADF) []] /\
  mx_open m' = mx_open m.
Proof.
  intros Hc. rewrite script_recv_unfold, recv_closed by exact Hc. cbv beta iota.
  rewrite recv_loop_exit by (unfold loop_continues; destruct (_ <? _)%nat; reflexivity).
  destruct (script_recv_after_loop m (log (CallRecv (sfd c) 4 (- EBADF) []) m) _ (- EBADF) []
              eq_refl eq_refl) as (m2 & p & Hf & Hp & _ & Ht & _); [left; discriminate|].
  rewrite Hf, Hp by discriminate. intros Hrun. injection Hrun as <- <-. split; [reflexivity|].
  unfold transport_of in Ht. cbn in Ht. injection Ht as _ _ _ _ -> ->. auto.
Qed.

(** What every receive that finishes leaves in the runtime: the heap as
    it was but for the tree the slot points to (NULL or an allocated
    address), the debug switch as it was, and one log record when debug
    output is on and a tree was decoded. *)
Lemma mobilesync_recv_runtime fuel c m x m' :
  mobilesync_recv fuel (Some c) (Some None) m = Done (x, m') ->
  mx_heap m' = owned (slot_handle (snd x)) ++ mx_heap m /\ mx_debug m' = mx_debug m /\
  mx_log m' = mx_log m ++ recv_log (mx_debug m) (slot_handle (snd x)) /\
  handle_pos (slot_handle (snd x)).
Proof.
  rewrite script_recv_unfold. pose proof (recv_runtime (sfd c) 4 m) as Hr.
  destruct (recv (sfd c) 4 m) as [[r0 hdr] m1].
  destruct (recv_loop fuel (sfd c) (header_value hdr) [] r0 (snd (malloc BlkReceive m1)))
    as [[[r b] m3]| |] eqn:Hl; try discriminate.
  apply recv_loop_reads_only in Hl as [_ Hrt]. intros Hrun.
  apply recv_finish_done with (m1 := m1) in Hrun as (_ & Hh & Hd & Hlog & Hp); [|exact Hrt].
  unfold runtime_of in Hr. cbn in Hr. injection Hr as Hh1 _ Hd1 Hl1.
  rewrite Hh, Hd, Hlog, Hh1, Hd1, Hl1. auto.
Qed.

(** A loop that stopped: nothing more read. *)
Lemma recv_loop_consumes_exit fd n buf r m :
  loop_continues n buf r = false ->
  exists d, buf = buf ++ d /\ mx_rx m = d ++ mx_rx m /\
    ((length buf <= n)%nat -> (length buf <= n)%nat) /\
    (r = IPHONE_E_SUCCESS -> (n <= length buf)%nat) /\
    ((mx_trace m = mx_trace m /\ r = r) \/
     exists l k dd, mx_trace m = mx_trace m ++ l ++ [CallRecv fd k r dd]).
Proof.
  intros Hc. apply loop_continues_false in Hc. exists []. rewrite app_nil_r.
  split; [reflexivity|]. split; [reflexivity|]. split; [auto|]. split; [|left; auto].
  intros Hr. destruct (Nat.lt_ge_cases (length buf) n); [exfalso; apply Hc; auto | lia].
Qed.

(** The loop takes what it reads off the front of the device's bytes,
    never more than [n] in all, and holds at least [n] unless a read
    failed; when it read at all, its result is that of its last read. *)
Lemma recv_loop_consumes f fd n buf r m r' buf' m' :
  recv_loop f fd n buf r m = Done ((r', buf'), m') ->
  exists d, buf' = buf ++ d /\ mx_rx m = d ++ mx_rx m' /\
    ((length buf <= n)%nat -> (length buf' <= n)%nat) /\
    (r' = IPHONE_E_SUCCESS -> (n <= length buf')%nat) /\
    ((mx_trace m' = mx_trace m /\ r' = r) \/
     exists l k dd, mx_trace m' = mx_trace m ++ l ++ [CallRecv fd k r' dd]).
Proof.
  revert buf r m. induction f as [|f IH]; intros buf r m Hrun;
    destruct (loop_continues n buf r) eqn:Hc.
  - rewrite recv_loop_no_fuel in Hrun by exact Hc. discriminate.
  - rewrite recv_loop_exit in Hrun by exact Hc. injection Hrun as <- <- <-.
    exact (recv_loop_consumes_exit fd n buf r m Hc).
  - rewrite recv_loop_step in Hrun by exact Hc. cbn [usbmuxd_recv script_usbmux] in Hrun.
    pose proof (recv_consumes fd (n - length buf) m) as Hs.
    destruct (recv fd (n - length buf) m) as [[r1 b] m1]. destruct Hs as (Hrx1 & Ht1 & Hl1).
    apply IH in Hrun as (d & -> & Hrx & Hle & Hge & Htr). apply loop_continues_true in Hc as [Hlt _].
    exists (b ++ d). split; [rewrite app_assoc; reflexivity|].
    split; [rewrite Hrx1, Hrx, app_assoc; reflexivity|].
    split; [intros _; apply Hle; rewrite length_app; lia|]. split; [exact Hge|].
    right. destruct Htr as [[Ht ->] | (l & k & dd & Ht)].
    + exists [], (n - length buf)%nat, b. rewrite Ht, Ht1. reflexivity.
    + exists (CallRecv fd (n - length buf) r1 b :: l), k, dd. rewrite Ht, Ht1, <- app_assoc. reflexivity.
  - rewrite recv_loop_exit in Hrun by exact Hc. injection Hrun as <- <- <-.
    exact (recv_loop_consumes_exit fd n buf r m Hc).
Qed.

(** Every receive that finishes took a header [hdr] and then the bytes
    [buf] off the front of what the device sent; on an error it returns
    the result of its last read, the slot left NULL; on success [buf]
    has the [datalen] the header gave and the slot points to its
    decoding. *)
Lemma mobilesync_recv_consumes fuel c m ret slot m' :
  mobilesync_recv fuel (Some c) (Some None) m = Done ((ret, slot), m') ->
  exists hdr buf, mx_rx m = hdr ++ buf ++ mx_rx m' /\ (length hdr <= 4)%nat /\
    (ret <> IPHONE_E_SUCCESS -> slot = Some None /\
       exists l n d, mx_trace m' = mx_trace m ++ l ++ [CallRecv (sfd c) n ret d]) /\
    (ret = IPHONE_E_SUCCESS -> length buf = header_value hdr /\
       exists h, slot = Some h /\ option_map plist_tree h = plist_from_bin buf).
Proof.
  rewrite script_recv_unfold. pose proof (recv_consumes (sfd c) 4 m) as Hs0.
  destruct (recv (sfd c) 4 m) as [[r0 hdr] m1]. destruct Hs0 as (Hrx1 & Ht1 & Hl1).
  destruct (recv_loop fuel (sfd c) (header_value hdr) [] r0 (snd (malloc BlkReceive m1)))
    as [[[r b] m3]| |] eqn:Hl; try discriminate.
  intros Hrun.
  destruct (transport_fields _ _ (recv_finish_keeps _ _ _ _ _ _ _ Hrun)) as (Ht3 & _ & _ & Hrx3 & _).
  apply recv_loop_consumes in Hl as (d & Hb & Hrxd & Hle & Hge & Htr). cbn [app] in Hb. subst b.
  change (mx_rx (snd (malloc BlkReceive m1))) with (mx_rx m1) in Hrxd.
  change (mx_trace (snd (malloc BlkReceive m1))) with (mx_trace m1) in Htr.
  exists hdr, d. split; [rewrite Hrx1, Hrxd, Hrx3; reflexivity|]. split; [exact Hl1|].
  apply recv_finish_result in Hrun as [(Hr & E) | (Hr & h & E & Hh)]; injection E as -> ->.
  - split; [intros _; split; [reflexivity|] | intros; contradiction].
    destruct Htr as [[Ht ->] | (l & k & dd & Ht)].
    + exists [], 4%nat, hdr. rewrite Ht3, Ht, Ht1. reflexivity.
    + exists (CallRecv (sfd c) 4 r0 hdr :: l), k, dd. rewrite Ht3, Ht, Ht1, <- app_assoc. reflexivity.
  - split; [intros; contradiction|]. intros _. split.
    + pose proof (Hle ltac:(cbn; lia)). pose proof (Hge Hr). lia.
    + exists h. auto.
Qed.

(** C15: what [mobilesync_recv] leaves in the slot, and from which
    bytes: on a transport error it returns the result of its last
    [usbmuxd_recv] unchanged and leaves the slot NULL; on success it has
    taken a header of at most 4 bytes and then exactly [datalen] bytes
    off the front of what the device sent ([datalen] being the header
    as read, zero-padded), and the slot points to the decoding of those
    bytes. *)
Theorem mobilesync_recv_outcome fuel c m ret slot m' :
  mobilesync_recv fuel (Some c) (Some None) m = Done ((ret, slot), m') ->
  (ret <> IPHONE_E_SUCCESS -> slot = Some None /\
     exists l n d, mx_trace m' = mx_trace m ++ l ++ [CallRecv (sfd c) n ret d]) /\
  (ret = IPHONE_E_SUCCESS ->
   exists hdr buf h, mx_rx m = hdr ++ buf ++ mx_rx m' /\ (length hdr <= 4)%nat /\
     length buf = header_value hdr /\ slot = Some h /\ option_map plist_tree h = plist_from_bin buf).
Proof.
  intros Hrun. destruct (mobilesync_recv_consumes _ _ _ _ _ _ Hrun) as (hdr & buf & Hrx & Hl & He & Hs).
  split; [exact He|]. intros Hr. destruct (Hs Hr) as [Hlen (h & -> & Hh)].
  exists hdr, buf, h. auto.
Qed.

Lemma owned_counts p b :
  count_blk b (owned p) = (if block_eq_dec b BlkPlist then length (owned p) else 0)%nat.
Proof. destruct p; cbn; destruct b; reflexivity. Qed.

Lemma recv_heap_delta fuel c m x m' :
  mobilesync_recv fuel (Some c) (Some None) m = Done (x, m') ->
  heap_delta 0 (length (owned (slot_handle (snd x)))) m m'.
Proof.
  intros Hrun. destruct (mobilesync_recv_reads_only _ _ _ _ _ Hrun) as (_ & _ & _ & l & Ht & Hl).
  apply (heap_delta_added _ _ _ _ l _ Ht (proj1 (mobilesync_recv_runtime _ _ _ _ _ Hrun))).
  intros b. unfold delta_of. rewrite owned_counts, (recv_calls_no_send _ _ Hl).
  destruct b; reflexivity.
Qed.

(** What a send that completes leaves in the runtime: one [content]
    block on the heap, at an address above every one handed out before
    it, the log record when debug output is on, the debug switch as it
    was. *)
Lemma mobilesync_send_runtime c p m r m' :
  mobilesync_send (Some c) (Some p) m = Done (r, m') ->
  (exists a, Z.pos (mx_next m) < a /\ mx_heap m' = (a, BlkContent) :: mx_heap m) /\
  mx_log m' = mx_log m ++ (if mx_debug m then [log_text "mobilesync_send" p] else []) /\
  mx_debug m' = mx_debug m.
Proof.
  intros Hrun. destruct (Z.ltb_spec (u32_of_nat (length (plist_to_bin p))) (u32_max - 4)) as [Hl|Hl].
  2: rewrite script_send_wraps in Hrun by exact Hl; discriminate.
  destruct (script_send c p m) as (m2 & Hs & Hrest); [exact Hl|].
  rewrite Hs in Hrun. injection Hrun as _ <-. exact Hrest.
Qed.

Lemma send_heap_delta c p m r m' :
  mobilesync_send (Some c) (Some p) m = Done (r, m') -> heap_delta 0 0 m m'.
Proof.
  intros Hrun. destruct (mobilesync_send_runtime _ _ _ _ _ Hrun) as ((a & _ & Hh) & _).
  pose proof (mobilesync_send_effect _ _ _ _ _ Hrun) as [Ht _].
  apply (heap_delta_added _ _ _ _ _ [(a, BlkContent)] Ht Hh).
  intros b. unfold delta_of. rewrite count_blk_cons. destruct b; reflexivity.
Qed.

(** The caller's [plist_free] of the tree a receive returned: it
    finishes, and the heap is as before the receive. *)
Lemma recv_plist_free fuel c m r a m1 :
  mobilesync_recv fuel (Some c) (Some None) m = Done ((r, a), m1) ->
  exists m2, st_plist_free (slot_handle a) m1 = Done (tt, m2) /\
    transport_of m2 = transport_of m1 /\ mx_heap m2 = mx_heap m /\
    mx_debug m2 = mx_debug m1 /\ mx_log m2 = mx_log m1.
Proof.
  intros Hrun. apply script_plist_free;
    [apply (mobilesync_recv_runtime _ _ _ _ _ Hrun) | apply (mobilesync_recv_runtime _ _ _ _ _ Hrun)].
Qed.

(** C23: with debug output on (the [DBGMASK_MOBILESYNC] mask set), a
    whole frame whose payload does not decode makes [mobilesync_recv]
    undefined: [plist_from_bin] leaves [*plist] NULL, [plist_to_xml]
    leaves [XMLContent] NULL, and line 164 passes that NULL to the
    ["%s"] of [log_dbg_msg]. *)
Theorem mobilesync_recv_debug_null fuel c payload rest m :
  is_open (sfd c) m = true ->
  mx_rx m = be32 (Z.of_nat (length payload)) ++ payload ++ rest ->
  Z.of_nat (length payload) < u32_max ->
  header_unsplit (mx_rx_sched m) = true -> chunks_only (mx_rx_sched m) = true ->
  (length (mx_rx_sched m) < fuel)%nat ->
  mx_debug m = true -> plist_from_bin payload = None ->
  mobilesync_recv fuel (Some c) (Some None) m = Undefined.
Proof.
  intros Ho Hrx Hlen Hh Hch Hf Hd Hb.
  destruct (script_recv_frame_loop fuel c payload rest m) as (m1 & m3 & Hrun & H1 & H3 & _);
    try assumption.
  rewrite Hrun. apply recv_finish_debug_null; [exact H3 | | exact Hb].
  unfold runtime_of in H1. injection H1 as _ _ Hd1 _. congruence.
Qed.

(** C24: every [mobilesync_send] that completes leaves exactly one block
    more on the heap, the [content] buffer [plist_to_bin] allocated
    (line 194), which is never freed; the XML text and the frame are
    freed.  With debug output on it logs one record of the plist sent. *)
Theorem mobilesync_send_leaks_content c p m r m' :
  mobilesync_send (Some c) (Some p) m = Done (r, m') ->
  (exists a, mx_heap m' = (a, BlkContent) :: mx_heap m) /\
  mx_log m' = mx_log m ++ (if mx_debug m then [log_text "mobilesync_send" p] else []).
Proof.
  intros Hrun. destruct (mobilesync_send_runtime _ _ _ _ _ Hrun) as ((a & _ & Hh) & Hlog & _). eauto.
Qed.

(** C25: every [mobilesync_recv] that completes frees what it allocated
    itself (the receive buffer and the XML text): the only block it
    leaves is the tree [plist_from_bin] built, the one the slot points
    to, which the caller owns; with debug output on it logs exactly one
    record, of that tree, when it succeeded and none when a read failed
    or the bytes did not decode. *)
Theorem mobilesync_recv_logs fuel c m r slot m' :
  mobilesync_recv fuel (Some c) (Some None) m = Done ((r, slot), m') ->
  mx_heap m' = owned (slot_handle slot) ++ mx_heap m /\
  mx_log m' = mx_log m ++ recv_log (mx_debug m) (slot_handle slot).
Proof.
  intros Hrun. destruct (mobilesync_recv_runtime _ _ _ _ _ Hrun) as (Hh & _ & Hl & _). auto.
Qed.

(** With debug output off, [mobilesync_recv] never has undefined
    behaviour, whatever the device sends and however the reads are
    split or fail: every [free] is of the buffer it allocated, and only
    the debug log can reach the NULL [XMLContent] (C23). *)
Lemma mobilesync_recv_defined fuel c slot m :
  mx_debug m = false -> mobilesync_recv fuel c slot m <> Undefined.
Proof.
  intros Hd. destruct c as [c|]; [|discriminate]. destruct slot as [[p|]|]; try discriminate.
  rewrite script_recv_unfold. pose proof (recv_runtime (sfd c) 4 m) as Hr.
  destruct (recv (sfd c) 4 m) as [[r0 hdr] m1].
  destruct (recv_loop fuel (sfd c) (header_value hdr) [] r0 (snd (malloc BlkReceive m1)))
    as [[[r b] m3]| |] eqn:Hl; [| discriminate | exfalso; exact (recv_loop_defined _ _ _ _ _ _ Hl)].
  apply recv_loop_reads_only in Hl as [_ Hrt].
  cbn [snd] in Hr.
  destruct (script_recv_after_loop m m1 m3 r b Hr Hrt) as (m' & p & Hf & _); [right; left; exact Hd|].
  rewrite Hf. discriminate.
Qed.

(** C7: end to end, what [mobilesync_send] writes is read back by
    [mobilesync_recv]: the frame it hands the transport (recorded in
    the trace), delivered to a receiver over any schedule of short
    reads, decodes to the message sent, for every valid message and
    every codec satisfying the round-trip law; the receiver's slot
    points to a new tree holding it, the only block more on its heap. *)
Theorem send_recv_roundtrip `{!PlistCodecLaws} c msg ms fuel c' rest m :
  plist_valid msg = true ->
  Z.of_nat (length (plist_to_bin msg)) + 4 < u32_max ->
  exists ret ms' frame,
    mobilesync_send (Some c) (Some msg) ms = Done (ret, ms') /\
    mx_trace ms' = mx_trace ms ++ [CallSend (sfd c) frame ret] /\
    (is_open (sfd c') m = true -> mx_rx m = frame ++ rest ->
     header_unsplit (mx_rx_sched m) = true -> chunks_only (mx_rx_sched m) = true ->
     (length (mx_rx_sched m) < fuel)%nat ->
     exists m' h, mobilesync_recv fuel (Some c') (Some None) m =
                    Done ((IPHONE_E_SUCCESS, Some (Some h)), m') /\ plist_tree h = msg /\
                  mx_rx m' = rest /\ mx_heap m' = (plist_addr h, BlkPlist) :: mx_heap m).
Proof.
  intros Hv Hlen.
  destruct (script_send c msg ms) as (ms' & Hs & _); [rewrite u32_of_nat_small; lia|].
  pose proof (mobilesync_send_effect _ _ _ _ _ Hs) as [Ht _].
  rewrite build_query_small in Ht, Hs by lia.
  do 3 eexists. split; [exact Hs | split; [exact Ht|]].
  intros Ho Hrx Hh Hch Hf.
  destruct (script_recv_frame fuel c' (plist_to_bin msg) rest m)
    as (m' & [h|] & Hrun & Hp & Hrx' & _ & _ & Hhp);
    try assumption;
    try (solve [rewrite Hrx, <- app_assoc; reflexivity | lia
               | right; rewrite plist_from_to_bin by exact Hv; discriminate]);
    rewrite plist_from_to_bin in Hp by exact Hv; cbn in Hp; [|discriminate].
  injection Hp as Hp. exists m', h. auto.
Qed.

End Scripted.

(** ** Witnesses with the TLV codec *)

Module ChannelScriptWitnesses.
Import TLV.

Definition sock : mobilesync_client := mk_client 3.
Definition msg : plist := PArray [PString "DLMessageVersionExchange"%string; PUint 100; PUint 100].
Definition payload : list byte := tlv_enc msg.
Definition frame : list byte := be32 (Z.of_nat (length payload)) ++ payload.
Definition trailer : list byte := [Byte.x07].

(** The frame arrives one byte at a time after the header. *)
Definition one_byte_sched : list rx_event := RxChunk 4 :: repeat (RxChunk 1) 10.
Definition mux_split : mux := script 3 (frame ++ trailer) one_byte_sched [] [3] false.

Lemma mobilesync_recv_reassembles_witness :
  exists m' p, mobilesync_recv 12 (Some sock) (Some None) mux_split =
                 Done ((IPHONE_E_SUCCESS, Some p), m') /\
               option_map plist_tree p = plist_from_bin payload /\ mx_rx m' = trailer /\
               mx_heap m' = owned p ++ mx_heap mux_split.
Proof.
  apply mobilesync_recv_reassembles;
    [reflexivity | reflexivity | vm_compute; reflexivity | reflexivity | reflexivity | simpl; lia
    | left; reflexivity].
Defined.

Definition mux_faulty : mux := script 3 (frame ++ trailer) [RxChunk 4; RxChunk 3; RxFail (-110)] [] [3] false.

Lemma mobilesync_recv_terminates_witness :
  exists res, mobilesync_recv 4 (Some sock) (Some None) mux_faulty = Done res.
Proof.
  apply (mobilesync_recv_terminates 4 sock payload trailer);
    [reflexivity | reflexivity | vm_compute; reflexivity | reflexivity | simpl; lia | reflexivity].
Defined.

Definition mux_closed : mux := script 3 (be32 10 ++ [Byte.x01; Byte.x02; Byte.x03]) [] [] [3] false.

Lemma mobilesync_recv_diverges_on_eof_witness :
  mobilesync_recv 100 (Some sock) (Some None) mux_closed = OutOfFuel.
Proof.
  apply (mobilesync_recv_diverges_on_eof 100 sock 10 [Byte.x01; Byte.x02; Byte.x03]);
    [reflexivity | reflexivity | reflexivity | unfold u32_max; lia | simpl; lia].
Defined.

Definition mux_hdr_split : mux := script 3 (be32 300 ++ trailer) [RxChunk 2; RxChunk 2] [] [3] false.

Lemma mobilesync_recv_split_header_witness :
  exists m' p, mobilesync_recv 5 (Some sock) (Some None) mux_hdr_split =
                 Done ((IPHONE_E_SUCCESS, Some p), m') /\
               option_map plist_tree p = plist_from_bin [] /\
               mx_rx m' = skipn 2 (be32 300) ++ trailer.
Proof.
  apply (mobilesync_recv_split_header 5 sock 2 [RxChunk 2]);
    [reflexivity | reflexivity | lia | simpl; lia | reflexivity | left; reflexivity].
Defined.

Definition sender : mux := script 4 [] [] [] [4] false.

Lemma send_recv_roundtrip_witness :
  exists ret ms' fr,
    mobilesync_send (Some (mk_client 4)) (Some msg) sender = Done (ret, ms') /\
    mx_trace ms' = mx_trace sender ++ [CallSend 4 fr ret] /\
    (is_open (sfd sock) mux_split = true -> mx_rx mux_split = fr ++ trailer ->
     header_unsplit (mx_rx_sched mux_split) = true -> chunks_only (mx_rx_sched mux_split) = true ->
     (length (mx_rx_sched mux_split) < 12)%nat ->
     exists m' h, mobilesync_recv 12 (Some sock) (Some None) mux_split =
                    Done ((IPHONE_E_SUCCESS, Some (Some h)), m') /\ plist_tree h = msg /\
                  mx_rx m' = trailer /\ mx_heap m' = (plist_addr h, BlkPlist) :: mx_heap mux_split).
Proof.
  apply send_recv_roundtrip; [reflexivity | vm_compute; reflexivity].
Defined.

Lemma mobilesync_send_frame_witness :
  Z.of_nat (length (plist_to_bin msg)) + 4 < u32_max /\
  let frame := be32 (Z.of_nat (length (plist_to_bin msg))) ++ plist_to_bin msg in
  exists m', mobilesync_send (Some (mk_client 4)) (Some msg) sender =
               Done (fst (fst (send (sfd (mk_client 4)) frame sender)), m') /\
    mx_trace m' = mx_trace sender ++
      [CallSend (sfd (mk_client 4)) frame (fst (fst (send (sfd (mk_client 4)) frame sender)))].
Proof.
  assert (H : Z.of_nat (length (plist_to_bin msg)) + 4 < u32_max) by (vm_compute; reflexivity).
  split; [exact H | exact (mobilesync_send_frame (mk_client 4) msg sender H)].
Defined.

(** Debug output on, and a one-byte payload that does not decode. *)
Definition garbled : list byte := [Byte.xff].
Definition mux_debug_garbled : mux :=
  script 3 (be32 1 ++ garbled ++ trailer) [] [] [3] true.

Lemma mobilesync_recv_debug_null_witness :
  mobilesync_recv 1 (Some sock) (Some None) mux_debug_garbled = Undefined.
Proof.
  apply (mobilesync_recv_debug_null 1 sock garbled trailer);
    [reflexivity | reflexivity | vm_compute; reflexivity | reflexivity | reflexivity
    | simpl; lia | reflexivity | vm_compute; reflexivity].
Defined.

Definition sender_debug : mux := script 4 [] [] [] [4] true.

Lemma mobilesync_send_leaks_content_witness :
  exists r m', mobilesync_send (Some (mk_client 4)) (Some msg) sender_debug = Done (r, m') /\
    (exists a, mx_heap m' = (a, BlkContent) :: mx_heap sender_debug) /\
    mx_log m' = mx_log sender_debug ++ [log_text "mobilesync_send" msg].
Proof.
  exists 0. eexists. split; [vm_compute; reflexivity|].
  apply (mobilesync_send_leaks_content (mk_client 4) msg sender_debug 0). vm_compute. reflexivity.
Defined.

Definition mux_split_debug : mux := script 3 (frame ++ trailer) one_byte_sched [] [3] true.

Lemma mobilesync_recv_logs_witness :
  exists m', mobilesync_recv 12 (Some sock) (Some None) mux_split_debug =
               Done ((IPHONE_E_SUCCESS, Some (Some (mk_plist_t 2 msg))), m') /\
    mx_heap m' = owned (Some (mk_plist_t 2 msg)) ++ mx_heap mux_split_debug /\
    mx_log m' = mx_log mux_split_debug ++ recv_log (mx_debug mux_split_debug) (Some (mk_plist_t 2 msg)).
Proof.
  eexists. split; [vm_compute; reflexivity|].
  apply (mobilesync_recv_logs 12 sock mux_split_debug IPHONE_E_SUCCESS (Some (Some (mk_plist_t 2 msg)))).
  vm_compute. reflexivity.
Defined.

Definition mux_small : mux := script 3 (be32 3 ++ [Byte.x08; Byte.x09; Byte.x08]) [RxChunk 5] [] [3] false.

Lemma mobilesync_recv_outcome_witness :
  exists ret slot m', mobilesync_recv 3 (Some sock) (Some None) mux_small = Done ((ret, slot), m') /\
    ((ret <> IPHONE_E_SUCCESS -> slot = Some None /\
        exists l n d, mx_trace m' = mx_trace mux_small ++ l ++ [CallRecv (sfd sock) n ret d]) /\
     (ret = IPHONE_E_SUCCESS ->
      exists hdr buf h, mx_rx mux_small = hdr ++ buf ++ mx_rx m' /\ (length hdr <= 4)%nat /\
        length buf = header_value hdr /\ slot = Some h /\ option_map plist_tree h = plist_from_bin buf)).
Proof.
  do 3 eexists. split; [vm_compute; reflexivity|].
  eapply (mobilesync_recv_outcome 3 sock mux_small). vm_compute. reflexivity.
Defined.

End ChannelScriptWitnesses.
