(* ===== verification/Handshake.v ===== *)
(** * The handshake and the client's life cycle

    [mobilesync_new_client] (lines 32-102) checks its arguments, connects
    to the device, receives the device's version message, looks up the
    string [DLMessageVersionExchange] in it and reads the two siblings that
    follow as the version; when both are unsigned integers equal to
    [MSYNC_VERSION_INT1] and [MSYNC_VERSION_INT2] (100, 100) it answers
    [DLVersionsOk], receives one more message and hands back the client if
    that message contains [DLMessageDeviceReady].  Whatever [ret] holds at
    the end decides the cleanup: any value other than [IPHONE_E_SUCCESS]
    frees the client, which sends [DLMessageDisconnect] and closes the
    socket ([mobilesync_free_client], lines 118-125, and
    [mobilesync_disconnect], lines 104-116).

    The model keeps the code's assignments to [ret] as they are: the
    result of the ack's [mobilesync_send] is overwritten by the next
    [mobilesync_recv] (lines 80 and 85), and a failed version or
    device-ready check does not set [ret] at all, so [ret] still holds the
    [IPHONE_E_SUCCESS] of the last receive.

    After a successful connect the client structure is allocated (line
    46); nothing frees it, neither the cleanup nor
    [mobilesync_free_client], which only disconnects.  The trees the
    handshake receives are freed at lines 70 and 92, the messages it
    builds ([send_new_plist]) at lines 82 and 114; the version message
    is freed only inside the check of line 62, so it leaks when its
    siblings are not integers ([new_client_leaks_version_message]).
    Section [Heap] accounts for the blocks every run leaves. *)

From Stdlib Require Import ZArith String List Bool Lia.
From S2P Require Import Prelude Endian Plist Codec Runtime Usbmux Channel.
Import ListNotations.
Local Open Scope Z_scope.
Local Open Scope msync_scope.

(** [struct iphone_device_int]: the usbmuxd device handle. *)
Record iphone_device : Type := mk_device { handle : Z }.

Definition MSYNC_VERSION_INT1 : Z := 100.
Definition MSYNC_VERSION_INT2 : Z := 100.

(** The messages the client builds (lines 76-78 and 109-111). *)
Definition version_ok_msg : plist :=
  plist_add_sub_string_el
    (plist_add_sub_string_el plist_new_array "DLMessageVersionExchange") "DLVersionsOk".

Definition disconnect_msg : plist :=
  plist_add_sub_string_el
    (plist_add_sub_string_el plist_new_array "DLMessageDisconnect")
    "All done, thanks for the memories".

(** Lines 55-68: the two siblings after [DLMessageVersionExchange], read
    as the version when both are unsigned integers. *)
Definition read_version (array : option plist) : option (Z * Z) :=
  let msg_node := plist_find_node_by_string array "DLMessageVersionExchange" in
  let ver_1 := plist_get_next_sibling msg_node in
  let ver_2 := plist_get_next_sibling ver_1 in
  if plist_type_eqb PLIST_UINT (plist_get_node_type ver_1) &&
     plist_type_eqb PLIST_UINT (plist_get_node_type ver_2)
  then Some (plist_get_uint_val ver_1 0, plist_get_uint_val ver_2 0)
  else None.

(** The tree [array] points to after [mobilesync_recv(client, &array)]. *)
Definition received (slot : option (option plist_t)) : option plist :=
  option_map plist_tree (slot_handle slot).

Section Lifecycle.
Context {M : Type} `{Usbmux M} `{CRuntime M} `{PlistCodec}.

(** Lines 76-83 (and 109-114): build the message [p] in a new tree,
    send it, free the tree; the send's return code. *)
Definition send_new_plist (c : mobilesync_client) (p : plist) : st M iphone_error_t :=
  array <- st_plist_new p ;;
  ret <- mobilesync_send (Some c) (Some (plist_tree array)) ;;
  st_plist_free (Some array) ;;;
  st_ret ret.

(** [mobilesync_disconnect]: best effort, the send's result is dropped. *)
Definition mobilesync_disconnect (client : option mobilesync_client) : st M unit :=
  match client with
  | None => st_ret tt
  | Some c =>
      _ <- send_new_plist c disconnect_msg ;;
      st_ret tt
  end.

Definition mobilesync_free_client (client : option mobilesync_client) : st M iphone_error_t :=
  match client with
  | None => st_ret IPHONE_E_INVALID_ARG
  | Some c =>
      mobilesync_disconnect (Some c) ;;;
      st_lift (usbmuxd_disconnect (sfd c))
  end.

(** Lines 76-93: acknowledge the version (in a new tree, freed at line
    82) and wait for the device to be ready; the received tree is freed
    at line 92.  [ret] and the client slot after these lines. *)
Definition ack_and_wait_ready (fuel : nat) (client_loc : mobilesync_client)
    (ret : iphone_error_t) (client : option (option mobilesync_client))
    : st M (iphone_error_t * option (option mobilesync_client)) :=
  ret <- send_new_plist client_loc version_ok_msg ;;
  '(ret, array) <- mobilesync_recv fuel (Some client_loc) (Some None) ;;
  let rep_node := plist_find_node_by_string (received array) "DLMessageDeviceReady" in
  st_plist_free (slot_handle array) ;;;
  match rep_node with
  | Some _ => st_ret (IPHONE_E_SUCCESS, Some (Some client_loc))
  | None => st_ret (ret, client)
  end.

(** Lines 50-96: receive the version, check it, and on a match
    acknowledge and wait for the device.  [ret] and the client slot
    after these lines.  The received tree is freed (line 70) only when
    both siblings are unsigned integers.  The type test that line 73
    repeats is true inside the branch of line 62, so only the value test
    is kept there. *)
Definition exchange_versions (fuel : nat) (client_loc : mobilesync_client)
    (client : option (option mobilesync_client))
    : st M (iphone_error_t * option (option mobilesync_client)) :=
  '(ret, array) <- mobilesync_recv fuel (Some client_loc) (Some None) ;;
  match read_version (received array) with
  | Some (ver_1_val, ver_2_val) =>
      st_plist_free (slot_handle array) ;;;
      if (ver_1_val =? MSYNC_VERSION_INT1) && (ver_2_val =? MSYNC_VERSION_INT2)
      then ack_and_wait_ready fuel client_loc ret client
      else st_ret (ret, client)
  | None => st_ret (ret, client)
  end.

(** [mobilesync_new_client(device, dst_port, client)]: the slot [client]
    is [None] for a NULL pointer, [Some v] when it points to [v]. *)
Definition mobilesync_new_client (fuel : nat) (device : option iphone_device) (dst_port : Z)
    (client : option (option mobilesync_client))
    : st M (iphone_error_t * option (option mobilesync_client)) :=
  match device, client with
  | Some dev, Some None =>
      if dst_port =? 0 then st_ret (IPHONE_E_INVALID_ARG, client)
      else
        let ret := IPHONE_E_UNKNOWN_ERROR in
        sfd <- st_lift (usbmuxd_connect (handle dev) dst_port) ;;
        if sfd <? 0 then st_ret (ret, client)
        else
          _ <- st_malloc BlkClient ;;
          let client_loc := mk_client sfd in
          '(ret, client) <- exchange_versions fuel client_loc client ;;
          if negb (ret =? IPHONE_E_SUCCESS) then
            mobilesync_free_client (Some client_loc) ;;;
            st_ret (ret, client)
          else st_ret (ret, client)
  | _, _ => st_ret (IPHONE_E_INVALID_ARG, client)
  end.

End Lifecycle.

Section LifecycleFacts.
Context {M : Type} `{Usbmux M} `{CRuntime M} `{PlistCodec}.

(** C18: the guards of [mobilesync_new_client] (line 35): a NULL device,
    port 0, a NULL slot pointer or a slot that already holds a client is
    rejected with [IPHONE_E_INVALID_ARG], the slot untouched and no
    transport call made. *)
Theorem mobilesync_new_client_invalid_arg fuel device port client m :
  (device = None \/ port = 0 \/ client = None \/ exists c, client = Some (Some c)) ->
  mobilesync_new_client fuel device port client m = Done ((IPHONE_E_INVALID_ARG, client), m).
Proof.
  intros Hg. destruct device as [d|]; [|reflexivity].
  destruct client as [[c|]|]; try reflexivity.
  destruct Hg as [E|[E|[E|[c E]]]]; try discriminate. subst port. reflexivity.
Qed.
End LifecycleFacts.

(** ** The handshake on the scripted transport

    The theorems of this file run [mobilesync_new_client] and
    [mobilesync_free_client] (above) on [ScriptMux] with any
    codec, and read their effect on the device from the transport's trace
    and set of open sockets.  The lemmas first give the effect of each
    phase of the code (the version exchange, the acknowledgement, the
    cleanup); [new_client_shape] puts them together along the code's
    control flow, and the theorems about every run follow from it. *)

Import ScriptMux.

(** The frames of the two messages the client sends. *)
Section Frames.
Context `{PlistCodec}.
Definition ack_frame : list byte := build_query (plist_to_bin version_ok_msg).
Definition disconnect_frame : list byte := build_query (plist_to_bin disconnect_msg).
End Frames.

Lemma is_open_filter fd l :
  existsb (Z.eqb fd) (filter (fun x => negb (fd =? x)) l) = false.
Proof.
  induction l as [|x l IH]; [reflexivity|]. simpl.
  destruct (Z.eqb_spec fd x); simpl; [exact IH|].
  rewrite IH. apply Z.eqb_neq in n. rewrite n. reflexivity.
Qed.

Lemma existsb_filter_other fd x l :
  fd <> x -> existsb (Z.eqb fd) (filter (fun y => negb (x =? y)) l) = existsb (Z.eqb fd) l.
Proof.
  intros Hne. induction l as [|y l IH]; [reflexivity|]. simpl.
  destruct (Z.eqb_spec x y) as [<-|]; simpl; rewrite IH; [|reflexivity].
  apply Z.eqb_neq in Hne. rewrite Hne. reflexivity.
Qed.

Section Phases.
Context `{PlistCodec}.

(** Lines 76-83: the message is built in a new tree (the address
    [malloc] hands out next), sent, and the tree freed; the send's
    [content] block stays, on top of the heap. *)
Lemma send_new_plist_run c p m r m2 :
  mobilesync_send (Some c) (Some p) (snd (malloc BlkPlist m)) = Done (r, m2) ->
  exists a, send_new_plist c p m =
              Done (r, set_runtime m2 ((a, BlkContent) :: mx_heap m) (mx_next m2) (mx_log m2)).
Proof.
  intros Hs. unfold send_new_plist. rewrite (st_bind_Done _ _ _ _ _ (script_plist_new p m)).
  cbv beta. cbn [plist_tree]. rewrite (st_bind_Done _ _ _ _ _ Hs).
  destruct (mobilesync_send_runtime _ _ _ _ _ Hs) as ((a & Ha & Hh) & _).
  cbn [malloc snd mx_heap mx_next set_runtime] in Ha, Hh. rewrite Pos2Z.inj_succ in Ha.
  exists a. cbn [st_plist_free plist_addr].
  rewrite (st_bind_Done _ _ _ _ _
             (script_free_second m2 (a, BlkContent) (Z.pos (mx_next m)) BlkPlist (mx_heap m)
                Hh ltac:(lia) ltac:(cbn; lia))).
  reflexivity.
Qed.

(** A [send_new_plist] that completes is one [usbmuxd_send] of the
    message's frame, whose result it returns, and leaves one block. *)
Lemma send_new_plist_effect c p m r m' :
  send_new_plist c p m = Done (r, m') ->
  mx_trace m' = mx_trace m ++ [CallSend (sfd c) (build_query (plist_to_bin p)) r] /\
  mx_open m' = mx_open m /\ mx_connect m' = mx_connect m /\
  mx_rx m' = mx_rx m /\ mx_rx_sched m' = mx_rx_sched m /\
  exists a, mx_heap m' = (a, BlkContent) :: mx_heap m.
Proof.
  intros Hrun. pose proof Hrun as Hs. unfold send_new_plist in Hs.
  rewrite (st_bind_Done _ _ _ _ _ (script_plist_new p m)) in Hs.
  apply st_bind_inv in Hs as (r1 & m2 & Hs & _). cbn [plist_tree] in Hs.
  destruct (send_new_plist_run _ _ _ _ _ Hs) as [a Ha]. rewrite Ha in Hrun.
  injection Hrun as <- <-.
  apply mobilesync_send_effect in Hs as (Ht & Ho & Hc & Hrx & Hrs).
  cbn [malloc snd set_runtime mx_trace mx_open mx_connect mx_rx mx_rx_sched mx_heap] in *.
  eauto 7.
Qed.

(** The debug switch is kept, and the send's record is logged when it
    is on. *)
Lemma send_new_plist_runtime c p m r m' :
  send_new_plist c p m = Done (r, m') ->
  mx_debug m' = mx_debug m /\
  mx_log m' = mx_log m ++ (if mx_debug m then [log_text "mobilesync_send" p] else []).
Proof.
  intros Hrun. pose proof Hrun as Hs. unfold send_new_plist in Hs.
  rewrite (st_bind_Done _ _ _ _ _ (script_plist_new p m)) in Hs.
  apply st_bind_inv in Hs as (r1 & m2 & Hs & _). cbn [plist_tree] in Hs.
  destruct (send_new_plist_run _ _ _ _ _ Hs) as [a Ha]. rewrite Ha in Hrun.
  injection Hrun as _ <-. cbn [mx_debug mx_log set_runtime].
  destruct (mobilesync_send_runtime _ _ _ _ _ Hs) as (_ & Hl & Hd). exact (conj Hd Hl).
Qed.

Lemma send_new_plist_completes c p m :
  Z.of_nat (length (plist_to_bin p)) + 4 < u32_max ->
  exists r m', send_new_plist c p m = Done (r, m').
Proof.
  intros Hlen. destruct (mobilesync_send_completes c p (snd (malloc BlkPlist m)) Hlen) as (r & m2 & Hs).
  destruct (send_new_plist_run _ _ _ _ _ Hs) as [a Ha]. eauto.
Qed.

(** On a closed socket the send fails with [-EBADF]. *)
Lemma send_new_plist_closed c p m r m' :
  is_open (sfd c) m = false -> send_new_plist c p m = Done (r, m') -> r = - EBADF.
Proof.
  intros Hc Hrun. unfold send_new_plist in Hrun.
  rewrite (st_bind_Done _ _ _ _ _ (script_plist_new p m)) in Hrun.
  apply st_bind_inv in Hrun as (r1 & m2 & Hs & Hrun). cbn [plist_tree] in Hs.
  apply st_bind_inv in Hrun as ([] & m3 & _ & Hrun). injection Hrun as <- _.
  exact (mobilesync_send_closed c p (snd (malloc BlkPlist m)) _ _ Hc Hs).
Qed.

(** The cleanup: one disconnect frame (whatever its send returns), then
    the close, whose result is returned; the socket is closed after. *)
Lemma free_client_effect c m r m' :
  mobilesync_free_client (Some c) m = Done (r, m') ->
  (exists r1, mx_trace m' = mx_trace m ++ [CallSend (sfd c) disconnect_frame r1;
                                           CallDisconnect (sfd c) r]) /\
  is_open (sfd c) m' = false /\
  r = (if is_open (sfd c) m then IPHONE_E_SUCCESS else - EBADF) /\
  (forall fd, fd <> sfd c -> is_open fd m' = is_open fd m).
Proof.
  unfold mobilesync_free_client, mobilesync_disconnect, st_bind, st_ret, st_lift.
  destruct (send_new_plist c disconnect_msg m) as [[r1 m1]| |] eqn:Hs; try discriminate.
  apply send_new_plist_effect in Hs as (Ht & Ho & _).
  simpl usbmuxd_disconnect. unfold disconnect, log.
  assert (Hopen : forall fd, is_open fd m1 = is_open fd m) by (intros; unfold is_open; rewrite Ho; auto).
  rewrite Hopen. destruct (is_open (sfd c) m) eqn:Ec; simpl; intros Hrun; injection Hrun as <- <-.
  - repeat split.
    + exists r1. simpl. rewrite Ht, <- app_assoc. reflexivity.
    + apply is_open_filter.
    + intros fd Hfd. rewrite <- (Hopen fd). apply existsb_filter_other. congruence.
  - repeat split.
    + exists r1. simpl. rewrite Ht, <- app_assoc. reflexivity.
    + exact (eq_trans (Hopen _) Ec).
    + intros fd _. exact (Hopen fd).
Qed.

Definition recv_calls (fd : Z) (l : list mux_call) : Prop := forallb (is_recv_call fd) l = true.

(** A receive and the [plist_free] of its tree: reads only. *)
Lemma recv_free_reads_only fuel c m r a m1 u m2 :
  mobilesync_recv fuel (Some c) (Some None) m = Done ((r, a), m1) ->
  st_plist_free (slot_handle a) m1 = Done (u, m2) ->
  mx_open m2 = mx_open m /\ mx_connect m2 = mx_connect m /\
  exists l, mx_trace m2 = mx_trace m ++ l /\ recv_calls (sfd c) l.
Proof.
  intros Hr Hf. apply mobilesync_recv_reads_only in Hr as (Hc & _ & Ho & l & Ht & Hl).
  pose proof (transport_fields _ _ (keeps_plist_free _ _ _ _ Hf)) as (Ht2 & Ho2 & Hc2 & _).
  split; [congruence|]. split; [congruence|]. exists l. split; [congruence | exact Hl].
Qed.

(** Lines 76-93: one acknowledgement frame, then reads only; the client
    is handed out only with [IPHONE_E_SUCCESS]. *)
Lemma ack_and_wait_ready_effect fuel c ret slot m r s m' :
  ack_and_wait_ready fuel c ret slot m = Done ((r, s), m') ->
  (exists ra l, mx_trace m' = mx_trace m ++ CallSend (sfd c) ack_frame ra :: l /\ recv_calls (sfd c) l) /\
  mx_open m' = mx_open m /\ mx_connect m' = mx_connect m /\
  ((s = Some (Some c) /\ r = IPHONE_E_SUCCESS) \/ s = slot).
Proof.
  unfold ack_and_wait_ready. intros Hrun.
  apply st_bind_inv in Hrun as (ra & m1 & Hs & Hrun).
  apply send_new_plist_effect in Hs as (Ht & Ho & Hc & _).
  apply st_bind_inv in Hrun as ([r2 a] & m2 & Hr & Hrun). cbv beta iota zeta in Hrun.
  apply st_bind_inv in Hrun as ([] & m3 & Hf & Hrun).
  destruct (recv_free_reads_only _ _ _ _ _ _ _ _ Hr Hf) as (Ho3 & Hc3 & l & Ht3 & Hl).
  assert (Hcommon : mx_trace m3 = mx_trace m ++ CallSend (sfd c) ack_frame ra :: l /\
                    mx_open m3 = mx_open m /\ mx_connect m3 = mx_connect m).
  { rewrite Ht3, Ht, <- app_assoc. split; [reflexivity|]. split; congruence. }
  destruct Hcommon as (H1 & H2 & H3).
  destruct (plist_find_node_by_string _ _); injection Hrun as <- <- <-;
    (split; [exists ra, l; split; assumption | split; [assumption | split; [assumption | auto]]]).
Qed.

(** Lines 50-96: reads, then either nothing more or the acknowledgement
    and more reads. *)
Lemma exchange_versions_effect fuel c slot m r s m' :
  exchange_versions fuel c slot m = Done ((r, s), m') ->
  mx_open m' = mx_open m /\ mx_connect m' = mx_connect m /\
  exists l1 tail, mx_trace m' = mx_trace m ++ l1 ++ tail /\ recv_calls (sfd c) l1 /\
    ((tail = [] /\ s = slot) \/
     (exists ra l2, tail = CallSend (sfd c) ack_frame ra :: l2 /\ recv_calls (sfd c) l2 /\
                    ((s = Some (Some c) /\ r = IPHONE_E_SUCCESS) \/ s = slot))).
Proof.
  unfold exchange_versions. intros Hrun.
  apply st_bind_inv in Hrun as ([r1 a] & m1 & Hr & Hrun). cbv beta iota in Hrun.
  assert (Hskip : forall m0 r0 s0, mx_open m0 = mx_open m -> mx_connect m0 = mx_connect m ->
    (exists l, mx_trace m0 = mx_trace m ++ l /\ recv_calls (sfd c) l) ->
    Done (r0, s0, m0) = Done (r, s, m') -> s0 = slot ->
    mx_open m' = mx_open m /\ mx_connect m' = mx_connect m /\
    exists l1 tail, mx_trace m' = mx_trace m ++ l1 ++ tail /\ recv_calls (sfd c) l1 /\
      ((tail = [] /\ s = slot) \/
       (exists ra l2, tail = CallSend (sfd c) ack_frame ra :: l2 /\ recv_calls (sfd c) l2 /\
                      ((s = Some (Some c) /\ r = IPHONE_E_SUCCESS) \/ s = slot)))).
  { intros m0 r0 s0 Ho Hc [l [Ht Hl]] E ->. injection E as _ <- <-. split; [exact Ho|].
    split; [exact Hc|]. exists l, []. rewrite app_nil_r. auto. }
  destruct (read_version (received a)) as [[v1 v2]|].
  2: { pose proof (mobilesync_recv_reads_only _ _ _ _ _ Hr) as (Hc1 & _ & Ho1 & l1 & Ht1 & Hl1).
       exact (Hskip _ _ _ Ho1 Hc1 (ex_intro _ l1 (conj Ht1 Hl1)) Hrun eq_refl). }
  apply st_bind_inv in Hrun as ([] & m2 & Hf & Hrun).
  destruct (recv_free_reads_only _ _ _ _ _ _ _ _ Hr Hf) as (Ho2 & Hc2 & l1 & Ht1 & Hl1).
  destruct (_ && _); [|exact (Hskip _ _ _ Ho2 Hc2 (ex_intro _ l1 (conj Ht1 Hl1)) Hrun eq_refl)].
  apply ack_and_wait_ready_effect in Hrun as ([ra [l2 [Ht2 Hl2]]] & Ho3 & Hc3 & Hs).
  split; [congruence|]. split; [congruence|].
  exists l1, (CallSend (sfd c) ack_frame ra :: l2). rewrite Ht2, Ht1, <- app_assoc.
  split; [reflexivity|]. split; [exact Hl1|]. right. eauto.
Qed.
End Phases.

Definition is_disconnect_call (c : mux_call) : bool :=
  match c with
  | CallDisconnect _ _ => true
  | _ => false
  end.

Lemma recv_calls_no_disconnect fd l :
  recv_calls fd l -> forallb (fun c => negb (is_disconnect_call c)) l = true.
Proof.
  unfold recv_calls. induction l as [|[] l IH]; simpl; try discriminate; auto.
  intros H0. apply andb_prop in H0 as [_ H0]. auto.
Qed.

Section Runs.
Context `{PlistCodec}.

Lemma connect_state h p m :
  connect h p m = (mx_connect m, snd (connect h p m)) /\
  mx_trace (snd (connect h p m)) = mx_trace m ++ [CallConnect h p (mx_connect m)] /\
  mx_rx (snd (connect h p m)) = mx_rx m /\ mx_rx_sched (snd (connect h p m)) = mx_rx_sched m /\
  (forall fd, is_open fd (snd (connect h p m)) =
              (if 0 <=? mx_connect m then (fd =? mx_connect m) || is_open fd m else is_open fd m)).
Proof.
  repeat split. intros fd. unfold connect, is_open. simpl.
  destruct (0 <=? mx_connect m); reflexivity.
Qed.

(** The state after the connect and the [malloc] of the client
    (line 46): the transport as the connect left it. *)
Lemma client_state h p m :
  let mc := snd (malloc BlkClient (snd (connect h p m))) in
  mx_trace mc = mx_trace m ++ [CallConnect h p (mx_connect m)] /\
  mx_rx mc = mx_rx m /\ mx_rx_sched mc = mx_rx_sched m /\
  (forall fd, is_open fd mc =
              (if 0 <=? mx_connect m then (fd =? mx_connect m) || is_open fd m else is_open fd m)).
Proof. exact (proj2 (connect_state h p m)). Qed.

(** The control flow of [mobilesync_new_client] after the guards: a
    failed connect returns at once; otherwise the version exchange runs
    on the new socket and a [ret] other than [IPHONE_E_SUCCESS] frees
    the client. *)
Lemma new_client_shape fuel dev port m r s m' :
  port <> 0 ->
  mobilesync_new_client fuel (Some dev) port (Some None) m = Done ((r, s), m') ->
  let fd := mx_connect m in
  let mc := snd (connect (handle dev) port m) in
  (fd < 0 /\ r = IPHONE_E_UNKNOWN_ERROR /\ s = Some None /\ m' = mc) \/
  (0 <= fd /\ exists m2,
     exchange_versions fuel (mk_client fd) (Some None) (snd (malloc BlkClient mc)) =
       Done ((r, s), m2) /\
     ((r = IPHONE_E_SUCCESS /\ m' = m2) \/
      (r <> IPHONE_E_SUCCESS /\ exists rc, mobilesync_free_client (Some (mk_client fd)) m2 = Done (rc, m')))).
Proof.
  intros Hp Hrun. unfold mobilesync_new_client in Hrun.
  rewrite (proj2 (Z.eqb_neq port 0) Hp) in Hrun. unfold st_bind, st_lift, st_ret in Hrun.
  simpl usbmuxd_connect in Hrun. rewrite (proj1 (connect_state (handle dev) port m)) in Hrun.
  cbv zeta in *. destruct (Z.ltb_spec (mx_connect m) 0) as [Hn|Hn].
  - injection Hrun as <- <- <-. left. auto.
  - right. split; [exact Hn|].
    rewrite script_malloc in Hrun.
    destruct (exchange_versions fuel (mk_client (mx_connect m)) (Some None)
                (snd (malloc BlkClient (snd (connect (handle dev) port m)))))
      as [[[r0 s0] m2]| |] eqn:Ex;
      try discriminate.
    exists m2. destruct (Z.eqb_spec r0 IPHONE_E_SUCCESS) as [E|E]; cbn [negb] in Hrun.
    + injection Hrun as <- <- <-. split; [first [exact Ex | reflexivity]|]. left. auto.
    + destruct (mobilesync_free_client (Some (mk_client (mx_connect m))) m2)
        as [[rc m3]| |] eqn:Ef; try discriminate.
      injection Hrun as <- <- <-. split; [first [exact Ex | reflexivity]|]. right. split; [exact E|]. eauto.
Qed.
End Runs.

Section Steps.
Context `{PlistCodec}.

Lemma new_client_connected fuel dev port m :
  port <> 0 -> 0 <= mx_connect m ->
  mobilesync_new_client fuel (Some dev) port (Some None) m =
    st_bind (exchange_versions fuel (mk_client (mx_connect m)) (Some None))
      (fun x => let '(ret, client) := x in
                if negb (ret =? IPHONE_E_SUCCESS)
                then st_bind (mobilesync_free_client (Some (mk_client (mx_connect m))))
                       (fun _ => st_ret (ret, client))
                else st_ret (ret, client))
      (snd (malloc BlkClient (snd (connect (handle dev) port m)))).
Proof.
  intros Hp Hn. unfold mobilesync_new_client.
  rewrite (proj2 (Z.eqb_neq port 0) Hp). unfold st_bind at 1, st_lift.
  simpl usbmuxd_connect. rewrite (proj1 (connect_state (handle dev) port m)).
  rewrite (proj2 (Z.ltb_ge _ _) Hn). reflexivity.
Qed.

(** The version exchange when the first message does not carry version
    (100, 100): nothing is sent and [ret] is the receive's.  The tree
    received is freed (line 70) only when the version was read; when
    the two siblings are not both unsigned integers it is left on the
    heap. *)
Lemma exchange_versions_reject fuel c slot m r a m1 :
  mobilesync_recv fuel (Some c) (Some None) m = Done ((r, a), m1) ->
  read_version (received a) <> Some (MSYNC_VERSION_INT1, MSYNC_VERSION_INT2) ->
  exists m2, exchange_versions fuel c slot m = Done ((r, slot), m2) /\
    transport_of m2 = transport_of m1 /\
    mx_heap m2 = match read_version (received a) with Some _ => mx_heap m | None => mx_heap m1 end.
Proof.
  intros Hr Hv. unfold exchange_versions. rewrite (st_bind_Done _ _ _ _ _ Hr). cbv beta iota.
  destruct (read_version (received a)) as [[v1 v2]|]; [|exists m1; auto].
  destruct (recv_plist_free _ _ _ _ _ _ Hr) as (m2 & Hf & Ht & Hh & _).
  rewrite (st_bind_Done _ _ _ _ _ Hf). exists m2.
  destruct (Z.eqb_spec v1 MSYNC_VERSION_INT1), (Z.eqb_spec v2 MSYNC_VERSION_INT2);
    subst; simpl; try (split; [reflexivity | auto]). congruence.
Qed.

Lemma exchange_versions_accept fuel c slot m r a m1 :
  mobilesync_recv fuel (Some c) (Some None) m = Done ((r, a), m1) ->
  read_version (received a) = Some (MSYNC_VERSION_INT1, MSYNC_VERSION_INT2) ->
  exists m2, exchange_versions fuel c slot m = ack_and_wait_ready fuel c r slot m2 /\
    transport_of m2 = transport_of m1 /\ mx_heap m2 = mx_heap m /\ mx_debug m2 = mx_debug m /\
    mx_log m2 = mx_log m1.
Proof.
  intros Hr Hv. unfold exchange_versions. rewrite (st_bind_Done _ _ _ _ _ Hr). cbv beta iota.
  rewrite Hv. destruct (recv_plist_free _ _ _ _ _ _ Hr) as (m2 & Hf & Ht & Hh & Hd & Hl).
  cbv iota. rewrite (st_bind_Done _ _ _ _ _ Hf). exists m2.
  rewrite Hd. pose proof (mobilesync_recv_runtime _ _ _ _ _ Hr) as (_ & Hd1 & _). auto.
Qed.

Lemma connect_open h p m :
  0 <= mx_connect m -> is_open (mx_connect m) (snd (malloc BlkClient (snd (connect h p m)))) = true.
Proof.
  intros Hn. rewrite (proj2 (proj2 (proj2 (client_state h p m)))).
  rewrite (proj2 (Z.leb_le _ _) Hn), Z.eqb_refl. reflexivity.
Qed.
End Steps.

(** ** Heap accounting of the life cycle

    The client structure (line 46) is the only block that
    [mobilesync_new_client] allocates itself; the sends of the handshake
    and of [mobilesync_disconnect] each leave their [content] buffer. *)
Section Heap.
Context `{PlistCodec}.

Lemma send_new_plist_heap c p m r m' :
  send_new_plist c p m = Done (r, m') -> heap_delta 0 0 m m'.
Proof.
  intros Hrun. apply send_new_plist_effect in Hrun as (Ht & _ & _ & _ & _ & a & Hh).
  apply (heap_delta_added _ _ _ _ _ [(a, BlkContent)] Ht Hh).
  intros b. unfold delta_of. rewrite count_blk_cons. destruct b; reflexivity.
Qed.

(** A receive followed by the [plist_free] of what it received. *)
Lemma recv_free_heap fuel c m r a m1 u m2 :
  mobilesync_recv fuel (Some c) (Some None) m = Done ((r, a), m1) ->
  st_plist_free (slot_handle a) m1 = Done (u, m2) -> heap_delta 0 0 m m2.
Proof.
  intros Hr Hf. destruct (recv_plist_free _ _ _ _ _ _ Hr) as (m3 & Hf' & _ & Hh & _).
  rewrite Hf in Hf'. injection Hf' as _ <-.
  destruct (recv_free_reads_only _ _ _ _ _ _ _ _ Hr Hf) as (_ & _ & l & Ht & Hl).
  exact (heap_delta_quiet _ _ l Ht (recv_calls_no_send _ _ Hl) Hh).
Qed.

Lemma free_client_heap c m r m' :
  mobilesync_free_client (Some c) m = Done (r, m') -> heap_delta 0 0 m m'.
Proof.
  unfold mobilesync_free_client, mobilesync_disconnect. intros Hrun.
  apply st_bind_inv in Hrun as ([] & m1 & Hd & Hrun).
  apply st_bind_inv in Hd as (r1 & m2 & Hs & Hd). injection Hd as ->.
  unfold st_lift in Hrun. cbn [usbmuxd_disconnect script_usbmux] in Hrun.
  replace m' with (snd (disconnect (sfd c) m1))
    by (destruct (disconnect (sfd c) m1); injection Hrun as _ <-; reflexivity).
  eapply heap_delta_then_quiet;
    [exact (send_new_plist_heap _ _ _ _ _ Hs) | apply disconnect_heap_delta].
Qed.

(** Lines 76-93 free both trees they handle. *)
Lemma ack_heap fuel c ret slot m x m' :
  ack_and_wait_ready fuel c ret slot m = Done (x, m') -> heap_delta 0 0 m m'.
Proof.
  unfold ack_and_wait_ready. intros Hrun.
  apply st_bind_inv in Hrun as (ra & m1 & Hs & Hrun).
  apply st_bind_inv in Hrun as ([r2 a] & m2 & Hr & Hrun). cbv beta iota zeta in Hrun.
  apply st_bind_inv in Hrun as ([] & m3 & Hf & Hrun).
  assert (E : m' = m3) by (destruct (plist_find_node_by_string _ _); injection Hrun as _ <-; reflexivity).
  subst m'. eapply heap_delta_then_quiet;
    [exact (send_new_plist_heap _ _ _ _ _ Hs) | exact (recv_free_heap _ _ _ _ _ _ _ _ Hr Hf)].
Qed.

(** Lines 50-96: at most one tree is left, the version message when it
    was not read (line 62). *)
Lemma exchange_heap fuel c slot m r s m' :
  exchange_versions fuel c slot m = Done ((r, s), m') ->
  exists kp, (kp <= 1)%nat /\ (s <> slot -> kp = 0%nat) /\ heap_delta 0 kp m m'.
Proof.
  unfold exchange_versions. intros Hrun.
  apply st_bind_inv in Hrun as ([r1 a] & m1 & Hr & Hrun). cbv beta iota in Hrun.
  destruct (read_version (received a)) as [[v1 v2]|].
  2: { injection Hrun as _ <- <-. exists (length (owned (slot_handle a))).
       split; [destruct (slot_handle a); cbn; lia|].
       split; [congruence | exact (recv_heap_delta _ _ _ _ _ Hr)]. }
  apply st_bind_inv in Hrun as ([] & m2 & Hf & Hrun).
  pose proof (recv_free_heap _ _ _ _ _ _ _ _ Hr Hf) as H1. exists 0%nat. split; [lia|].
  split; [reflexivity|].
  destruct (_ && _); [exact (heap_delta_quiet_then _ _ _ _ _ H1 (ack_heap _ _ _ _ _ _ _ Hrun))|].
  injection Hrun as _ _ <-. exact H1.
Qed.

(** A run of [mobilesync_new_client] past its guards: one client block
    more when the connect succeeded, and at most one plist tree,
    whatever the handshake did. *)
Lemma new_client_heap fuel dev port m r s m' :
  port <> 0 -> mobilesync_new_client fuel (Some dev) port (Some None) m = Done ((r, s), m') ->
  exists kp, (kp <= 1)%nat /\ (s <> Some None -> kp = 0%nat) /\
    heap_delta (if 0 <=? mx_connect m then 1 else 0) kp m m'.
Proof.
  intros Hp Hrun.
  apply new_client_shape in Hrun as [(Hn & _ & _ & ->) | (Hn & m2 & Hex & Hend)]; [| |exact Hp].
  - rewrite (proj2 (Z.leb_gt _ _) Hn). exists 0%nat.
    split; [lia|]. split; [reflexivity | apply connect_heap_delta].
  - rewrite (proj2 (Z.leb_le _ _) Hn).
    destruct (exchange_heap _ _ _ _ _ _ _ Hex) as (kp & Hkp & Hs & H2). exists kp.
    split; [exact Hkp|]. split; [exact Hs|].
    apply (heap_delta_quiet_then _ _ _ _ _ (connect_heap_delta (handle dev) port m)).
    change 1%nat with (1 + 0)%nat. change kp with (0 + kp)%nat.
    eapply heap_delta_trans; [apply malloc_client_delta|]. change (0 + kp)%nat with kp.
    destruct Hend as [(_ & <-) | (_ & rc & Hf)]; [exact H2|].
    exact (heap_delta_then_quiet _ _ _ _ _ H2 (free_client_heap _ _ _ _ Hf)).
Qed.

End Heap.

Section Theorems.
Context `{PlistCodec}.

Lemma no_disconnect_app l1 l2 :
  forallb (fun c => negb (is_disconnect_call c)) l1 = true ->
  forallb (fun c => negb (is_disconnect_call c)) l2 = true ->
  forallb (fun c => negb (is_disconnect_call c)) (l1 ++ l2) = true.
Proof. intros H1 H2. rewrite forallb_app, H1, H2. reflexivity. Qed.

Lemma exchange_tail_no_disconnect c (l1 tail : list mux_call) r s slot :
  recv_calls (sfd c) l1 ->
  ((tail = [] /\ s = slot) \/
   (exists ra l2, tail = CallSend (sfd c) ack_frame ra :: l2 /\ recv_calls (sfd c) l2 /\
                  ((s = Some (Some c) /\ r = IPHONE_E_SUCCESS) \/ s = slot))) ->
  forallb (fun c => negb (is_disconnect_call c)) (l1 ++ tail) = true.
Proof.
  intros Hl1 Ht. apply no_disconnect_app; [eapply recv_calls_no_disconnect; exact Hl1|].
  destruct Ht as [[-> _] | (ra & l2 & -> & Hl2 & _)]; [reflexivity|].
  simpl. eapply recv_calls_no_disconnect. exact Hl2.
Qed.

Lemma new_client_port_zero fuel dev m x m' :
  mobilesync_new_client fuel (Some dev) 0 (Some None) m = Done (x, m') ->
  x = (IPHONE_E_INVALID_ARG, Some None) /\ m' = m.
Proof. simpl. intros Hrun. injection Hrun as <- <-. auto. Qed.

(** C2: the spec's invariant of a client handle: [mobilesync_new_client]
    hands out a client only with [IPHONE_E_SUCCESS], on the socket it
    connected, still open, after the full handshake: the trace of the run
    is the connect, reads, exactly one [DLVersionsOk] frame, then reads. *)
Theorem new_client_handshaken fuel dev port m r c m' :
  mobilesync_new_client fuel (Some dev) port (Some None) m = Done ((r, Some (Some c)), m') ->
  r = IPHONE_E_SUCCESS /\ sfd c = mx_connect m /\ is_open (sfd c) m' = true /\
  exists ra l1 l2,
    mx_trace m' = mx_trace m ++ CallConnect (handle dev) port (sfd c) :: l1 ++
                                CallSend (sfd c) ack_frame ra :: l2 /\
    recv_calls (sfd c) l1 /\ recv_calls (sfd c) l2.
Proof.
  intros Hrun. destruct (Z.eqb_spec port 0) as [->|Hp].
  { apply new_client_port_zero in Hrun as [E _]. discriminate. }
  apply new_client_shape in Hrun as [(_ & _ & E & _) | (Hn & m2 & Hex & Hend)]; [discriminate | |exact Hp].
  apply exchange_versions_effect in Hex as (Ho & _ & l1 & tail & Ht & Hl1 & Htail).
  destruct Htail as [[_ E] | (ra & l2 & -> & Hl2 & [[E ->] | E])]; try discriminate.
  injection E as ->. destruct Hend as [[_ <-] | [E _]]; [|contradiction].
  pose proof (client_state (handle dev) port m) as (Htc & _).
  split; [reflexivity|]. split; [reflexivity|]. split.
  - unfold is_open. rewrite Ho. apply connect_open. exact Hn.
  - exists ra, l1, l2. rewrite Ht, Htc, <- app_assoc. auto.
Qed.

(** C5: cleanup on every failing run: when [mobilesync_new_client]
    connected and then returns an error, it handed out no client, sent
    exactly one [DLMessageDisconnect] frame, closed the socket exactly
    once (the last call of the run), and the socket is closed. *)
Theorem new_client_error_cleanup fuel dev port m r s m' :
  0 <= mx_connect m ->
  mobilesync_new_client fuel (Some dev) port (Some None) m = Done ((r, s), m') ->
  r <> IPHONE_E_SUCCESS -> port <> 0 ->
  s = Some None /\ is_open (mx_connect m) m' = false /\
  exists l r1 rc,
    mx_trace m' = mx_trace m ++ CallConnect (handle dev) port (mx_connect m) :: l ++
                  [CallSend (mx_connect m) disconnect_frame r1; CallDisconnect (mx_connect m) rc] /\
    forallb (fun c => negb (is_disconnect_call c)) l = true.
Proof.
  intros Hn Hrun Hr Hp.
  apply new_client_shape in Hrun as [(Hn' & _) | (_ & m2 & Hex & Hend)]; [lia| |exact Hp].
  destruct Hend as [[E _] | [_ [rc Hfree]]]; [contradiction|].
  apply exchange_versions_effect in Hex as (Ho & _ & l1 & tail & Ht & Hl1 & Htail).
  apply free_client_effect in Hfree as ([r1 Htf] & Hclosed & Hrc & _).
  pose proof (client_state (handle dev) port m) as (Htc & _).
  split.
  - destruct Htail as [[_ E] | (ra & l2 & _ & _ & [[_ E] | E])]; [exact E | contradiction | exact E].
  - split; [exact Hclosed|]. exists (l1 ++ tail), r1, rc. split.
    + rewrite Htf, Ht, Htc. simpl. rewrite <- !app_assoc. reflexivity.
    + eapply exchange_tail_no_disconnect; eauto.
Qed.

(** C3: the return code does not say whether a client was made.  When
    [mobilesync_new_client] returns [IPHONE_E_SUCCESS] without setting
    the client (the version or device-ready check failed after a
    successful receive, lines 62 and 88, and [ret] was never changed),
    the socket it opened is left open and never closed: no disconnect
    was sent and nothing owns the connection. *)
Theorem new_client_success_without_client fuel dev port m m' :
  mobilesync_new_client fuel (Some dev) port (Some None) m =
    Done ((IPHONE_E_SUCCESS, Some None), m') ->
  0 <= mx_connect m /\ is_open (mx_connect m) m' = true /\
  exists l, mx_trace m' = mx_trace m ++ CallConnect (handle dev) port (mx_connect m) :: l /\
            forallb (fun c => negb (is_disconnect_call c)) l = true.
Proof.
  intros Hrun. destruct (Z.eqb_spec port 0) as [->|Hp].
  { apply new_client_port_zero in Hrun as [E _]. discriminate. }
  apply new_client_shape in Hrun as [(_ & E & _) | (Hn & m2 & Hex & Hend)]; [discriminate| |exact Hp].
  destruct Hend as [[_ <-] | [E _]]; [|congruence].
  apply exchange_versions_effect in Hex as (Ho & _ & l1 & tail & Ht & Hl1 & Htail).
  pose proof (client_state (handle dev) port m) as (Htc & _).
  split; [exact Hn|]. split.
  - unfold is_open. rewrite Ho. apply connect_open. exact Hn.
  - exists (l1 ++ tail). split.
    + rewrite Ht, Htc, <- app_assoc. reflexivity.
    + eapply exchange_tail_no_disconnect; eauto.
Qed.

(** The first frame of a fresh connection: read whole, into a new tree
    on top of the client block. *)
Lemma first_frame fuel dev port m payload rest :
  0 <= mx_connect m -> mx_rx_sched m = [] -> (1 <= fuel)%nat ->
  mx_rx m = build_query payload ++ rest -> Z.of_nat (length payload) < u32_max ->
  (mx_debug m = false \/ plist_from_bin payload <> None) ->
  exists m1 p, mobilesync_recv fuel (Some (mk_client (mx_connect m))) (Some None)
                 (snd (malloc BlkClient (snd (connect (handle dev) port m)))) =
               Done ((IPHONE_E_SUCCESS, Some p), m1) /\
             option_map plist_tree p = plist_from_bin payload /\
             mx_rx m1 = rest /\ mx_rx_sched m1 = [] /\
             reads_only (mx_connect m) (snd (malloc BlkClient (snd (connect (handle dev) port m)))) m1 /\
             mx_heap m1 = owned p ++ (Z.pos (mx_next m), BlkClient) :: mx_heap m.
Proof.
  intros Hn Hs Hf Hrx Hlen Hdb.
  pose proof (client_state (handle dev) port m) as (_ & Hrxc & Hsc & _).
  destruct (script_recv_frame fuel (mk_client (mx_connect m)) payload rest
              (snd (malloc BlkClient (snd (connect (handle dev) port m)))))
    as (m1 & p & Hr & Hp & Hrx1 & Hs1 & Hro & Hh).
  - apply connect_open. exact Hn.
  - rewrite Hrxc, Hrx, build_query_small, <- app_assoc by exact Hlen. reflexivity.
  - exact Hlen.
  - rewrite Hsc, Hs. reflexivity.
  - rewrite Hsc, Hs. reflexivity.
  - rewrite Hsc, Hs. simpl. lia.
  - exact Hdb.
  - exists m1, p. split; [exact Hr|]. split; [exact Hp|]. split; [exact Hrx1|].
    split; [apply Hs1; rewrite Hsc; exact Hs|]. split; [exact Hro|]. rewrite Hh. reflexivity.
Qed.

(** C4: a device whose first message does not carry version (100, 100)
    (another version, a message without [DLMessageVersionExchange], or
    one that does not decode) is answered with nothing: no
    [DLVersionsOk] frame and no disconnect is sent, and
    [mobilesync_new_client] returns [IPHONE_E_SUCCESS] without a client,
    the socket left open. *)
Theorem new_client_rejects_version fuel dev port m payload rest :
  port <> 0 -> 0 <= mx_connect m -> mx_rx_sched m = [] -> (1 <= fuel)%nat ->
  mx_rx m = build_query payload ++ rest -> Z.of_nat (length payload) < u32_max ->
  read_version (plist_from_bin payload) <> Some (MSYNC_VERSION_INT1, MSYNC_VERSION_INT2) ->
  (mx_debug m = false \/ plist_from_bin payload <> None) ->
  exists m', mobilesync_new_client fuel (Some dev) port (Some None) m =
               Done ((IPHONE_E_SUCCESS, Some None), m') /\
             is_open (mx_connect m) m' = true /\ mx_rx m' = rest /\
             exists l, mx_trace m' = mx_trace m ++ CallConnect (handle dev) port (mx_connect m) :: l /\
                       recv_calls (mx_connect m) l.
Proof.
  intros Hp Hn Hs Hf Hrx Hlen Hv Hdb.
  destruct (first_frame fuel dev port m payload rest) as (m1 & p & Hr & Hpt & Hrx1 & _ & Hro & _); auto.
  pose proof (client_state (handle dev) port m) as (Htc & _).
  assert (Hv' : read_version (received (Some p)) <> Some (MSYNC_VERSION_INT1, MSYNC_VERSION_INT2))
    by (unfold received, slot_handle; rewrite Hpt; exact Hv).
  destruct (exchange_versions_reject _ _ (Some None) _ _ _ _ Hr Hv') as (m2 & Hex & Ht2 & _).
  rewrite new_client_connected by assumption.
  rewrite (st_bind_Done _ _ _ _ _ Hex). simpl. exists m2. split; [reflexivity|].
  destruct (transport_fields _ _ Ht2) as (Ht3 & Ho3 & _ & Hrx3 & _).
  destruct Hro as (_ & _ & Ho & l & Ht & Hl). split; [|split; [congruence|]].
  - unfold is_open. rewrite Ho3, Ho. apply connect_open. exact Hn.
  - exists l. rewrite Ht3, Ht, Htc, <- app_assoc. auto.
Qed.

(** C29: the version message leaks when it was not read.  A device whose
    first message decodes to a tree in which [DLMessageVersionExchange]
    is not followed by two unsigned integers gets [IPHONE_E_SUCCESS]
    without a client, and the tree [plist_from_bin] allocated for that
    message is still on the heap, on top of the client structure: the
    [plist_free(array)] of line 70 is inside the branch taken only when
    both siblings are integers (line 62), and no other path frees it. *)
Theorem new_client_leaks_version_message fuel dev port m payload rest t :
  port <> 0 -> 0 <= mx_connect m -> mx_rx_sched m = [] -> (1 <= fuel)%nat ->
  mx_rx m = build_query payload ++ rest -> Z.of_nat (length payload) < u32_max ->
  plist_from_bin payload = Some t -> read_version (Some t) = None ->
  exists m' h, mobilesync_new_client fuel (Some dev) port (Some None) m =
                 Done ((IPHONE_E_SUCCESS, Some None), m') /\
               plist_tree h = t /\
               mx_heap m' = (plist_addr h, BlkPlist) :: (Z.pos (mx_next m), BlkClient) :: mx_heap m.
Proof.
  intros Hp Hn Hs Hf Hrx Hlen Ht Hv.
  destruct (first_frame fuel dev port m payload rest) as (m1 & p & Hr & Hpt & _ & _ & _ & Hh); auto.
  { right. rewrite Ht. discriminate. }
  rewrite Ht in Hpt. destruct p as [h|]; [|discriminate]. injection Hpt as Hpt.
  assert (Hv' : read_version (received (Some (Some h))) = None)
    by (unfold received, slot_handle; cbn [option_map]; rewrite Hpt; exact Hv).
  destruct (exchange_versions_reject _ _ (Some None) _ _ _ _ Hr) as (m2 & Hex & _ & Hh2);
    [rewrite Hv'; discriminate|].
  rewrite Hv' in Hh2. rewrite new_client_connected by assumption.
  rewrite (st_bind_Done _ _ _ _ _ Hex). simpl. exists m2, h.
  split; [reflexivity|]. split; [exact Hpt|]. rewrite Hh2, Hh. reflexivity.
Qed.

(** Lines 76-93 on a device whose next frame arrives whole: the client
    is handed out when the frame contains [DLMessageDeviceReady], and
    [ret] is the receive's [IPHONE_E_SUCCESS] either way; both trees
    (the [DLVersionsOk] message and the reply) are freed, and the ack's
    send leaves its [content] block. *)
Lemma ack_run fuel c ret slot m r_payload rest :
  is_open (sfd c) m = true -> mx_rx_sched m = [] -> (1 <= fuel)%nat ->
  mx_rx m = build_query r_payload ++ rest -> Z.of_nat (length r_payload) < u32_max ->
  Z.of_nat (length (plist_to_bin version_ok_msg)) + 4 < u32_max ->
  (mx_debug m = false \/ plist_from_bin r_payload <> None) ->
  exists m', ack_and_wait_ready fuel c ret slot m =
               Done (match plist_find_node_by_string (plist_from_bin r_payload) "DLMessageDeviceReady" with
                     | Some _ => (IPHONE_E_SUCCESS, Some (Some c))
                     | None => (IPHONE_E_SUCCESS, slot)
                     end, m') /\
    is_open (sfd c) m' = true /\ mx_rx m' = rest /\
    (exists a, mx_heap m' = (a, BlkContent) :: mx_heap m) /\
    exists p2, option_map plist_tree p2 = plist_from_bin r_payload /\
      mx_log m' = mx_log m ++ (if mx_debug m then [log_text "mobilesync_send" version_ok_msg] else []) ++
                  recv_log (mx_debug m) p2.
Proof.
  intros Ho Hs Hf Hrx Hlr Hack Hdb. unfold ack_and_wait_ready.
  destruct (send_new_plist_completes c version_ok_msg m Hack) as (ra & m3 & Hsend).
  pose proof (send_new_plist_effect _ _ _ _ _ Hsend) as (_ & Ho3 & _ & Hrx3 & Hs3 & a & Hh3).
  pose proof (send_new_plist_runtime _ _ _ _ _ Hsend) as [Hd3 Hl3].
  destruct (script_recv_frame fuel c r_payload rest m3)
    as (m4 & p2 & Hr4 & Hp2 & Hrx4 & _ & (_ & _ & Ho4 & _) & _).
  - unfold is_open. rewrite Ho3. exact Ho.
  - rewrite Hrx3, Hrx, build_query_small by exact Hlr. rewrite <- app_assoc. reflexivity.
  - exact Hlr.
  - rewrite Hs3, Hs. reflexivity.
  - rewrite Hs3, Hs. reflexivity.
  - rewrite Hs3, Hs. simpl. lia.
  - rewrite Hd3. exact Hdb.
  - destruct (recv_plist_free _ _ _ _ _ _ Hr4) as (m5 & Hf5 & Ht5 & Hh5 & _ & Hl5).
    destruct (mobilesync_recv_runtime _ _ _ _ _ Hr4) as (_ & _ & Hl4 & _).
    destruct (transport_fields _ _ Ht5) as (_ & Ho5 & _ & Hrx5 & _).
    rewrite (st_bind_Done _ _ _ _ _ Hsend). cbv beta.
    rewrite (st_bind_Done _ _ _ _ _ Hr4). cbv beta iota zeta.
    rewrite (st_bind_Done _ _ _ _ _ Hf5). unfold received, slot_handle. rewrite Hp2.
    exists m5. split; [destruct (plist_find_node_by_string _ _); reflexivity|].
    split; [unfold is_open; rewrite Ho5, Ho4, Ho3; exact Ho|].
    split; [congruence|]. split; [exists a; rewrite Hh5, Hh3; reflexivity|].
    exists p2. split; [exact Hp2|]. rewrite Hl5, Hl4, Hl3, Hd3, <- app_assoc. reflexivity.
Qed.

(** The handshake on a device at version (100, 100) whose two frames
    arrive whole, run to its end: the client is handed out when the
    second frame contains [DLMessageDeviceReady], [IPHONE_E_SUCCESS] is
    returned either way, and of what it allocated the heap keeps only
    the client structure and the [content] block of the ack's send. *)
Lemma new_client_ack_run fuel dev port m v_payload r_payload rest :
  port <> 0 -> 0 <= mx_connect m -> mx_rx_sched m = [] -> (1 <= fuel)%nat ->
  mx_rx m = build_query v_payload ++ build_query r_payload ++ rest ->
  Z.of_nat (length v_payload) < u32_max -> Z.of_nat (length r_payload) < u32_max ->
  Z.of_nat (length (plist_to_bin version_ok_msg)) + 4 < u32_max ->
  read_version (plist_from_bin v_payload) = Some (MSYNC_VERSION_INT1, MSYNC_VERSION_INT2) ->
  (mx_debug m = false \/ plist_from_bin r_payload <> None) ->
  exists m', mobilesync_new_client fuel (Some dev) port (Some None) m =
               Done (match plist_find_node_by_string (plist_from_bin r_payload) "DLMessageDeviceReady" with
                     | Some _ => (IPHONE_E_SUCCESS, Some (Some (mk_client (mx_connect m))))
                     | None => (IPHONE_E_SUCCESS, Some None)
                     end, m') /\
             is_open (mx_connect m) m' = true /\ mx_rx m' = rest /\
             (exists a, mx_heap m' = (a, BlkContent) :: (Z.pos (mx_next m), BlkClient) :: mx_heap m) /\
             exists p1 p2, option_map plist_tree p1 = plist_from_bin v_payload /\
               option_map plist_tree p2 = plist_from_bin r_payload /\
               mx_log m' = mx_log m ++ recv_log (mx_debug m) p1 ++
                           (if mx_debug m then [log_text "mobilesync_send" version_ok_msg] else []) ++
                           recv_log (mx_debug m) p2.
Proof.
  intros Hp Hn Hs Hf Hrx Hlv Hlr Hack Hv Hdb.
  destruct (first_frame fuel dev port m v_payload (build_query r_payload ++ rest))
    as (m1 & p1 & Hr & Hp1 & Hrx1 & Hs1 & (_ & _ & Ho1 & _) & _); auto.
  { right. intros E. rewrite E in Hv. discriminate. }
  assert (Hv' : read_version (received (Some p1)) = Some (MSYNC_VERSION_INT1, MSYNC_VERSION_INT2))
    by (unfold received, slot_handle; rewrite Hp1; exact Hv).
  destruct (exchange_versions_accept _ _ (Some None) _ _ _ _ Hr Hv') as (m2 & Hex & Ht2 & Hh2 & Hd2 & Hl2).
  destruct (mobilesync_recv_runtime _ _ _ _ _ Hr) as (_ & _ & Hl1 & _).
  destruct (transport_fields _ _ Ht2) as (_ & Ho2 & _ & Hrx2 & Hs2).
  destruct (ack_run fuel (mk_client (mx_connect m)) IPHONE_E_SUCCESS (Some None) m2 r_payload rest)
    as (m3 & Hack3 & Ho3 & Hrx3 & (a & Hh3) & (p2 & Hp2 & Hl3)).
  - unfold is_open. rewrite Ho2, Ho1. apply connect_open. exact Hn.
  - rewrite Hs2. exact Hs1.
  - exact Hf.
  - rewrite Hrx2. exact Hrx1.
  - exact Hlr.
  - exact Hack.
  - rewrite Hd2. exact Hdb.
  - rewrite new_client_connected by assumption.
    rewrite (st_bind_Done _ _ _ _ _ (eq_trans Hex Hack3)).
    exists m3. split; [destruct (plist_find_node_by_string _ _); reflexivity|].
    split; [exact Ho3|]. split; [exact Hrx3|]. split; [exists a; rewrite Hh3, Hh2; reflexivity|].
    exists p1, p2. split; [exact Hp1|]. split; [exact Hp2|].
    rewrite Hl3, Hl2, Hl1, Hd2, <- app_assoc. reflexivity.
Qed.

(** The successful handshake, run to its end. *)
Lemma new_client_success_run fuel dev port m v_payload r_payload rest :
  port <> 0 -> 0 <= mx_connect m -> mx_rx_sched m = [] -> (1 <= fuel)%nat ->
  mx_rx m = build_query v_payload ++ build_query r_payload ++ rest ->
  Z.of_nat (length v_payload) < u32_max -> Z.of_nat (length r_payload) < u32_max ->
  Z.of_nat (length (plist_to_bin version_ok_msg)) + 4 < u32_max ->
  read_version (plist_from_bin v_payload) = Some (MSYNC_VERSION_INT1, MSYNC_VERSION_INT2) ->
  plist_find_node_by_string (plist_from_bin r_payload) "DLMessageDeviceReady" <> None ->
  exists m', mobilesync_new_client fuel (Some dev) port (Some None) m =
               Done ((IPHONE_E_SUCCESS, Some (Some (mk_client (mx_connect m)))), m') /\
             is_open (mx_connect m) m' = true /\ mx_rx m' = rest /\
             (exists a, mx_heap m' = (a, BlkContent) :: (Z.pos (mx_next m), BlkClient) :: mx_heap m) /\
             exists p1 p2, option_map plist_tree p1 = plist_from_bin v_payload /\
               option_map plist_tree p2 = plist_from_bin r_payload /\
               mx_log m' = mx_log m ++ recv_log (mx_debug m) p1 ++
                           (if mx_debug m then [log_text "mobilesync_send" version_ok_msg] else []) ++
                           recv_log (mx_debug m) p2.
Proof.
  intros Hp Hn Hs Hf Hrx Hlv Hlr Hack Hv Hready.
  destruct (new_client_ack_run fuel dev port m v_payload r_payload rest Hp Hn Hs Hf Hrx Hlv Hlr Hack Hv)
    as (m' & Hrun & Hrest).
  { right. intros E. rewrite E in Hready. apply Hready. reflexivity. }
  destruct (plist_find_node_by_string _ _) as [nd|]; [eauto | contradiction].
Qed.

(** C1: the successful handshake: a device that sends version
    (100, 100) and then a message containing [DLMessageDeviceReady]
    (anywhere in it) gets a client on the connected socket, which stays
    open; this holds whatever becomes of the [DLVersionsOk] send, whose
    result the code overwrites (line 85). *)
Theorem new_client_success fuel dev port m v_payload r_payload rest :
  port <> 0 -> 0 <= mx_connect m -> mx_rx_sched m = [] -> (1 <= fuel)%nat ->
  mx_rx m = build_query v_payload ++ build_query r_payload ++ rest ->
  Z.of_nat (length v_payload) < u32_max -> Z.of_nat (length r_payload) < u32_max ->
  Z.of_nat (length (plist_to_bin version_ok_msg)) + 4 < u32_max ->
  read_version (plist_from_bin v_payload) = Some (MSYNC_VERSION_INT1, MSYNC_VERSION_INT2) ->
  plist_find_node_by_string (plist_from_bin r_payload) "DLMessageDeviceReady" <> None ->
  exists m', mobilesync_new_client fuel (Some dev) port (Some None) m =
               Done ((IPHONE_E_SUCCESS, Some (Some (mk_client (mx_connect m)))), m') /\
             is_open (mx_connect m) m' = true /\ mx_rx m' = rest.
Proof.
  intros Hp Hn Hs Hf Hrx Hlv Hlr Hack Hv Hready.
  destruct (new_client_success_run fuel dev port m v_payload r_payload rest Hp Hn Hs Hf Hrx Hlv Hlr
              Hack Hv Hready) as (m' & H1 & H2 & H3 & _).
  eauto.
Qed.

(** C30: the successful handshake frees every tree it handles: the
    version message (line 70), the [DLVersionsOk] message it builds
    (line 82) and the device's ready message (line 92).  Of what it
    allocated, the heap keeps only the client structure it hands out
    and the [content] buffer that the ack's [mobilesync_send] leaks. *)
Theorem new_client_success_heap fuel dev port m v_payload r_payload rest :
  port <> 0 -> 0 <= mx_connect m -> mx_rx_sched m = [] -> (1 <= fuel)%nat ->
  mx_rx m = build_query v_payload ++ build_query r_payload ++ rest ->
  Z.of_nat (length v_payload) < u32_max -> Z.of_nat (length r_payload) < u32_max ->
  Z.of_nat (length (plist_to_bin version_ok_msg)) + 4 < u32_max ->
  read_version (plist_from_bin v_payload) = Some (MSYNC_VERSION_INT1, MSYNC_VERSION_INT2) ->
  plist_find_node_by_string (plist_from_bin r_payload) "DLMessageDeviceReady" <> None ->
  exists m' a, mobilesync_new_client fuel (Some dev) port (Some None) m =
                 Done ((IPHONE_E_SUCCESS, Some (Some (mk_client (mx_connect m)))), m') /\
               mx_heap m' = (a, BlkContent) :: (Z.pos (mx_next m), BlkClient) :: mx_heap m.
Proof.
  intros Hp Hn Hs Hf Hrx Hlv Hlr Hack Hv Hready.
  destruct (new_client_success_run fuel dev port m v_payload r_payload rest Hp Hn Hs Hf Hrx Hlv Hlr
              Hack Hv Hready) as (m' & H1 & _ & _ & (a & H4) & _).
  eauto.
Qed.

(** C35: with debug output on, the successful handshake logs three
    records, in the order of the code: the version message it received
    (line 53), the [DLVersionsOk] message it sent (line 80) and the
    device's ready message (line 85), each as the text the format of
    lines 164 and 188 makes of the tree's XML. *)
Theorem new_client_success_logs fuel dev port m v_payload r_payload rest tv tr :
  port <> 0 -> 0 <= mx_connect m -> mx_rx_sched m = [] -> (1 <= fuel)%nat -> mx_debug m = true ->
  mx_rx m = build_query v_payload ++ build_query r_payload ++ rest ->
  Z.of_nat (length v_payload) < u32_max -> Z.of_nat (length r_payload) < u32_max ->
  Z.of_nat (length (plist_to_bin version_ok_msg)) + 4 < u32_max ->
  plist_from_bin v_payload = Some tv -> plist_from_bin r_payload = Some tr ->
  read_version (Some tv) = Some (MSYNC_VERSION_INT1, MSYNC_VERSION_INT2) ->
  plist_find_node_by_string (Some tr) "DLMessageDeviceReady" <> None ->
  exists m', mobilesync_new_client fuel (Some dev) port (Some None) m =
               Done ((IPHONE_E_SUCCESS, Some (Some (mk_client (mx_connect m)))), m') /\
             mx_log m' = mx_log m ++ [log_text "mobilesync_recv" tv;
                                      log_text "mobilesync_send" version_ok_msg;
                                      log_text "mobilesync_recv" tr].
Proof.
  intros Hp Hn Hs Hf Hd Hrx Hlv Hlr Hack Htv Htr Hv Hready.
  destruct (new_client_success_run fuel dev port m v_payload r_payload rest)
    as (m' & Hrun & _ & _ & _ & (p1 & p2 & Hp1 & Hp2 & Hl)); try rewrite Htv; try rewrite Htr; auto.
  rewrite Htv in Hp1. rewrite Htr in Hp2.
  destruct p1 as [h1|], p2 as [h2|]; try discriminate.
  injection Hp1 as Hp1. injection Hp2 as Hp2.
  exists m'. split; [exact Hrun|]. rewrite Hl, Hd. cbn. rewrite Hp1, Hp2. reflexivity.
Qed.

(** C32: a device at version (100, 100) whose second message lacks
    [DLMessageDeviceReady] gets [IPHONE_E_SUCCESS] without a client (the
    check of line 88 fails and [ret] keeps the receive's success), with
    the [DLVersionsOk] frame sent and the socket left open; both trees
    are freed, so the heap keeps only the client structure nobody owns
    and the ack's [content] block. *)
Theorem new_client_not_ready fuel dev port m v_payload r_payload rest :
  port <> 0 -> 0 <= mx_connect m -> mx_rx_sched m = [] -> (1 <= fuel)%nat ->
  mx_rx m = build_query v_payload ++ build_query r_payload ++ rest ->
  Z.of_nat (length v_payload) < u32_max -> Z.of_nat (length r_payload) < u32_max ->
  Z.of_nat (length (plist_to_bin version_ok_msg)) + 4 < u32_max ->
  read_version (plist_from_bin v_payload) = Some (MSYNC_VERSION_INT1, MSYNC_VERSION_INT2) ->
  plist_find_node_by_string (plist_from_bin r_payload) "DLMessageDeviceReady" = None ->
  (mx_debug m = false \/ plist_from_bin r_payload <> None) ->
  exists m' a, mobilesync_new_client fuel (Some dev) port (Some None) m =
                 Done ((IPHONE_E_SUCCESS, Some None), m') /\
               is_open (mx_connect m) m' = true /\ mx_rx m' = rest /\
               mx_heap m' = (a, BlkContent) :: (Z.pos (mx_next m), BlkClient) :: mx_heap m.
Proof.
  intros Hp Hn Hs Hf Hrx Hlv Hlr Hack Hv Hnr Hdb.
  destruct (new_client_ack_run fuel dev port m v_payload r_payload rest Hp Hn Hs Hf Hrx Hlv Hlr Hack Hv Hdb)
    as (m' & Hrun & Ho & Hrx' & (a & Hh) & _).
  rewrite Hnr in Hrun. eauto 6.
Qed.

(** Whether the first message carries version (100, 100). *)
Lemma version_ok_dec (v : option (Z * Z)) :
  v = Some (MSYNC_VERSION_INT1, MSYNC_VERSION_INT2) \/ v <> Some (MSYNC_VERSION_INT1, MSYNC_VERSION_INT2).
Proof.
  destruct v as [[v1 v2]|]; [|right; discriminate].
  destruct (Z.eq_dec v1 MSYNC_VERSION_INT1), (Z.eq_dec v2 MSYNC_VERSION_INT2); subst;
    [left; reflexivity | right; congruence ..].
Qed.

(** C31: the handshake terminates on a device that sends whole frames:
    with debug output off, when the device has sent a frame and, after
    it, the frame the handshake reads next if it acknowledges the
    version, each in one read, [mobilesync_new_client] returns with one
    unit of fuel per receive, whatever the frames hold and whatever the
    connect returns. *)
Theorem new_client_terminates fuel dev port m v_payload r_payload rest :
  port <> 0 -> mx_rx_sched m = [] -> (1 <= fuel)%nat -> mx_debug m = false ->
  mx_rx m = build_query v_payload ++ build_query r_payload ++ rest ->
  Z.of_nat (length v_payload) < u32_max -> Z.of_nat (length r_payload) < u32_max ->
  Z.of_nat (length (plist_to_bin version_ok_msg)) + 4 < u32_max ->
  exists res, mobilesync_new_client fuel (Some dev) port (Some None) m = Done res.
Proof.
  intros Hp Hs Hf Hd Hrx Hlv Hlr Hack.
  destruct (Z.ltb_spec (mx_connect m) 0) as [Hn|Hn].
  { eexists. unfold mobilesync_new_client. rewrite (proj2 (Z.eqb_neq port 0) Hp).
    unfold st_bind, st_lift. simpl usbmuxd_connect. unfold connect at 1. cbv zeta.
    rewrite (proj2 (Z.ltb_lt _ _) Hn). reflexivity. }
  destruct (version_ok_dec (read_version (plist_from_bin v_payload))) as [Hv|Hv].
  - destruct (new_client_ack_run fuel dev port m v_payload r_payload rest) as (m' & Hrun & _);
      auto; eauto.
  - destruct (first_frame fuel dev port m v_payload (build_query r_payload ++ rest))
      as (m1 & p1 & Hr & Hp1 & _); auto.
    assert (Hv' : read_version (received (Some p1)) <> Some (MSYNC_VERSION_INT1, MSYNC_VERSION_INT2))
      by (unfold received, slot_handle; rewrite Hp1; exact Hv).
    destruct (exchange_versions_reject _ _ (Some None) _ _ _ _ Hr Hv') as (m2 & Hex & _).
    rewrite new_client_connected by assumption.
    rewrite (st_bind_Done _ _ _ _ _ Hex). eexists. reflexivity.
Qed.

(** C17: a failed connect returns [IPHONE_E_UNKNOWN_ERROR] (the value
    [ret] was initialised with, line 43), hands out no client and makes
    no other call. *)
Theorem new_client_connect_failure fuel dev port m :
  port <> 0 -> mx_connect m < 0 ->
  exists m', mobilesync_new_client fuel (Some dev) port (Some None) m =
               Done ((IPHONE_E_UNKNOWN_ERROR, Some None), m') /\
             mx_trace m' = mx_trace m ++ [CallConnect (handle dev) port (mx_connect m)] /\
             mx_open m' = mx_open m.
Proof.
  intros Hp Hn. unfold mobilesync_new_client.
  rewrite (proj2 (Z.eqb_neq port 0) Hp). unfold st_bind, st_lift.
  simpl usbmuxd_connect. unfold connect at 1. cbv zeta.
  rewrite (proj2 (Z.ltb_lt _ _) Hn). eexists. split; [reflexivity|].
  simpl. rewrite (proj2 (Z.leb_gt _ _)) by lia. auto.
Qed.
(** C26: the client structure leaks on every failing handshake: when
    [mobilesync_new_client] connected and then returns an error, it hands
    out no client and closes the socket, but the block [malloc] returned
    at line 46 is still on the heap: [mobilesync_free_client] (lines
    118-125) closes the connection and never calls [free] on the client. *)
Theorem new_client_leaks_client fuel dev port m r s m' :
  0 <= mx_connect m -> port <> 0 ->
  mobilesync_new_client fuel (Some dev) port (Some None) m = Done ((r, s), m') ->
  r <> IPHONE_E_SUCCESS ->
  s = Some None /\ is_open (mx_connect m) m' = false /\
  count_blk BlkClient (mx_heap m') = S (count_blk BlkClient (mx_heap m)).
Proof.
  intros Hn Hp Hrun Hr.
  destruct (new_client_heap _ _ _ _ _ _ _ Hp Hrun) as (kp & _ & _ & l & _ & Hc).
  rewrite (proj2 (Z.leb_le _ _) Hn) in Hc. specialize (Hc BlkClient). cbn in Hc.
  apply new_client_shape in Hrun as [(Hn' & _) | (_ & m2 & Hex & Hend)]; [lia| |exact Hp].
  destruct Hend as [[E _] | [_ [rc Hfree]]]; [contradiction|].
  apply exchange_versions_effect in Hex as (_ & _ & l1 & tail & _ & _ & Htail).
  apply free_client_effect in Hfree as (_ & Hclosed & _).
  split; [|split; [exact Hclosed | lia]].
  destruct Htail as [[_ E] | (ra & l2 & _ & _ & [[_ E] | E])]; [exact E | contradiction | exact E].
Qed.

End Theorems.

Section Release.
Context `{PlistCodec}.

(** C16: [mobilesync_free_client]: a NULL client is rejected with
    [IPHONE_E_INVALID_ARG] and no transport call; a client gets exactly
    one [DLMessageDisconnect] frame, then the close, whatever the send
    returned; the close's result is returned and the socket is closed. *)
Theorem mobilesync_free_client_spec c m :
  Z.of_nat (length (plist_to_bin disconnect_msg)) + 4 < u32_max ->
  mobilesync_free_client None m = Done (IPHONE_E_INVALID_ARG, m) /\
  exists r m', mobilesync_free_client (Some c) m = Done (r, m') /\
    (exists r1, mx_trace m' = mx_trace m ++ [CallSend (sfd c) disconnect_frame r1;
                                             CallDisconnect (sfd c) r]) /\
    r = (if is_open (sfd c) m then IPHONE_E_SUCCESS else - EBADF) /\
    is_open (sfd c) m' = false.
Proof.
  intros Hlen. split; [reflexivity|].
  destruct (send_new_plist_completes c disconnect_msg m Hlen) as (r1 & m1 & Hs).
  assert (Hdone : exists r m', mobilesync_free_client (Some c) m = Done (r, m')).
  { unfold mobilesync_free_client, mobilesync_disconnect.
    rewrite st_bind_assoc, (st_bind_Done _ _ _ _ _ Hs). unfold st_bind, st_ret, st_lift.
    simpl usbmuxd_disconnect. destruct (disconnect (sfd c) m1) as [rc m2]. eauto. }
  destruct Hdone as (r & m' & Hrun). exists r, m'. split; [exact Hrun|].
  apply free_client_effect in Hrun as (Ht & Hclosed & Hr & _).
  split; [exact Ht|]. split; assumption.
Qed.

End Release.

(** ** Witnesses with the TLV codec *)

Module HandshakeWitnesses.
Import TLV.

Definition dev : iphone_device := mk_device 1.
Definition port : Z := 0x1234.
Definition version_msg (v1 v2 : Z) : plist :=
  PArray [PString "DLMessageVersionExchange"; PUint v1; PUint v2].
Definition ready_msg : plist := PArray [PString "DLMessageDeviceReady"].
Definition device_stream (v1 v2 : Z) : list byte :=
  build_query (tlv_enc (version_msg v1 v2)) ++ build_query (tlv_enc ready_msg).

(** A device at version (100, 100); the [DLVersionsOk] send fails. *)
Definition good_device : mux := script 7 (device_stream 100 100) [] [TxFail (-32)] [] false.
(** A device at version (99, 100). *)
Definition old_device : mux := script 7 (device_stream 99 100) [] [] [] false.
(** The first read fails. *)
Definition broken_device : mux := script 7 (device_stream 100 100) [RxFail (-5)] [] [] false.
(** The connection is refused. *)
Definition no_device : mux := script (-1) [] [] [] [] false.

Lemma new_client_handshaken_witness :
  exists r c m', mobilesync_new_client 3 (Some dev) port (Some None) good_device =
                   Done ((r, Some (Some c)), m') /\
    (r = IPHONE_E_SUCCESS /\ sfd c = mx_connect good_device /\ is_open (sfd c) m' = true /\
     exists ra l1 l2,
       mx_trace m' = mx_trace good_device ++ CallConnect (handle dev) port (sfd c) :: l1 ++
                                            CallSend (sfd c) ack_frame ra :: l2 /\
       recv_calls (sfd c) l1 /\ recv_calls (sfd c) l2).
Proof.
  do 3 eexists. split; [vm_compute; reflexivity|].
  eapply (new_client_handshaken 3 dev port good_device). vm_compute. reflexivity.
Defined.

Lemma new_client_error_cleanup_witness :
  exists r s m', mobilesync_new_client 3 (Some dev) port (Some None) broken_device =
                   Done ((r, s), m') /\
    (s = Some None /\ is_open (mx_connect broken_device) m' = false /\
     exists l r1 rc,
       mx_trace m' = mx_trace broken_device ++
                     CallConnect (handle dev) port (mx_connect broken_device) :: l ++
                     [CallSend (mx_connect broken_device) disconnect_frame r1;
                      CallDisconnect (mx_connect broken_device) rc] /\
       forallb (fun c => negb (is_disconnect_call c)) l = true).
Proof.
  do 3 eexists. split; [vm_compute; reflexivity|].
  eapply (new_client_error_cleanup 3 dev port broken_device); [vm_compute; discriminate | vm_compute; reflexivity
                                   | vm_compute; discriminate | vm_compute; discriminate].
Defined.

Lemma new_client_success_without_client_witness :
  exists m', mobilesync_new_client 3 (Some dev) port (Some None) old_device =
               Done ((IPHONE_E_SUCCESS, Some None), m') /\
    (0 <= mx_connect old_device /\ is_open (mx_connect old_device) m' = true /\
     exists l, mx_trace m' = mx_trace old_device ++
                             CallConnect (handle dev) port (mx_connect old_device) :: l /\
               forallb (fun c => negb (is_disconnect_call c)) l = true).
Proof.
  eexists. split; [vm_compute; reflexivity|].
  eapply (new_client_success_without_client 3 dev port old_device). vm_compute. reflexivity.
Defined.

Lemma new_client_rejects_version_witness :
  exists m', mobilesync_new_client 3 (Some dev) port (Some None) old_device =
               Done ((IPHONE_E_SUCCESS, Some None), m') /\
    is_open (mx_connect old_device) m' = true /\ mx_rx m' = build_query (tlv_enc ready_msg) /\
    exists l, mx_trace m' = mx_trace old_device ++
                            CallConnect (handle dev) port (mx_connect old_device) :: l /\
              recv_calls (mx_connect old_device) l.
Proof.
  apply (new_client_rejects_version 3 dev port old_device (tlv_enc (version_msg 99 100)));
    try (vm_compute; reflexivity); try (vm_compute; discriminate); try (left; reflexivity); lia.
Defined.

Lemma new_client_success_witness :
  exists m', mobilesync_new_client 3 (Some dev) port (Some None) good_device =
               Done ((IPHONE_E_SUCCESS, Some (Some (mk_client (mx_connect good_device)))), m') /\
    is_open (mx_connect good_device) m' = true /\ mx_rx m' = [].
Proof.
  apply (new_client_success 3 dev port good_device (tlv_enc (version_msg 100 100)) (tlv_enc ready_msg));
    try (vm_compute; reflexivity); try (vm_compute; discriminate); lia.
Defined.

Lemma new_client_success_heap_witness :
  exists m' a, mobilesync_new_client 3 (Some dev) port (Some None) good_device =
                 Done ((IPHONE_E_SUCCESS, Some (Some (mk_client (mx_connect good_device)))), m') /\
               mx_heap m' = (a, BlkContent) :: (Z.pos (mx_next good_device), BlkClient) ::
                              mx_heap good_device.
Proof.
  apply (new_client_success_heap 3 dev port good_device (tlv_enc (version_msg 100 100)) (tlv_enc ready_msg) []);
    try (vm_compute; reflexivity); try (vm_compute; discriminate); lia.
Defined.

Definition silent_device : mux :=
  script 7 (build_query (tlv_enc (version_msg 100 100)) ++ build_query (tlv_enc (PArray []))) [] [] [] false.

Lemma new_client_not_ready_witness :
  exists m' a, mobilesync_new_client 3 (Some dev) port (Some None) silent_device =
                 Done ((IPHONE_E_SUCCESS, Some None), m') /\
               is_open (mx_connect silent_device) m' = true /\ mx_rx m' = [] /\
               mx_heap m' = (a, BlkContent) :: (Z.pos (mx_next silent_device), BlkClient) ::
                              mx_heap silent_device.
Proof.
  apply (new_client_not_ready 3 dev port silent_device (tlv_enc (version_msg 100 100))
           (tlv_enc (PArray [])) []);
    try (vm_compute; reflexivity); try (vm_compute; discriminate); try (left; reflexivity); lia.
Defined.

(** The device at version (100, 100) with debug output on. *)
Definition good_device_debug : mux := script 7 (device_stream 100 100) [] [TxFail (-32)] [] true.

Lemma new_client_success_logs_witness :
  exists m', mobilesync_new_client 3 (Some dev) port (Some None) good_device_debug =
               Done ((IPHONE_E_SUCCESS, Some (Some (mk_client (mx_connect good_device_debug)))), m') /\
             mx_log m' = mx_log good_device_debug ++ [log_text "mobilesync_recv" (version_msg 100 100);
                                                     log_text "mobilesync_send" version_ok_msg;
                                                     log_text "mobilesync_recv" ready_msg].
Proof.
  apply (new_client_success_logs 3 dev port good_device_debug (tlv_enc (version_msg 100 100))
           (tlv_enc ready_msg) []);
    try (vm_compute; reflexivity); try (vm_compute; discriminate); lia.
Defined.

Lemma new_client_terminates_witness :
  exists res, mobilesync_new_client 3 (Some dev) port (Some None) old_device = Done res.
Proof.
  apply (new_client_terminates 3 dev port old_device (tlv_enc (version_msg 99 100)) (tlv_enc ready_msg) []);
    try (vm_compute; reflexivity); try (vm_compute; discriminate); lia.
Defined.

Lemma new_client_connect_failure_witness :
  exists m', mobilesync_new_client 3 (Some dev) port (Some None) no_device =
               Done ((IPHONE_E_UNKNOWN_ERROR, Some None), m') /\
    mx_trace m' = mx_trace no_device ++ [CallConnect (handle dev) port (mx_connect no_device)] /\
    mx_open m' = mx_open no_device.
Proof.
  apply new_client_connect_failure; [vm_compute; discriminate | vm_compute; reflexivity].
Defined.

Lemma mobilesync_new_client_invalid_arg_witness :
  mobilesync_new_client 3 (Some dev) 0 (Some None) good_device =
    Done ((IPHONE_E_INVALID_ARG, Some None), good_device).
Proof. apply mobilesync_new_client_invalid_arg. right. left. reflexivity. Defined.

Lemma mobilesync_free_client_spec_witness :
  mobilesync_free_client None good_device = Done (IPHONE_E_INVALID_ARG, good_device) /\
  exists r m', mobilesync_free_client (Some (mk_client 7)) good_device = Done (r, m') /\
    (exists r1, mx_trace m' = mx_trace good_device ++ [CallSend 7 disconnect_frame r1;
                                                       CallDisconnect 7 r]) /\
    r = (if is_open 7 good_device then IPHONE_E_SUCCESS else - EBADF) /\
    is_open 7 m' = false.
Proof. apply (mobilesync_free_client_spec (mk_client 7)). vm_compute. reflexivity. Defined.

Lemma new_client_leaks_client_witness :
  exists r s m', mobilesync_new_client 3 (Some dev) port (Some None) broken_device =
                   Done ((r, s), m') /\
    (s = Some None /\ is_open (mx_connect broken_device) m' = false /\
     count_blk BlkClient (mx_heap m') = S (count_blk BlkClient (mx_heap broken_device))).
Proof.
  do 3 eexists. split; [vm_compute; reflexivity|].
  eapply (new_client_leaks_client 3 dev port broken_device);
    [vm_compute; discriminate | vm_compute; discriminate | vm_compute; reflexivity
    | vm_compute; discriminate].
Defined.

(** A device that sends its version as strings: the message decodes,
    but the version is not read. *)
Definition legacy_msg : plist :=
  PArray [PString "DLMessageVersionExchange"; PString "100"; PString "100"].
Definition legacy_device : mux :=
  script 7 (build_query (tlv_enc legacy_msg) ++ build_query (tlv_enc ready_msg)) [] [] [] false.

Lemma new_client_leaks_version_message_witness :
  exists m' h, mobilesync_new_client 3 (Some dev) port (Some None) legacy_device =
                 Done ((IPHONE_E_SUCCESS, Some None), m') /\
               plist_tree h = legacy_msg /\
               mx_heap m' = (plist_addr h, BlkPlist) ::
                              (Z.pos (mx_next legacy_device), BlkClient) :: mx_heap legacy_device.
Proof.
  apply (new_client_leaks_version_message 3 dev port legacy_device (tlv_enc legacy_msg)
           (build_query (tlv_enc ready_msg)) legacy_msg);
    try (vm_compute; reflexivity); try (vm_compute; discriminate); lia.
Defined.

End HandshakeWitnesses.
