(* ===== verification/Protocol.v ===== *)
(** * The client's protocol as a state machine

    The spec (section 4.2) describes the handshake as a linear state
    machine: Connecting, AwaitingVersion, SendingAck, AwaitingReady, then
    Ready or Failed, Failed closing the session.  [step] is that machine
    over what the device and the transport see of the client: each
    transport call ([Call]) and the value [mobilesync_new_client] finally
    returns ([Return]).  It also covers the session after the handshake:
    in [Ready] the caller's [mobilesync_send]/[mobilesync_recv] traffic,
    then the release ([DLMessageDisconnect], then the close), after which
    every call on the socket fails with [-EBADF].

    The machine has one phase the spec's has not: [Abandoned], where the
    code returns [IPHONE_E_SUCCESS] without a client and leaves the socket
    open (a failed version or device-ready check, lines 62, 73 and 88).

    [new_client_sim] proves that every run of [mobilesync_new_client] on
    the scripted transport is a run of the machine, from [Connecting] to a
    final phase, with its trace and its result; [closed_for_good] is an
    executable monitor of the traces, and [step_closed_for_good] shows by
    induction on the runs that every run of the machine satisfies it. *)

From Stdlib Require Import ZArith List Bool Lia.
From S2P Require Import Prelude Endian Plist Codec Runtime Usbmux Channel Handshake.
Import ListNotations.
Import ScriptMux.
Local Open Scope Z_scope.

Inductive phase : Type :=
| Connecting
| ConnectFailed
| AwaitingVersion (fd : Z)
| AwaitingReady (fd : Z)
| Closing (fd : Z)
| Closed (fd : Z)
| Ready (fd : Z)
| Abandoned (fd : Z)
| Failed.

Inductive event : Type :=
| Call (c : mux_call)
| Return (ret : iphone_error_t) (client : option mobilesync_client).

(** The calls a closed socket still sees: all fail with [-EBADF]. *)
Definition dead_call (fd : Z) (c : mux_call) : Prop :=
  match c with
  | CallRecv fd' _ r d => fd' = fd /\ r = - EBADF /\ d = []
  | CallSend fd' _ r => fd' = fd /\ r = - EBADF
  | CallDisconnect fd' r => fd' = fd /\ r = - EBADF
  | CallConnect _ _ _ => False
  end.

Section Machine.
Context `{PlistCodec}.

Inductive step : phase -> event -> phase -> Prop :=
| step_connect h p fd :
    0 <= fd -> step Connecting (Call (CallConnect h p fd)) (AwaitingVersion fd)
| step_connect_fail h p r :
    r < 0 -> step Connecting (Call (CallConnect h p r)) ConnectFailed
| step_read_version fd len r d :
    step (AwaitingVersion fd) (Call (CallRecv fd len r d)) (AwaitingVersion fd)
| step_ack fd r :
    step (AwaitingVersion fd) (Call (CallSend fd ack_frame r)) (AwaitingReady fd)
| step_read_ready fd len r d :
    step (AwaitingReady fd) (Call (CallRecv fd len r d)) (AwaitingReady fd)
| step_bye_version fd r :
    step (AwaitingVersion fd) (Call (CallSend fd disconnect_frame r)) (Closing fd)
| step_bye_ready fd r :
    step (AwaitingReady fd) (Call (CallSend fd disconnect_frame r)) (Closing fd)
| step_close fd r :
    step (Closing fd) (Call (CallDisconnect fd r)) (Closed fd)
| step_ready fd :
    step (AwaitingReady fd) (Return IPHONE_E_SUCCESS (Some (mk_client fd))) (Ready fd)
| step_abandon_version fd :
    step (AwaitingVersion fd) (Return IPHONE_E_SUCCESS None) (Abandoned fd)
| step_abandon_ready fd :
    step (AwaitingReady fd) (Return IPHONE_E_SUCCESS None) (Abandoned fd)
| step_fail fd r :
    r <> IPHONE_E_SUCCESS -> step (Closed fd) (Return r None) Failed
| step_connect_error :
    step ConnectFailed (Return IPHONE_E_UNKNOWN_ERROR None) Failed
| step_user_send fd d r :
    step (Ready fd) (Call (CallSend fd d r)) (Ready fd)
| step_user_recv fd len r d :
    step (Ready fd) (Call (CallRecv fd len r d)) (Ready fd)
| step_release fd r :
    step (Ready fd) (Call (CallSend fd disconnect_frame r)) (Closing fd)
| step_dead fd c :
    dead_call fd c -> step (Closed fd) (Call c) (Closed fd).

End Machine.

(** The phases in which [mobilesync_new_client] has returned. *)
Definition returned (ph : phase) : bool :=
  match ph with
  | Ready _ | Abandoned _ | Failed => true
  | _ => false
  end.

(** ** A monitor of the traces: once the socket is closed, every later
    transport call fails with [-EBADF]. *)
Definition call_fails (c : mux_call) : bool :=
  match c with
  | CallRecv _ _ r _ | CallSend _ _ r | CallDisconnect _ r => r =? - EBADF
  | CallConnect _ _ _ => false
  end.

Fixpoint closed_for_good (closed : bool) (t : list event) : bool :=
  match t with
  | [] => true
  | Return _ _ :: t' => closed_for_good closed t'
  | Call c :: t' =>
      (negb closed || call_fails c) && closed_for_good (closed || is_disconnect_call c) t'
  end.

(** What the monitor knows in each phase: the socket has been closed. *)
Definition phase_closed (ph : phase) : bool :=
  match ph with
  | Closed _ => true
  | _ => false
  end.

(** ** The monitor holds on every run of the machine *)

Section Invariant.
Context `{PlistCodec}.

Lemma dead_call_fails fd c : dead_call fd c -> call_fails c = true.
Proof.
  destruct c; simpl; [tauto | intros (_ & -> & _) | intros (_ & ->) | intros (_ & ->)];
    apply Z.eqb_refl.
Qed.

Lemma step_closed_for_good ph t ph' b :
  lstar step ph t ph' -> (ph <> Failed -> b = phase_closed ph) -> closed_for_good b t = true.
Proof.
  intros Hrun. revert b.
  induction Hrun as [ph|ph e ph1 t ph2 Hs Hrun IH]; intros b Hb; [reflexivity|].
  inversion Hs; subst; specialize (Hb ltac:(discriminate)); subst b; simpl;
    try (apply IH; intros Hf; first [reflexivity | contradiction (Hf eq_refl)]).
  match goal with Hd : dead_call _ _ |- _ => rewrite (dead_call_fails _ _ Hd) end.
  apply IH. intros _. reflexivity.
Qed.

End Invariant.

(** ** The handshake refines the machine *)

Section Handshake.
Context `{PlistCodec}.

(** Reads on [fd] in a phase that loops on them. *)
Lemma reads_lstar fd ph l :
  (forall len r d, step ph (Call (CallRecv fd len r d)) ph) ->
  recv_calls fd l -> lstar step ph (map Call l) ph.
Proof.
  intros Hloop. unfold recv_calls. induction l as [|[] l IH]; simpl; try discriminate;
    [constructor|].
  intros Hl. apply andb_prop in Hl as [Hfd Hl]. apply Z.eqb_eq in Hfd. subst.
  econstructor; [apply Hloop | exact (IH Hl)].
Qed.

(** The phases in which the handshake may stop, and the cleanup from
    them: the disconnect frame, then the close. *)
Definition hs_open (fd : Z) (ph : phase) : Prop := ph = AwaitingVersion fd \/ ph = AwaitingReady fd.

Lemma cleanup_lstar fd ph r1 rc :
  hs_open fd ph ->
  lstar step ph (map Call [CallSend fd disconnect_frame r1; CallDisconnect fd rc]) (Closed fd).
Proof.
  intros [-> | ->]; simpl; econstructor; constructor || (econstructor; constructor; constructor).
Qed.

Lemma abandon_step fd ph : hs_open fd ph -> step ph (Return IPHONE_E_SUCCESS None) (Abandoned fd).
Proof. intros [-> | ->]; constructor. Qed.

(** Lines 50-96 as a run of the machine from [AwaitingVersion]: the
    reads of the version, then possibly the acknowledgement and the reads
    of the device-ready message. *)
Lemma exchange_versions_sim fuel c m r s m' :
  exchange_versions fuel c (Some None) m = Done ((r, s), m') ->
  exists l ph, mx_trace m' = mx_trace m ++ l /\
    lstar step (AwaitingVersion (sfd c)) (map Call l) ph /\ hs_open (sfd c) ph /\
    mx_open m' = mx_open m /\ mx_connect m' = mx_connect m /\
    (s = Some None \/ (ph = AwaitingReady (sfd c) /\ s = Some (Some c) /\ r = IPHONE_E_SUCCESS)).
Proof.
  intros Hrun. apply exchange_versions_effect in Hrun as (Ho & Hc & l1 & tail & Ht & Hl1 & Htail).
  assert (Hr1 : lstar step (AwaitingVersion (sfd c)) (map Call l1) (AwaitingVersion (sfd c)))
    by (apply (reads_lstar (sfd c)); [constructor | exact Hl1]).
  destruct Htail as [[-> ->] | (ra & l2 & -> & Hl2 & Hs)].
  - exists l1, (AwaitingVersion (sfd c)). rewrite app_nil_r in Ht.
    repeat split; auto. left. reflexivity.
  - exists (l1 ++ CallSend (sfd c) ack_frame ra :: l2), (AwaitingReady (sfd c)).
    split; [exact Ht|]. split.
    + rewrite map_app. eapply lstar_trans; [exact Hr1|]. simpl.
      econstructor; [constructor | apply (reads_lstar (sfd c)); [constructor | exact Hl2]].
    + split; [right; reflexivity|]. split; [exact Ho|]. split; [exact Hc|].
      destruct Hs as [Hs | ->]; [right; tauto | left; reflexivity].
Qed.

(** What the returned client says of the final phase: a client is handed
    out only in [Ready], on a socket still open. *)
Definition client_sim (ph : phase) (client : option mobilesync_client) (m : mux) : Prop :=
  match client with
  | Some c => ph = Ready (sfd c) /\ is_open (sfd c) m = true
  | None => returned ph = true
  end.

(** Every run of [mobilesync_new_client] past its guards is a run of the
    machine from [Connecting]: its transport calls, then its result. *)
Lemma new_client_sim fuel dev port m r slot m' :
  port <> 0 ->
  mobilesync_new_client fuel (Some dev) port (Some None) m = Done ((r, slot), m') ->
  exists l client ph, slot = Some client /\ mx_trace m' = mx_trace m ++ l /\
    lstar step Connecting (map Call l ++ [Return r client]) ph /\ client_sim ph client m'.
Proof.
  intros Hp Hrun.
  pose proof (connect_state (handle dev) port m) as (_ & Htc0 & _).
  pose proof (client_state (handle dev) port m) as (Htc & _).
  apply new_client_shape in Hrun as [(Hn & -> & -> & ->) | (Hn & m2 & Hex & Hend)]; [| |exact Hp].
  { exists [CallConnect (handle dev) port (mx_connect m)], None, Failed.
    split; [reflexivity|]. split; [exact Htc0|]. split; [|reflexivity].
    econstructor; [constructor; lia | apply lstar_one; constructor]. }
  apply exchange_versions_sim in Hex as (l & ph & Ht & Hl & Hop & Ho & _ & Hs). cbn [sfd] in *.
  assert (Hpre : lstar step Connecting (map Call (CallConnect (handle dev) port (mx_connect m) :: l)) ph)
    by (econstructor; [constructor; exact Hn | exact Hl]).
  assert (Htr : mx_trace m2 = mx_trace m ++ CallConnect (handle dev) port (mx_connect m) :: l)
    by (rewrite Ht, Htc, <- app_assoc; reflexivity).
  destruct Hend as [(-> & ->) | (Hr & rc & Hfree)].
  - destruct Hs as [-> | (-> & -> & _)].
    + exists (CallConnect (handle dev) port (mx_connect m) :: l), None, (Abandoned (mx_connect m)).
      repeat split; [exact Htr|].
      eapply lstar_trans; [exact Hpre | apply lstar_one, abandon_step, Hop].
    + exists (CallConnect (handle dev) port (mx_connect m) :: l), (Some (mk_client (mx_connect m))),
        (Ready (mx_connect m)).
      repeat split; [exact Htr | | unfold is_open; rewrite Ho; apply connect_open, Hn].
      eapply lstar_trans; [exact Hpre | apply lstar_one; constructor].
  - destruct Hs as [-> | (_ & _ & E)]; [|contradiction].
    apply free_client_effect in Hfree as ([r1 Htf] & _). cbn [sfd] in Htf.
    exists (CallConnect (handle dev) port (mx_connect m) ::
              l ++ [CallSend (mx_connect m) disconnect_frame r1; CallDisconnect (mx_connect m) rc]),
      None, Failed.
    split; [reflexivity|]. split; [rewrite Htf, Htr, <- app_assoc; reflexivity|]. split; [|reflexivity].
    rewrite app_comm_cons, map_app, <- app_assoc.
    eapply lstar_trans; [exact Hpre|]. eapply lstar_trans; [apply cleanup_lstar, Hop|].
    apply lstar_one. constructor. exact Hr.
Qed.

(** C21: the handshake refines the protocol machine: every run of
    [mobilesync_new_client] past its guards, on any scripted device, is a
    run of [step] from [Connecting] through the run's own transport calls
    and then its result, ending in a phase where the call has returned
    ([Ready] with the client, [Abandoned] or [Failed] without one). *)
Theorem new_client_refines fuel dev port m r slot m' :
  port <> 0 ->
  mobilesync_new_client fuel (Some dev) port (Some None) m = Done ((r, slot), m') ->
  exists l client ph, slot = Some client /\ mx_trace m' = mx_trace m ++ l /\
    lstar step Connecting (map Call l ++ [Return r client]) ph /\ returned ph = true.
Proof.
  intros Hp Hrun. destruct (new_client_sim _ _ _ _ _ _ _ Hp Hrun) as (l & client & ph & Hs & Ht & Hl & Hc).
  exists l, client, ph. split; [exact Hs|]. split; [exact Ht|]. split; [exact Hl|].
  destruct client as [c|]; [destruct Hc as [-> _]; reflexivity | exact Hc].
Qed.

End Handshake.

Module ProtocolWitnesses.
Import TLV HandshakeWitnesses.

(** The device that completes the handshake. *)
Lemma new_client_refines_witness :
  exists r slot m', mobilesync_new_client 3 (Some dev) port (Some None) good_device =
                      Done ((r, slot), m') /\
    exists l client ph, slot = Some client /\ mx_trace m' = mx_trace good_device ++ l /\
      lstar step Connecting (map Call l ++ [Return r client]) ph /\ returned ph = true.
Proof.
  do 3 eexists. split; [vm_compute; reflexivity|].
  eapply (new_client_refines 3 dev port good_device); [vm_compute; discriminate | vm_compute; reflexivity].
Defined.

End ProtocolWitnesses.
