(* ===== verification/Session.v ===== *)
(** * A session: the handshake, the caller's traffic and the release

    A program that uses the library calls [mobilesync_new_client] and,
    when it gets a client, any sequence of [mobilesync_send],
    [mobilesync_recv] and [mobilesync_free_client] on it (spec, section
    2: "later the caller sends/receives application messages directly
    through Framed Channel + Codec; caller (or error path) frees the
    client").  [session] runs such a program, given as the list of its
    calls, on any transport.  On the scripted transport, [session_sim]
    shows that every run of it is a run of the protocol machine of file
    [Protocol], so that what the machine guarantees holds of every
    program: [session_socket_released] states that the socket is left
    open exactly when the program never freed the client.  [run_api_log]
    reads the debug log of a program off the bytes the device sent: one
    record per call, a receive's record being of the tree it decoded from
    the header and payload it consumed.  The program frees each tree it
    receives, as a caller of [mobilesync_recv] must.  [session_heap]
    accounts for the heap a session leaves: one client block that
    nothing frees, one [content] block per send, and at most the version
    message the handshake did not free. *)

From Stdlib Require Import ZArith String List Bool Lia.
From S2P Require Import Prelude Endian Plist Codec Runtime Usbmux Channel Handshake Protocol.
Import ListNotations.
Local Open Scope Z_scope.
Local Open Scope msync_scope.

(** The calls a program makes on a client. *)
Inductive api_call : Type :=
| ApiSend (p : plist)
| ApiRecv
| ApiFree.

Section Program.
Context {M : Type} `{Usbmux M} `{CRuntime M} `{PlistCodec}.

Definition api_step (fuel : nat) (c : mobilesync_client) (a : api_call) : st M unit :=
  match a with
  | ApiSend p => mobilesync_send (Some c) (Some p) ;;; st_ret tt
  | ApiRecv =>
      '(_, slot) <- mobilesync_recv fuel (Some c) (Some None) ;;
      st_plist_free (slot_handle slot)
  | ApiFree => mobilesync_free_client (Some c) ;;; st_ret tt
  end.

Fixpoint run_api (fuel : nat) (c : mobilesync_client) (ops : list api_call) : st M unit :=
  match ops with
  | [] => st_ret tt
  | a :: ops' => api_step fuel c a ;;; run_api fuel c ops'
  end.

Definition session (fuel : nat) (dev : iphone_device) (port : Z) (ops : list api_call)
    : st M (iphone_error_t * option (option mobilesync_client)) :=
  '(r, slot) <- mobilesync_new_client fuel (Some dev) port (Some None) ;;
  match slot with
  | Some (Some c) => run_api fuel c ops ;;; st_ret (r, slot)
  | _ => st_ret (r, slot)
  end.

End Program.

Import ScriptMux.

Section Simulation.
Context `{PlistCodec}.

(** The phase of a live session and the state of its socket. *)
Definition sess_match (fd : Z) (ph : phase) (m : mux) : Prop :=
  (ph = Ready fd /\ is_open fd m = true) \/ (ph = Closed fd /\ is_open fd m = false).

Definition is_free (a : api_call) : bool :=
  match a with
  | ApiFree => true
  | _ => false
  end.

(** The phase after a call: the release closes the session for good. *)
Definition after (fd : Z) (a : api_call) (ph : phase) : phase :=
  if is_free a then Closed fd else ph.

Lemma is_open_same fd m m' : mx_open m' = mx_open m -> is_open fd m' = is_open fd m.
Proof. intros Ho. unfold is_open. rewrite Ho. reflexivity. Qed.

Lemma free_client_closed c m r m' :
  is_open (sfd c) m = false -> mobilesync_free_client (Some c) m = Done (r, m') ->
  r = - EBADF /\
  mx_trace m' = mx_trace m ++ [CallSend (sfd c) disconnect_frame (- EBADF);
                               CallDisconnect (sfd c) (- EBADF)] /\
  mx_open m' = mx_open m.
Proof.
  intros Hc. unfold mobilesync_free_client, mobilesync_disconnect, st_bind, st_ret, st_lift.
  destruct (send_new_plist c disconnect_msg m) as [[r1 m1]| |] eqn:Hs; try discriminate.
  pose proof (send_new_plist_closed _ _ _ _ _ Hc Hs) as ->.
  apply send_new_plist_effect in Hs as (Ht & Ho & _).
  simpl usbmuxd_disconnect. unfold disconnect, log.
  rewrite (is_open_same _ _ _ Ho), Hc. intros Hrun. injection Hrun as <- <-.
  simpl. rewrite Ht, <- app_assoc. auto.
Qed.

Lemma sess_match_same fd ph m m' :
  mx_open m' = mx_open m -> sess_match fd ph m -> sess_match fd ph m'.
Proof. intros Ho. unfold sess_match. rewrite (is_open_same _ _ _ Ho). auto. Qed.

(** One call of the program is a run of the machine from [Ready] (live
    traffic, or the release) or from [Closed] (calls that all fail). *)
Lemma api_step_sim fuel c a ph m m' :
  sess_match (sfd c) ph m -> api_step fuel c a m = Done (tt, m') ->
  exists l, mx_trace m' = mx_trace m ++ l /\ lstar step ph (map Call l) (after (sfd c) a ph) /\
    sess_match (sfd c) (after (sfd c) a ph) m'.
Proof.
  intros Hm. unfold after. destruct a as [p| |]; cbn [api_step is_free]; unfold st_bind, st_ret.
  - destruct (mobilesync_send (Some c) (Some p) m) as [[r m1]| |] eqn:Hs; try discriminate.
    intros Hrun. injection Hrun as ->.
    pose proof (mobilesync_send_effect _ _ _ _ _ Hs) as (Ht & Ho & _).
    exists [CallSend (sfd c) (build_query (plist_to_bin p)) r].
    split; [exact Ht|]. split; [|exact (sess_match_same _ _ _ _ Ho Hm)].
    destruct Hm as [(-> & _) | (-> & Hc)]; apply lstar_one; constructor.
    simpl. rewrite (mobilesync_send_closed _ _ _ _ _ Hc Hs). auto.
  - destruct (mobilesync_recv fuel (Some c) (Some None) m) as [[[r0 a] m1]| |] eqn:Hr;
      try discriminate.
    cbv beta iota. intros Hrun.
    destruct (transport_fields _ _ (keeps_plist_free _ _ _ _ Hrun)) as (Htf & Hof & _).
    pose proof Hm as Hm0. destruct Hm as [(-> & _) | (-> & Hc)].
    + apply mobilesync_recv_reads_only in Hr as (_ & _ & Ho & l & Ht & Hl).
      exists l. split; [congruence|].
      split; [|apply (sess_match_same _ _ m); [congruence | exact Hm0]].
      apply (reads_lstar (sfd c)); [constructor | exact Hl].
    + apply mobilesync_recv_closed in Hr as (_ & Ht & Ho); [|exact Hc].
      exists [CallRecv (sfd c) 4 (- EBADF) []]. split; [congruence|].
      split; [|apply (sess_match_same _ _ m); [congruence | exact Hm0]].
      apply lstar_one. constructor. simpl. auto.
  - destruct (mobilesync_free_client (Some c) m) as [[r m1]| |] eqn:Hf; try discriminate.
    intros Hrun. injection Hrun as ->. pose proof Hm as Hm0.
    destruct Hm as [(-> & Hc) | (-> & Hc)].
    + apply free_client_effect in Hf as ([r1 Ht] & Hcl & _).
      exists [CallSend (sfd c) disconnect_frame r1; CallDisconnect (sfd c) r].
      split; [exact Ht|]. split; [|right; auto].
      econstructor; [apply step_release | apply lstar_one; constructor].
    + apply free_client_closed in Hf as (-> & Ht & Ho); [|exact Hc].
      exists [CallSend (sfd c) disconnect_frame (- EBADF); CallDisconnect (sfd c) (- EBADF)].
      split; [exact Ht|]. split; [|exact (sess_match_same _ _ _ _ Ho Hm0)].
      econstructor; [constructor; simpl; auto | apply lstar_one; constructor; simpl; auto].
Qed.

(** A program's calls from a session phase: the session is [Closed]
    once the program has freed the client, and stays as it was before. *)
Lemma run_api_sim fuel c ops ph m m' :
  sess_match (sfd c) ph m -> run_api fuel c ops m = Done (tt, m') ->
  exists l, mx_trace m' = mx_trace m ++ l /\
    lstar step ph (map Call l) (if existsb is_free ops then Closed (sfd c) else ph) /\
    sess_match (sfd c) (if existsb is_free ops then Closed (sfd c) else ph) m'.
Proof.
  revert ph m. induction ops as [|a ops IH]; intros ph m Hm; cbn [run_api existsb];
    unfold st_bind, st_ret.
  - intros Hrun. injection Hrun as ->. exists []. rewrite app_nil_r.
    split; [reflexivity | split; [constructor | exact Hm]].
  - destruct (api_step fuel c a m) as [[[] m1]| |] eqn:Ha; try discriminate. intros Hrun.
    destruct (api_step_sim _ _ _ _ _ _ Hm Ha) as (l1 & Ht1 & Hl1 & Hm1).
    destruct (IH _ _ Hm1 Hrun) as (l2 & Ht2 & Hl2 & Hm2).
    exists (l1 ++ l2). rewrite Ht2, Ht1, <- app_assoc, map_app.
    replace (if is_free a || existsb is_free ops then Closed (sfd c) else ph)
      with (if existsb is_free ops then Closed (sfd c) else after (sfd c) a ph)
      by (unfold after; destruct (is_free a), (existsb is_free ops); reflexivity).
    split; [reflexivity|]. split; [eapply lstar_trans; eassumption | exact Hm2].
Qed.

(** A whole session is a run of the machine: the handshake and its
    result, then the program's calls when it got a client. *)
Lemma session_sim fuel dev port ops m r slot m' :
  port <> 0 -> session fuel dev port ops m = Done ((r, slot), m') ->
  exists l1 l2 client ph, slot = Some client /\ mx_trace m' = mx_trace m ++ l1 ++ l2 /\
    lstar step Connecting (map Call l1 ++ Return r client :: map Call l2) ph /\
    match client with
    | Some c => ph = (if existsb is_free ops then Closed (sfd c) else Ready (sfd c)) /\
                sess_match (sfd c) ph m'
    | None => l2 = [] /\ returned ph = true
    end.
Proof.
  intros Hp. unfold session, st_bind.
  destruct (mobilesync_new_client fuel (Some dev) port (Some None) m) as [[[r0 s0] m1]| |] eqn:Hn;
    try discriminate.
  destruct (new_client_sim _ _ _ _ _ _ _ Hp Hn) as (l1 & client & ph1 & -> & Ht1 & Hl1 & Hsim).
  destruct client as [c|]; cbv beta iota; unfold st_ret.
  - destruct Hsim as [-> Hc].
    destruct (run_api fuel c ops m1) as [[[] m2]| |] eqn:Hr; try discriminate.
    intros Hrun. injection Hrun as <- <- <-.
    destruct (run_api_sim fuel c ops (Ready (sfd c)) m1 m2 (or_introl (conj eq_refl Hc)) Hr)
      as (l2 & Ht2 & Hl2 & Hm2).
    exists l1, l2, (Some c), (if existsb is_free ops then Closed (sfd c) else Ready (sfd c)).
    split; [reflexivity|]. split; [rewrite Ht2, Ht1, <- app_assoc; reflexivity|].
    split; [|split; [reflexivity | exact Hm2]].
    replace (map Call l1 ++ Return r0 (Some c) :: map Call l2)
      with ((map Call l1 ++ [Return r0 (Some c)]) ++ map Call l2) by (rewrite <- app_assoc; reflexivity).
    eapply lstar_trans; eassumption.
  - intros Hrun. injection Hrun as <- <- <-. exists l1, [], None, ph1.
    rewrite app_nil_r. auto.
Qed.

End Simulation.

Section Guarantees.
Context `{PlistCodec}.

(** C22: a session that got a client ends with the socket open exactly
    when the program never called [mobilesync_free_client]: no call but
    the release closes it, and the release always does. *)
Theorem session_socket_released fuel dev port ops m r c m' :
  port <> 0 -> session fuel dev port ops m = Done ((r, Some (Some c)), m') ->
  is_open (sfd c) m' = negb (existsb is_free ops).
Proof.
  intros Hp Hrun.
  destruct (session_sim _ _ _ _ _ _ _ _ Hp Hrun) as (l1 & l2 & client & ph & Hs & _ & _ & Hend).
  injection Hs as Hs. subst client. destruct Hend as [-> [(E & Ho) | (E & Ho)]];
    destruct (existsb is_free ops); simpl; congruence.
Qed.

(** Every call of the program: no block but the sends' [content]; the
    caller frees each tree it receives. *)
Lemma api_step_heap fuel c a m m' : api_step fuel c a m = Done (tt, m') -> heap_delta 0 0 m m'.
Proof.
  destruct a as [p| |]; cbn [api_step]; intros Hrun;
    apply st_bind_inv in Hrun as (x & m1 & H1 & Hrun).
  - injection Hrun as <-. exact (send_heap_delta _ _ _ _ _ H1).
  - destruct x as [r a]. cbv beta iota in Hrun. exact (recv_free_heap _ _ _ _ _ _ _ _ H1 Hrun).
  - injection Hrun as <-. exact (free_client_heap _ _ _ _ H1).
Qed.

Lemma run_api_heap fuel c ops m m' : run_api fuel c ops m = Done (tt, m') -> heap_delta 0 0 m m'.
Proof.
  revert m. induction ops as [|a ops IH]; intros m Hrun; cbn [run_api] in Hrun.
  - injection Hrun as <-. apply heap_delta_refl.
  - apply st_bind_inv in Hrun as ([] & m1 & H1 & Hrun).
    exact (heap_delta_quiet_then _ _ _ _ _ (api_step_heap _ _ _ _ _ H1) (IH _ Hrun)).
Qed.





(** C27: the heap after a whole session that connected, whatever the
    program did with the client (freeing it included): exactly one client
    block more, which nothing frees; one [content] block more for each
    send the session made (the handshake's [DLVersionsOk], the program's
    messages and the [DLMessageDisconnect] of the release); at most one
    plist tree more, and none when the session got a client (the tree is
    the version message of C29); and no other block, so no receive
    buffer, XML text or frame is leaked. *)
Theorem session_heap fuel dev port ops m r slot m' :
  port <> 0 -> 0 <= mx_connect m -> session fuel dev port ops m = Done ((r, slot), m') ->
  exists l, mx_trace m' = mx_trace m ++ l /\
    count_blk BlkClient (mx_heap m') = S (count_blk BlkClient (mx_heap m)) /\
    count_blk BlkContent (mx_heap m') = (count_blk BlkContent (mx_heap m) + count_sends l)%nat /\
    (count_blk BlkPlist (mx_heap m') <= S (count_blk BlkPlist (mx_heap m)))%nat /\
    (slot <> Some None -> count_blk BlkPlist (mx_heap m') = count_blk BlkPlist (mx_heap m)) /\
    (forall b, b <> BlkClient -> b <> BlkContent -> b <> BlkPlist ->
               count_blk b (mx_heap m') = count_blk b (mx_heap m)).
Proof.
  intros Hp Hn Hrun. unfold session in Hrun.
  apply st_bind_inv in Hrun as ([r1 s1] & m1 & Hnew & Hrun).
  destruct (new_client_heap _ _ _ _ _ _ _ Hp Hnew) as (kp & Hkp & Hs & H1).
  rewrite (proj2 (Z.leb_le _ _) Hn) in H1.
  assert (H2 : heap_delta 0 0 m1 m' /\ slot = s1).
  { destruct s1 as [[c|]|]; cbv beta iota in Hrun;
      try (injection Hrun as _ <- <-; split; [apply heap_delta_refl | reflexivity]).
    apply st_bind_inv in Hrun as ([] & m2 & Hr & Hrun). injection Hrun as _ <- <-.
    split; [exact (run_api_heap _ _ _ _ _ Hr) | reflexivity]. }
  destruct H2 as [H2 <-].
  destruct (heap_delta_then_quiet _ _ _ _ _ H1 H2) as (l & Ht & Hc). exists l.
  split; [exact Ht|].
  split; [|split; [|split; [|split; [intros Hsl; rewrite (Hs Hsl) in Hc | intros b Hb1 Hb2 Hb3]]]];
    [specialize (Hc BlkClient) | specialize (Hc BlkContent) | specialize (Hc BlkPlist)
    | specialize (Hc BlkPlist) | specialize (Hc b)]; rewrite Hc; unfold delta_of;
    repeat destruct (block_eq_dec _ _); try congruence; lia.
Qed.

End Guarantees.

Module SessionWitnesses.
Import TLV HandshakeWitnesses.

(** A program that sends, reads, frees the client and sends again. *)
Definition program : list api_call := [ApiSend ready_msg; ApiRecv; ApiFree; ApiSend ready_msg].

Lemma session_socket_released_witness :
  exists r c m', session 3 dev port program good_device = Done ((r, Some (Some c)), m') /\
    is_open (sfd c) m' = negb (existsb is_free program).
Proof.
  do 3 eexists. split; [vm_compute; reflexivity|].
  eapply (session_socket_released 3 dev port program good_device);
    [vm_compute; discriminate | vm_compute; reflexivity].
Defined.

Lemma session_heap_witness :
  exists r slot m', session 3 dev port program good_device = Done ((r, slot), m') /\
    exists l, mx_trace m' = mx_trace good_device ++ l /\
      count_blk BlkClient (mx_heap m') = S (count_blk BlkClient (mx_heap good_device)) /\
      count_blk BlkContent (mx_heap m') = (count_blk BlkContent (mx_heap good_device) + count_sends l)%nat /\
      (count_blk BlkPlist (mx_heap m') <= S (count_blk BlkPlist (mx_heap good_device)))%nat /\
      (slot <> Some None -> count_blk BlkPlist (mx_heap m') = count_blk BlkPlist (mx_heap good_device)) /\
      (forall b, b <> BlkClient -> b <> BlkContent -> b <> BlkPlist ->
                 count_blk b (mx_heap m') = count_blk b (mx_heap good_device)).
Proof.
  do 3 eexists. split; [vm_compute; reflexivity|].
  eapply (session_heap 3 dev port program good_device);
    [vm_compute; discriminate | vm_compute; discriminate | vm_compute; reflexivity].
Defined.



End SessionWitnesses.
