(* ===== verification/Heap.v ===== *)
(** * Memory safety: the absence of undefined behaviour

    The heap of the scripted runtime (file [Usbmux], [ScriptMux]) is a
    list of live blocks with their addresses; [free] of an address that
    is not live is undefined behaviour.  [preserves P c] says that the
    computation [c] keeps a state predicate [P] on every run that
    completes; the runtime's operations keep "debug output off"
    ([dbg_malloc], [dbg_free], [dbg_log]), and the combinators of the
    state monad with the hint database [msync_wf] lift that to the
    receive loop, [mobilesync_recv], [mobilesync_send], the handshake,
    the release and every session.

    [never_undefined c] says that [c] has no undefined behaviour from any
    state with debug output off.  [free] of a block that is not live and
    the [memcpy] past a wrapped allocation are the undefined behaviours of
    the file; [session_defined] shows that with debug output off and
    frames whose [length + 4] fits in 32 bits a session has none: every
    [free] and [plist_free] of [MobileSync.c] is of a block it allocated
    and still live.  The [plist_free] of a tree just received is shown
    live from the receive's own equation ([nu_bind_recv],
    [recv_then_free]). *)

From Stdlib Require Import ZArith List Bool Lia.
From S2P Require Import Prelude Endian Plist Codec Runtime Usbmux Channel Handshake Session.
Import ListNotations.
Local Open Scope Z_scope.
Local Open Scope msync_scope.
Import ScriptMux.

Create HintDb msync_wf.
Create HintDb msync_nu.

(** [c] keeps [P] on every run that completes. *)
Definition preserves {A} (P : mux -> Prop) (c : st mux A) : Prop :=
  forall m x m', P m -> c m = Done (x, m') -> P m'.


Definition debug_off (m : mux) : Prop := mx_debug m = false.

(** A property of the runtime's state only. *)
Definition runtime_prop (P : mux -> Prop) : Prop :=
  forall m m', runtime_of m' = runtime_of m -> P m -> P m'.

(** ** Predicates of the runtime state *)

Lemma debug_off_runtime : runtime_prop debug_off.
Proof. intros m m'. unfold runtime_of, debug_off. intros E. injection E as _ _ -> _. exact (fun H => H). Qed.

Section Combinators.
Variable P : mux -> Prop.

Lemma wf_ret {A} (a : A) : preserves P (st_ret a).
Proof. intros m x m' H E. injection E as _ <-. exact H. Qed.

Lemma wf_bind {A B} (c : st mux A) (k : A -> st mux B) :
  preserves P c -> (forall a, preserves P (k a)) -> preserves P (st_bind c k).
Proof.
  intros Hc Hk m x m' H E. apply st_bind_inv in E as (a & m1 & E1 & E2).
  exact (Hk a m1 x m' (Hc m a m1 H E1) E2).
Qed.

Lemma wf_undefined {A} : preserves P (fun _ : mux => @Undefined (A * mux)).
Proof. intros m x m' _ E. discriminate. Qed.

Lemma wf_out_of_fuel {A} : preserves P (fun _ : mux => @OutOfFuel (A * mux)).
Proof. intros m x m' _ E. discriminate. Qed.

Hypothesis HP : runtime_prop P.

Lemma wf_lift {A} (op : mux -> A * mux) :
  (forall m, runtime_of (snd (op m)) = runtime_of m) -> preserves P (st_lift op).
Proof.
  intros Hop m x m' H E. unfold st_lift in E. specialize (Hop m).
  destruct (op m) as [a m1]. injection E as _ <-. exact (HP _ _ Hop H).
Qed.

Lemma wf_recv fd n : preserves P (st_lift (usbmuxd_recv fd n)).
Proof. apply wf_lift. apply recv_runtime. Qed.

Lemma wf_send fd d : preserves P (st_lift (usbmuxd_send fd d)).
Proof. apply wf_lift. apply send_runtime. Qed.

Lemma wf_connect h p : preserves P (st_lift (usbmuxd_connect h p)).
Proof. apply wf_lift. apply connect_runtime. Qed.

Lemma wf_disconnect fd : preserves P (st_lift (usbmuxd_disconnect fd)).
Proof. apply wf_lift. apply disconnect_runtime. Qed.

End Combinators.

(** The runtime never turns debug output on or off. *)
Lemma dbg_malloc b : preserves debug_off (st_malloc b).
Proof. intros m x m' H E. cbn in E. injection E as _ <-. exact H. Qed.

Lemma dbg_free p : preserves debug_off (st_free p).
Proof.
  intros m x m' H E. unfold st_free in E. destruct (p =? 0); [injection E as _ <-; exact H|].
  cbn [c_free script_runtime] in E. unfold free in E.
  destruct (heap_remove p (mx_heap m)); [injection E as _ <-; exact H | discriminate].
Qed.

Lemma dbg_log `{Hc : PlistCodec} f xml q : preserves debug_off (st_log_plist f xml q).
Proof.
  intros m x m' H E. unfold st_log_plist in E. cbn [c_debug c_log script_runtime] in E.
  unfold debug_off in H. rewrite H in E. injection E as _ <-. exact H.
Qed.

#[export] Hint Resolve wf_bind wf_ret wf_undefined wf_out_of_fuel wf_recv wf_send wf_connect wf_disconnect
  debug_off_runtime dbg_malloc dbg_free dbg_log : msync_wf.

(** One step of the proofs below: split a bind, a match or a
    conditional, or close the goal with the database. *)
Ltac wf_step :=
  match goal with
  | |- preserves _ (st_bind _ _) => apply wf_bind; [| intros ?]
  | |- preserves _ (match ?x with _ => _ end) => destruct x
  | |- preserves _ (if ?b then _ else _) => destruct b
  | |- preserves _ (let _ := _ in _) => cbv zeta
  | |- _ => solve [eauto with msync_wf]
  end.

Ltac wf_auto := repeat wf_step.

(** ** Every operation of the file keeps such a property *)

Section Operations.
Context `{PlistCodec}.
Variable P : mux -> Prop.
Hypothesis HP : runtime_prop P.
Hypothesis Hmalloc : forall b, preserves P (st_malloc b).
Hypothesis Hfree : forall p, preserves P (st_free p).
Hypothesis Hlog : forall f xml q, preserves P (st_log_plist f xml q).
#[local] Hint Resolve HP Hmalloc Hfree Hlog : msync_wf.

Lemma pres_debug f q : preserves P (debug_plist f q).
Proof. unfold debug_plist. wf_auto. Qed.
#[local] Hint Resolve pres_debug : msync_wf.

Lemma pres_recv_loop f fd n buf r : preserves P (recv_loop f fd n buf r).
Proof. revert buf r. induction f as [|f IH]; intros buf r; simpl; wf_auto. Qed.
#[local] Hint Resolve pres_recv_loop : msync_wf.

Lemma pres_plist_new t : preserves P (st_plist_new t).
Proof. unfold st_plist_new. wf_auto. Qed.

Lemma pres_plist_free p : preserves P (st_plist_free p).
Proof. unfold st_plist_free. wf_auto. Qed.
#[local] Hint Resolve pres_plist_new pres_plist_free : msync_wf.

Lemma pres_from_bin_alloc b : preserves P (plist_from_bin_alloc b).
Proof. unfold plist_from_bin_alloc. wf_auto. Qed.
#[local] Hint Resolve pres_from_bin_alloc : msync_wf.

Lemma pres_recv_finish slot a r b : preserves P (recv_finish slot a r b).
Proof. unfold recv_finish. wf_auto. Qed.
#[local] Hint Resolve pres_recv_finish : msync_wf.

Lemma pres_mobilesync_recv fuel c slot : preserves P (mobilesync_recv fuel c slot).
Proof. unfold mobilesync_recv. wf_auto. Qed.

Lemma pres_mobilesync_send c p : preserves P (mobilesync_send c p).
Proof. unfold mobilesync_send. wf_auto. Qed.
#[local] Hint Resolve pres_mobilesync_recv pres_mobilesync_send : msync_wf.

Lemma pres_send_new_plist c p : preserves P (send_new_plist c p).
Proof. unfold send_new_plist. wf_auto. Qed.
#[local] Hint Resolve pres_send_new_plist : msync_wf.

Lemma pres_free_client c : preserves P (mobilesync_free_client c).
Proof. unfold mobilesync_free_client, mobilesync_disconnect. wf_auto. Qed.

Lemma pres_exchange fuel c slot : preserves P (exchange_versions fuel c slot).
Proof. unfold exchange_versions, ack_and_wait_ready. wf_auto. Qed.
#[local] Hint Resolve pres_free_client pres_exchange : msync_wf.

Lemma pres_new_client fuel dev port slot : preserves P (mobilesync_new_client fuel dev port slot).
Proof. unfold mobilesync_new_client. wf_auto. Qed.

Lemma pres_api_step fuel c a : preserves P (api_step fuel c a).
Proof. unfold api_step. wf_auto. Qed.

Lemma pres_run_api fuel c ops : preserves P (run_api fuel c ops).
Proof. induction ops as [|a ops IH]; simpl; wf_auto; apply pres_api_step. Qed.

Lemma pres_session fuel dev port ops : preserves P (session fuel dev port ops).
Proof. unfold session. wf_auto; first [apply pres_new_client | apply pres_run_api]. Qed.

End Operations.

#[export] Hint Resolve pres_debug pres_plist_new pres_plist_free pres_from_bin_alloc
  pres_recv_loop pres_recv_finish pres_mobilesync_recv pres_send_new_plist
  pres_mobilesync_send pres_free_client pres_exchange pres_new_client pres_api_step pres_run_api
  pres_session : msync_wf.

(** ** No undefined behaviour *)

(** [c] has no undefined behaviour from a state with debug output off. *)
Definition never_undefined {A} (c : st mux A) : Prop :=
  forall m, debug_off m -> c m <> Undefined.

(** The payload [plist_to_bin] makes of [p] leaves room for the 4-byte
    header in 32 bits: [length + 4] does not wrap (line 200). *)
Definition frame_fits `{PlistCodec} (p : plist) : Prop :=
  u32_of_nat (length (plist_to_bin p)) < u32_max - 4.

Definition call_fits `{PlistCodec} (a : api_call) : Prop :=
  match a with
  | ApiSend p => frame_fits p
  | _ => True
  end.

Lemma nu_ret {A} (a : A) : never_undefined (st_ret a).
Proof. intros m _. discriminate. Qed.

Lemma nu_out_of_fuel {A} : never_undefined (fun _ : mux => @OutOfFuel (A * mux)).
Proof. intros m _. discriminate. Qed.

Lemma nu_lift {A} (op : mux -> A * mux) : never_undefined (st_lift op).
Proof. intros m _. unfold st_lift. destruct (op m). discriminate. Qed.

Lemma nu_malloc b : never_undefined (st_malloc b).
Proof. intros m _. rewrite script_malloc. discriminate. Qed.

Lemma nu_bind {A B} (c : st mux A) (k : A -> st mux B) :
  never_undefined c -> preserves debug_off c -> (forall a, never_undefined (k a)) ->
  never_undefined (st_bind c k).
Proof.
  intros Hc Hp Hk m Hm. unfold st_bind.
  destruct (c m) as [[a m1]| |] eqn:E; [exact (Hk a m1 (Hp _ _ _ Hm E)) | discriminate | ].
  exfalso. exact (Hc m Hm E).
Qed.

Section Defined.
Context `{PlistCodec}.

Lemma nu_recv fuel c slot : never_undefined (mobilesync_recv fuel c slot).
Proof. intros m Hm. exact (mobilesync_recv_defined fuel c slot m Hm). Qed.

Lemma nu_send c p : frame_fits p -> never_undefined (mobilesync_send (Some c) (Some p)).
Proof. intros Hp m _. destruct (script_send c p m Hp) as (m' & -> & _). discriminate. Qed.

Lemma nu_send_new_plist c p : frame_fits p -> never_undefined (send_new_plist c p).
Proof.
  intros Hp m _. destruct (script_send c p (snd (malloc BlkPlist m)) Hp) as (m2 & Hs & _).
  destruct (send_new_plist_run _ _ _ _ _ Hs) as [a ->]. discriminate.
Qed.

(** A receive followed by code that may free the tree it received: the
    continuation is run on the state the receive left, with the receive's
    equation at hand, so that the [plist_free] can be shown to be of a
    live block. *)
Lemma nu_bind_recv {A} fuel c (k : iphone_error_t * option (option plist_t) -> st mux A) :
  (forall r a m0 m1, mobilesync_recv fuel (Some c) (Some None) m0 = Done ((r, a), m1) ->
                     debug_off m1 -> k (r, a) m1 <> Undefined) ->
  never_undefined (st_bind (mobilesync_recv fuel (Some c) (Some None)) k).
Proof.
  intros Hk m Hm. unfold st_bind.
  destruct (mobilesync_recv fuel (Some c) (Some None) m) as [[[r a] m1]| |] eqn:E.
  - apply (Hk r a m m1 E). revert Hm E. apply pres_mobilesync_recv; eauto with msync_wf.
  - discriminate.
  - exfalso. exact (nu_recv fuel (Some c) (Some None) m Hm E).
Qed.

(** The [plist_free] of the tree just received, then [k]. *)
Lemma recv_then_free fuel c m0 r a m1 :
  mobilesync_recv fuel (Some c) (Some None) m0 = Done ((r, a), m1) ->
  exists m2, (forall A (k : unit -> st mux A), st_bind (st_plist_free (slot_handle a)) k m1 = k tt m2) /\
    mx_debug m2 = mx_debug m1.
Proof.
  intros Hr. destruct (recv_plist_free _ _ _ _ _ _ Hr) as (m2 & Hf & _ & _ & Hd & _).
  exists m2. split; [intros A k; exact (st_bind_Done _ _ _ _ _ Hf) | exact Hd].
Qed.

End Defined.

#[export] Hint Resolve nu_ret nu_out_of_fuel nu_lift nu_malloc nu_recv nu_send nu_send_new_plist
  : msync_nu.

Ltac nu_step :=
  match goal with
  | |- never_undefined (st_bind _ _) => apply nu_bind; [ | solve [eauto with msync_wf] | intros ?]
  | |- never_undefined (match ?x with _ => _ end) => destruct x
  | |- never_undefined (if ?b then _ else _) => destruct b
  | |- never_undefined (let _ := _ in _) => cbv zeta
  | |- _ => solve [eauto with msync_nu]
  end.

Ltac nu_auto := repeat nu_step.

Section Session.
Context `{PlistCodec}.
Hypothesis Hack : frame_fits version_ok_msg.
Hypothesis Hbye : frame_fits disconnect_msg.

Lemma nu_free_client c : never_undefined (mobilesync_free_client c).
Proof. unfold mobilesync_free_client, mobilesync_disconnect. nu_auto. Qed.

Lemma nu_ack fuel c ret slot : never_undefined (ack_and_wait_ready fuel c ret slot).
Proof.
  unfold ack_and_wait_ready. apply nu_bind; [eauto with msync_nu | eauto with msync_wf | intros ra].
  apply nu_bind_recv. intros r a m0 m1 Hr _. cbv beta iota zeta.
  destruct (recv_then_free _ _ _ _ _ _ Hr) as (m2 & Hk & _). rewrite Hk.
  destruct (plist_find_node_by_string _ _); discriminate.
Qed.

Lemma nu_exchange fuel c slot : never_undefined (exchange_versions fuel c slot).
Proof.
  unfold exchange_versions. apply nu_bind_recv. intros r a m0 m1 Hr Hd. cbv beta iota.
  destruct (read_version (received a)) as [[v1 v2]|]; [|discriminate].
  destruct (recv_then_free _ _ _ _ _ _ Hr) as (m2 & Hk & Hd2). rewrite Hk.
  destruct (_ && _); [apply nu_ack; unfold debug_off; congruence | discriminate].
Qed.
#[local] Hint Resolve nu_free_client nu_exchange : msync_nu.

Lemma nu_new_client fuel dev port slot : never_undefined (mobilesync_new_client fuel dev port slot).
Proof. unfold mobilesync_new_client. nu_auto. Qed.

Lemma nu_run_api fuel c ops : Forall call_fits ops -> never_undefined (run_api fuel c ops).
Proof.
  induction 1 as [|a ops Ha _ IH]; simpl; nu_auto.
  destruct a; unfold api_step; simpl in Ha; [nu_auto | | nu_auto].
  apply nu_bind_recv. intros r a m0 m1 Hr _. cbv beta iota.
  destruct (recv_plist_free _ _ _ _ _ _ Hr) as (m2 & Hf & _). rewrite Hf. discriminate.
Qed.

End Session.

(** C28: no undefined behaviour in a session: with debug output off, and
    when every message sent (the program's, [DLVersionsOk] and
    [DLMessageDisconnect]) has a binary form whose [length + 4] fits in
    32 bits, a session never reaches undefined behaviour, whatever the
    device does and whatever the program calls: every [free] of
    [MobileSync.c] is of a live block it allocated, and no [memcpy]
    writes past its buffer.  The two conditions are the two undefined
    behaviours of the file (C23 and C14). *)
Theorem session_defined `{PlistCodec} fuel dev port ops m :
  mx_debug m = false -> frame_fits version_ok_msg -> frame_fits disconnect_msg ->
  Forall call_fits ops ->
  session fuel dev port ops m <> Undefined.
Proof.
  intros Hd Hack Hbye Hops. revert m Hd. change (never_undefined (session fuel dev port ops)).
  unfold session. apply nu_bind; [apply nu_new_client; assumption | eauto with msync_wf |].
  intros [r slot]. destruct slot as [[c|]|]; nu_auto. apply nu_run_api; assumption.
Qed.

Module HeapWitnesses.
Import TLV HandshakeWitnesses SessionWitnesses.

Lemma session_defined_witness :
  mx_debug good_device = false /\ frame_fits version_ok_msg /\ frame_fits disconnect_msg /\
  Forall call_fits program /\ session 3 dev port program good_device <> Undefined.
Proof.
  assert (H1 : mx_debug good_device = false) by reflexivity.
  assert (H2 : frame_fits version_ok_msg) by (vm_compute; reflexivity).
  assert (H3 : frame_fits disconnect_msg) by (vm_compute; reflexivity).
  assert (H4 : Forall call_fits program) by (repeat constructor; vm_compute; reflexivity).
  repeat split; try assumption. exact (session_defined 3 dev port program good_device H1 H2 H3 H4).
Defined.

End HeapWitnesses.
